(** * The background agent job of the mail assistant

    A shallow embedding of the job runner ([mail-assistant/tasks.py] and its
    later revision [mail-assistant/app.py] with [agent_logging.py]), of the
    HTTP front door ([mail-assistant/server.py]) and of the NDJSON readers
    ([app.call_ollama], [OllamaLLM._call]), followed by the properties the
    specification states about them.

    Conventions of the model:
    - a Python [str] is a [string] whose characters are code points 0..255;
    - a JSON document is a [json] value; a Python [dict] is an association
      list in insertion order with distinct keys;
    - a file that is read with [json.loads] or written with [json.dumps] is
      kept by the document it denotes ([Parsed]) or as text that does not
      parse ([Malformed]);
    - the job store maps an agent id to the directory
      [PERSISTENT_DIR/agents/<id>], one directory for each id, which is how
      pathlib joins ids that are plain names;
    - the runner is embedded twice.  [Tasks] and [App] run on a store that
      accepts every operation on an existing directory, so that a file
      operation fails exactly when the directory is missing: the statements
      about what a job computes are made there.  [DiskTasks] and [DiskApp]
      run on a store with faults ([disk]), where [mkdir], the read of
      [input.json], the writes and the appends can be refused and a write can
      stop midway: the statements that range over every failure of a run are
      made there;
    - the network, the adapter subprocesses, the clock and CPython's [repr]
      are an environment [env] of oracles; they do not touch the job store. *)

From Stdlib Require Import ZArith String Ascii List Bool Lia.
From stdpp Require Import base option gmap strings list fin_maps pretty.

Set Warnings "-register-all".

Open Scope string_scope.
Open Scope Z_scope.

(** The characters that string literals cannot hold. *)
Definition nl : string := String (ascii_of_N 10) "".
Definition dquote : string := String (ascii_of_N 34) "".

(** ** JSON values as Python sees them *)

Inductive json : Type :=
| JNull
| JBool (b : bool)
| JInt (n : Z)
| JFloat (repr : string)          (* a float, carried by its Python repr *)
| JStr (s : string)
| JArr (items : list json)
| JObj (fields : list (string * json)).

(** [bool(v)] *)
Definition truthy (v : json) : bool :=
  match v with
  | JNull => false
  | JBool b => b
  | JInt n => negb (n =? 0)
  | JFloat r => negb (String.eqb r "0.0" || String.eqb r "-0.0")
  | JStr s => negb (String.eqb s "")
  | JArr items => match items with [] => false | _ => true end
  | JObj fields => match fields with [] => false | _ => true end
  end.

(** [a or b] *)
Definition py_or (a b : json) : json := if truthy a then a else b.

(** [isinstance(v, dict)] *)
Definition is_dict (v : json) : bool :=
  match v with JObj _ => true | _ => false end.

(** [type(v).__name__] *)
Definition type_name (v : json) : string :=
  match v with
  | JNull => "NoneType"
  | JBool _ => "bool"
  | JInt _ => "int"
  | JFloat _ => "float"
  | JStr _ => "str"
  | JArr _ => "list"
  | JObj _ => "dict"
  end.

(** [d.get(k)] on the association list of a dict *)
Fixpoint dict_get (k : string) (fields : list (string * json)) : option json :=
  match fields with
  | [] => None
  | (k', v) :: rest => if String.eqb k k' then Some v else dict_get k rest
  end.

(** [d[k] = v]: an existing key keeps its place, a new one goes last *)
Fixpoint dict_set (k : string) (v : json) (fields : list (string * json))
  : list (string * json) :=
  match fields with
  | [] => [(k, v)]
  | (k', v') :: rest =>
      if String.eqb k k' then (k, v) :: rest else (k', v') :: dict_set k v rest
  end.

(** [k in d] *)
Definition dict_has (k : string) (fields : list (string * json)) : bool :=
  match dict_get k fields with Some _ => true | None => false end.

(** ** Exceptions *)

Inductive exn_class : Type :=
| RuntimeError
| ValueError
| TypeError
| AttributeError
| FileNotFoundError
| JSONDecodeError
| RequestException                (* requests.exceptions.RequestException and subclasses *)
| OtherException (name : string). (* any other subclass of Exception *)

(** An exception instance; [exn_msg] is [str(e)]. *)
Record exn : Type := Exn { exn_cls : exn_class; exn_msg : string }.

Definition is_request_exception (e : exn) : bool :=
  match exn_cls e with RequestException => true | _ => false end.

(** [v.get(k)] and [v.get(k, default)] on an arbitrary value: only a dict has
    the method. *)
Definition no_attribute (v : json) (attr : string) : exn :=
  Exn AttributeError
      ("'" +:+ type_name v +:+ "' object has no attribute '" +:+ attr +:+ "'").

Definition py_get_default (v : json) (k : string) (dflt : json) : exn + json :=
  match v with
  | JObj fields => inr (match dict_get k fields with Some x => x | None => dflt end)
  | _ => inl (no_attribute v "get")
  end.

Definition py_get (v : json) (k : string) : exn + json :=
  py_get_default v k JNull.

(** ** [json.dumps(v)] with its default arguments
    ([ensure_ascii=True], separators [", "] and [": "]) *)

Definition hex_digit (n : N) : ascii :=
  ascii_of_N (if (n <? 10)%N then 48 + n else 87 + n).

Definition escape_char (c : ascii) : string :=
  let n := N_of_ascii c in
  if (n =? 34)%N then "\" +:+ dquote
  else if (n =? 92)%N then "\\"
  else if (n =? 10)%N then "\n"
  else if (n =? 13)%N then "\r"
  else if (n =? 9)%N then "\t"
  else if (n =? 8)%N then "\b"
  else if (n =? 12)%N then "\f"
  else if ((n <? 32) || (126 <? n))%N then
    "\u00" +:+ String (hex_digit (n / 16)) (String (hex_digit (n mod 16)) "")
  else String c "".

Fixpoint escape_string (s : string) : string :=
  match s with
  | EmptyString => ""
  | String c rest => escape_char c +:+ escape_string rest
  end.

Definition encode_string (s : string) : string :=
  dquote +:+ escape_string s +:+ dquote.

Definition encode_float (r : string) : string :=
  if String.eqb r "nan" then "NaN"
  else if String.eqb r "inf" then "Infinity"
  else if String.eqb r "-inf" then "-Infinity"
  else r.

Fixpoint json_dumps (v : json) : string :=
  match v with
  | JNull => "null"
  | JBool true => "true"
  | JBool false => "false"
  | JInt n => pretty n
  | JFloat r => encode_float r
  | JStr s => encode_string s
  | JArr items =>
      "[" +:+ String.concat ", " (map json_dumps items) +:+ "]"
  | JObj fields =>
      "{" +:+ String.concat ", "
                (map (fun kv => encode_string (fst kv) +:+ ": " +:+ json_dumps (snd kv))
                     fields)
          +:+ "}"
  end.

(** [str(v)] as an f-string field renders it.  The [repr] of a list or of a
    dict is CPython's and is left to the oracle [container_repr]. *)
Definition format_value (container_repr : json -> string) (v : json) : string :=
  match v with
  | JStr s => s
  | JNull => "None"
  | JBool true => "True"
  | JBool false => "False"
  | JInt n => pretty n
  | JFloat r => r
  | JArr _ | JObj _ => container_repr v
  end.

(** [str.isspace] on one character and [str.rstrip()] *)
Definition py_isspace (c : ascii) : bool :=
  let n := N_of_ascii c in
  ((9 <=? n) && (n <=? 13) || (28 <=? n) && (n <=? 32) || (n =? 133) || (n =? 160))%N.

(** [s.rstrip(chars)], the stripped characters given as a predicate *)
Fixpoint rstrip_by (strip : ascii -> bool) (s : string) : string :=
  match s with
  | EmptyString => ""
  | String c rest =>
      match rstrip_by strip rest with
      | EmptyString => if strip c then "" else String c ""
      | kept => String c kept
      end
  end.

Definition rstrip (s : string) : string := rstrip_by py_isspace s.

(** ** Results that may raise *)

Definition and_then {A B : Type} (r : exn + A) (k : A -> exn + B) : exn + B :=
  match r with
  | inl e => inl e
  | inr a => k a
  end.

(** ** HTTP responses of [requests] *)

(** One item of [resp.iter_lines()]: the line and what [json.loads] makes of it. *)
Record ndline : Type := NdLine { raw : string; loads : exn + json }.

Record response : Type := Response {
  status_code : Z;
  reason : string;
  url : string;
  content_type : option string;        (* the Content-Type header *)
  encoding : option string;            (* resp.encoding *)
  text : string;                       (* resp.text *)
  iter_lines : exn + list ndline;      (* the stream, or the error that breaks it *)
  json_body : exn + json               (* resp.json() *)
}.

(** [resp.raise_for_status()] *)
Definition raise_for_status (resp : response) : exn + unit :=
  let code := status_code resp in
  if (400 <=? code) && (code <? 500) then
    inl (Exn RequestException
             (pretty code +:+ " Client Error: " +:+ reason resp +:+ " for url: " +:+ url resp))
  else if (500 <=? code) && (code <? 600) then
    inl (Exn RequestException
             (pretty code +:+ " Server Error: " +:+ reason resp +:+ " for url: " +:+ url resp))
  else inr tt.

(** [resp.ok] *)
Definition ok (resp : response) : bool :=
  match raise_for_status resp with inr _ => true | inl _ => false end.

(** ** The environment of a run *)

Record env : Type := Env {
  OLLAMA_HOST : string;
  OLLAMA_MODEL : string;
  FLOWISE_RUN_URL : string;
  PERSISTENT_DIR : string;
  asctime_at : nat -> string;                       (* time.asctime() at each reading *)
  container_repr : json -> string;                  (* repr of a list or dict *)
  requests_post : string -> json -> exn + response; (* requests.post(url, json=...) *)
  adapter_exists : string -> bool;                  (* (Path("/app/tools") / name).exists() *)
  subprocess_run : string -> json -> exn + (Z * string * string)
                                                    (* returncode, stdout, stderr *)
}.

(** ** The job store *)

Inductive jfile : Type :=
| Parsed (doc : json)
| Malformed (why : string).   (* [why] is the message of the JSONDecodeError *)

Record agent_files : Type := AgentFiles {
  input_json : option jfile;
  state_json : option jfile;
  log_txt : option string;
  output_json : option jfile
}.

Definition empty_dir : agent_files := AgentFiles None None None None.

(** What a run did, in order. *)
Inductive event : Type :=
| StateWritten (agent : string) (data : json)
| OutputWritten (agent : string) (data : json)
| LogAppended (agent : string) (line : string)
| DirCreated (agent : string)
| FlowiseCalled (flow_id input_data : json)
| OllamaCalled (prompt : json)
| AdapterCalled (adapter params : json).

Record world : Type := World {
  fs : gmap string agent_files;
  clock : nat;
  journal : list event
}.

Definition with_state (v : jfile) (d : agent_files) : agent_files :=
  AgentFiles (input_json d) (Some v) (log_txt d) (output_json d).

Definition with_output (v : jfile) (d : agent_files) : agent_files :=
  AgentFiles (input_json d) (state_json d) (log_txt d) (Some v).

Definition with_log (v : string) (d : agent_files) : agent_files :=
  AgentFiles (input_json d) (state_json d) (Some v) (output_json d).

(** Replace the directory of [agent_id] and record the event. *)
Definition commit (agent_id : string) (d : agent_files) (ev : event) (w : world) : world :=
  World (<[agent_id := d]> (fs w)) (clock w) (journal w ++ [ev]).

(** The files of a job as an observer finds them. *)
Definition state_of (agent_id : string) (w : world) : option jfile :=
  match fs w !! agent_id with Some d => state_json d | None => None end.

Definition output_of (agent_id : string) (w : world) : option jfile :=
  match fs w !! agent_id with Some d => output_json d | None => None end.

Definition input_of (agent_id : string) (w : world) : option jfile :=
  match fs w !! agent_id with Some d => input_json d | None => None end.

(** ** Statements that read and change the world and may raise *)

Definition M (A : Type) : Type := world -> (exn + A) * world.

Definition ret {A : Type} (a : A) : M A := fun w => (inr a, w).

Definition raise {A : Type} (e : exn) : M A := fun w => (inl e, w).

Definition lift {A : Type} (r : exn + A) : M A := fun w => (r, w).

Definition bind {A B : Type} (m : M A) (k : A -> M B) : M B :=
  fun w =>
    match m w with
    | (inr a, w') => k a w'
    | (inl e, w') => (inl e, w')
    end.

(** [try: m  except Exception as e: h e] *)
Definition try_except {A : Type} (m : M A) (h : exn -> M A) : M A :=
  fun w =>
    match m w with
    | (inr a, w') => (inr a, w')
    | (inl e, w') => h e w'
    end.

(** Run [m] and hand its outcome to the continuation instead of raising. *)
Definition attempt {A : Type} (m : M A) : M (exn + A) :=
  fun w => let (r, w') := m w in (inr r, w').

Definition emit (ev : event) : M unit :=
  fun w => (inr tt, World (fs w) (clock w) (journal w ++ [ev])).

Declare Scope job_scope.
Delimit Scope job_scope with job.
Notation "'let*' x ':=' m 'in' k" :=
  (bind m (fun x => k))
    (at level 10, x name, m at level 100, k at level 200) : job_scope.
Notation "m ';;' k" :=
  (bind m (fun _ => k))
    (at level 100, k at level 200, right associativity) : job_scope.
Open Scope job_scope.

(** [time.asctime()]: each reading moves the clock. *)
Definition asctime (E : env) : M string :=
  fun w => (inr (asctime_at E (clock w)), World (fs w) (S (clock w)) (journal w)).

(** The error of [open] on a path under a directory that does not exist. *)
Definition no_such_file (E : env) (agent_id name : string) : exn :=
  Exn FileNotFoundError
      ("[Errno 2] No such file or directory: '" +:+ PERSISTENT_DIR E +:+ "/agents/"
         +:+ agent_id +:+ "/" +:+ name +:+ "'").

(** [(agent_dir / "state.json").write_text(json.dumps(data, indent=2))] *)
Definition write_state_json (E : env) (agent_id : string) (data : json) : M unit :=
  fun w =>
    match fs w !! agent_id with
    | None => (inl (no_such_file E agent_id "state.json"), w)
    | Some d =>
        (inr tt, commit agent_id (with_state (Parsed data) d) (StateWritten agent_id data) w)
    end.

(** [(agent_dir / "output.json").write_text(json.dumps(out, indent=2))] *)
Definition write_output_json (E : env) (agent_id : string) (out : json) : M unit :=
  fun w =>
    match fs w !! agent_id with
    | None => (inl (no_such_file E agent_id "output.json"), w)
    | Some d =>
        (inr tt, commit agent_id (with_output (Parsed out) d) (OutputWritten agent_id out) w)
    end.

(** [with (agent_dir / "log.txt").open("a") as f: f.write(line)] *)
Definition append_log_txt (E : env) (agent_id : string) (line : string) : M unit :=
  fun w =>
    match fs w !! agent_id with
    | None => (inl (no_such_file E agent_id "log.txt"), w)
    | Some d =>
        (inr tt,
         commit agent_id
                (with_log (match log_txt d with Some old => old | None => "" end +:+ line) d)
                (LogAppended agent_id line) w)
    end.

(** [input_path.exists()] followed by [json.loads(input_path.read_text())]:
    [None] when there is no such file. *)
Definition find_input (agent_id : string) : M (option jfile) :=
  fun w => (inr (input_of agent_id w), w).

Definition json_loads (f : jfile) : exn + json :=
  match f with
  | Parsed doc => inr doc
  | Malformed why => inl (Exn JSONDecodeError why)
  end.


(** ** The workflow of [run_agent_background]

    [tasks.py] and [app.py] carry the same statements between [try:] and
    [except]; they differ in the helpers the statements call
    ([append_agent_log], [write_agent_state], [call_ollama]) and in the
    handler.  The shared statements are embedded once, over the helpers. *)

Section Workflow.
Context (E : env).
Variable append_agent_log : string -> string -> M unit.
Variable write_agent_state : string -> json -> M unit.
Variable call_ollama : json -> exn + json.

Definition call_flowise (flow_id input_data : json) : exn + json :=
  if negb (truthy flow_id) then
    inl (Exn ValueError "flow_id required for call_flowise")
  else
    let payload := JObj [("flow_id", flow_id); ("input", input_data)] in
    and_then (requests_post E (FLOWISE_RUN_URL E) payload) (fun resp =>
    and_then (raise_for_status resp) (fun _ =>
    json_body resp)).

(** [append_agent_log(agent_dir, f"[{time.asctime()}] {message}")] *)
Definition log_stamped (agent_id : string) (message : string) : M unit :=
  let* t := asctime E in
  append_agent_log agent_id ("[" +:+ t +:+ "] " +:+ message).

Definition run_tool_adapter (agent_id : string) (adapter_name params : json) : M json :=
  match adapter_name with
  | JStr name =>
      if negb (adapter_exists E name) then
        append_agent_log agent_id ("Adapter not found: " +:+ name) ;;
        raise (Exn FileNotFoundError ("Adapter not found: " +:+ name))
      else
        emit (AdapterCalled adapter_name params) ;;
        let* proc := lift (subprocess_run E name params) in
        let '(returncode, stdout, stderr) := proc in
        ret (JObj [("returncode", JInt returncode);
                   ("stdout", JStr stdout);
                   ("stderr", JStr stderr)])
  | _ =>
      (* Path("/app/tools") / adapter_name *)
      raise (Exn TypeError ("unsupported operand type(s) for /: 'PosixPath' and '"
                              +:+ type_name adapter_name +:+ "'"))
  end.

(** The documents of the three calls to [write_agent_state]. *)
Definition state_running : json :=
  JObj [("status", JStr "running"); ("progress", JInt 0)].

Definition state_completed : json :=
  JObj [("status", JStr "completed"); ("progress", JInt 100)].

Definition state_failed (e : exn) : json :=
  JObj [("status", JStr "failed"); ("progress", JInt 0); ("error", JStr (exn_msg e))].

(** The optional workflow call ([flow_id = payload.get("flow_id")] up to
    the [else] of [if flow_id:]). *)
Definition flowise_step (agent_id : string) (payload : json) : M json :=
  let* flow_id := lift (py_get payload "flow_id") in
  if truthy flow_id then
    log_stamped agent_id ("Calling Flowise flow " +:+ format_value (container_repr E) flow_id) ;;
    try_except
      (let* context := lift (py_get_default payload "context" (JObj [])) in
       emit (FlowiseCalled flow_id context) ;;
       let* flow_out := lift (call_flowise flow_id context) in
       log_stamped agent_id "Flowise responded" ;;
       ret flow_out)
      (fun e =>
         log_stamped agent_id ("Flowise failed: " +:+ exn_msg e) ;;
         ret (JObj [("error", JStr (exn_msg e))]))
  else ret JNull.

(** The first operand of [a or b or c] that is truthy, else the last. *)
Definition task_text (payload_prompt payload_task : json) : json :=
  py_or (py_or payload_prompt payload_task) (JStr "No task provided").

Definition flowise_context_header : string :=
  nl +:+ nl +:+ "Flowise output context:" +:+ nl.

(** The prompt handed to [call_ollama] ([prompt = payload.get("prompt") or
    ...] and the [if flow_out and isinstance(flow_out, dict):] after it). *)
Definition build_prompt (payload flow_out : json) : exn + json :=
  and_then (py_get payload "prompt") (fun p =>
  and_then (py_get payload "task") (fun t =>
  let prompt := task_text p t in
  if truthy flow_out && is_dict flow_out then
    inr (JStr (format_value (container_repr E) prompt +:+ flowise_context_header
                 +:+ json_dumps flow_out))
  else inr prompt)).

(** The optional tool adapter ([if payload.get("tool"):]); [out] is
    updated in place, so a failure after [out["adapter_result"] = ...]
    meets the handler with that key already set. *)
Definition adapter_failed (agent_id : string) (out : list (string * json)) (e : exn)
  : M (list (string * json)) :=
  log_stamped agent_id ("Adapter failed: " +:+ exn_msg e) ;;
  ret (dict_set "adapter_error" (JStr (exn_msg e)) out).

Definition adapter_step (agent_id : string) (payload : json) (out : list (string * json))
  : M (list (string * json)) :=
  let* tool := lift (py_get payload "tool") in
  if truthy tool then
    let* adapter := lift (py_get tool "name") in
    let* params := lift (py_get_default tool "params" (JObj [])) in
    log_stamped agent_id ("Running adapter " +:+ format_value (container_repr E) adapter) ;;
    let* ran := attempt (run_tool_adapter agent_id adapter params) in
    match ran with
    | inr adapter_result =>
        let out1 := dict_set "adapter_result" adapter_result out in
        let* logged :=
          attempt (let* rc := lift (py_get adapter_result "returncode") in
                   log_stamped agent_id
                     ("Adapter finished rc=" +:+ format_value (container_repr E) rc)) in
        match logged with
        | inr _ => ret out1
        | inl e => adapter_failed agent_id out1 e
        end
    | inl e => adapter_failed agent_id out e
    end
  else ret out.

(** The last three statements of the [try] block. *)
Definition finish (agent_id : string) (out : list (string * json)) : M unit :=
  write_output_json E agent_id (JObj out) ;;
  write_agent_state agent_id state_completed ;;
  log_stamped agent_id "Agent completed".

(** From the answer of the model to the end of the [try] block. *)
Definition complete (agent_id : string) (payload flow_out gen : json) : M unit :=
  log_stamped agent_id "Ollama responded" ;;
  let* completed_at := asctime E in
  let out := [("model_response", gen);
              ("flowise", flow_out);
              ("completed_at", JStr completed_at)] in
  let* out := adapter_step agent_id payload out in
  finish agent_id out.

(** From the call of the model to the end of the [try] block. *)
Definition generate_and_finish (agent_id : string) (payload flow_out prompt : json)
  : M unit :=
  log_stamped agent_id "Calling Ollama" ;;
  emit (OllamaCalled prompt) ;;
  let* gen := lift (call_ollama prompt) in
  complete agent_id payload flow_out gen.

(** From [flow_id = payload.get("flow_id")] to the end of the [try] block. *)
Definition run_payload (agent_id : string) (payload : json) : M unit :=
  let* flow_out := flowise_step agent_id payload in
  let* prompt := lift (build_prompt payload flow_out) in
  generate_and_finish agent_id payload flow_out prompt.

Definition missing_input (agent_id : string) : exn :=
  Exn RuntimeError ("input.json missing for agent " +:+ agent_id).

(** From [if not input_path.exists():] on, given what was found. *)
Definition run_input (agent_id : string) (input : option jfile) : M unit :=
  match input with
  | None => raise (missing_input agent_id)
  | Some file =>
      let* payload := lift (json_loads file) in
      run_payload agent_id payload
  end.

(** The statements of the [try] block. *)
Definition run_body (agent_id : string) : M unit :=
  log_stamped agent_id "Agent started" ;;
  write_agent_state agent_id state_running ;;
  let* input := find_input agent_id in
  run_input agent_id input.

End Workflow.

(** ** mail-assistant/tasks.py *)

Module Tasks.
Section WithEnv.
Context (E : env).

Definition call_ollama (prompt : json) : exn + json :=
  let url := OLLAMA_HOST E +:+ "/api/generate" in
  let payload := JObj [("model", JStr (OLLAMA_MODEL E));
                       ("prompt", prompt);
                       ("max_tokens", JInt 512);
                       ("temperature", JFloat "0.0")] in
  and_then (requests_post E url payload) (fun resp =>
  and_then (raise_for_status resp) (fun _ =>
  json_body resp)).

Definition write_agent_state (agent_id : string) (data : json) : M unit :=
  write_state_json E agent_id data.

Definition append_agent_log (agent_id : string) (line : string) : M unit :=
  append_log_txt E agent_id (rstrip line +:+ nl).

(** The handler: [except Exception as e:] *)
Definition on_failure (agent_id : string) (e : exn) : M unit :=
  write_agent_state agent_id (state_failed e) ;;
  log_stamped E append_agent_log agent_id ("Agent failed: " +:+ exn_msg e) ;;
  raise e.

Definition run_agent_background (agent_id : string) : M unit :=
  try_except
    (run_body E append_agent_log write_agent_state call_ollama agent_id)
    (on_failure agent_id).

End WithEnv.
End Tasks.

(** ** mail-assistant/agent_logging.py *)

Module AgentLogging.
Section WithEnv.
Context (E : env).

(** [agent_dir.mkdir(parents=True, exist_ok=True)]; the [chmod] that
    follows changes nothing the model keeps. *)
Definition ensure_agent_dir (agent_id : string) : M unit :=
  fun w =>
    match fs w !! agent_id with
    | Some _ => (inr tt, w)
    | None => (inr tt, commit agent_id empty_dir (DirCreated agent_id) w)
    end.

Definition append_agent_log (agent_id : string) (message : string) : M unit :=
  ensure_agent_dir agent_id ;;
  append_log_txt E agent_id (message +:+ nl).

Definition write_agent_state (agent_id : string) (data : json) : M unit :=
  ensure_agent_dir agent_id ;;
  write_state_json E agent_id data.

End WithEnv.
End AgentLogging.

(** ** mail-assistant/app.py *)

Module App.

(** An element of [parts]: [iter_lines(decode_unicode=True)] yields [str]
  when the response has an encoding and [bytes] when it has none. *)
Inductive part : Type :=
| Str (s : string)
| Bytes (b : string).

(** ["".join(parts)] *)
Fixpoint join_from (i : nat) (parts : list part) : exn + string :=
match parts with
| [] => inr ""
| Str s :: rest => and_then (join_from (S i) rest) (fun tail => inr (s +:+ tail))
| Bytes _ :: _ =>
    inl (Exn TypeError ("sequence item " +:+ pretty (Z.of_nat i)
                          +:+ ": expected str instance, bytes found"))
end.

Definition join (parts : list part) : exn + string := join_from 0 parts.

(** [needle in haystack] *)
Definition contains (needle haystack : string) : bool :=
match index 0 needle haystack with Some _ => true | None => false end.

Section WithEnv.
Context (E : env).

(** The line as the loop variable [raw] holds it. *)
Definition raw_item (resp : response) (line : ndline) : part :=
  match encoding resp with
  | Some _ => Str (raw line)
  | None => Bytes (raw line)
  end.

(** What one turn of [for raw in resp.iter_lines(...)] appends to [parts]. *)
Definition line_parts (resp : response) (line : ndline) : list part :=
  if String.eqb (raw line) "" then []
  else
    match and_then (loads line) (fun obj => py_get obj "response") with
    | inr (JStr chunk) => [Str chunk]
    | inr _ => []
    | inl _ => [raw_item resp line]
    end.

Definition collect_parts (resp : response) (lines : list ndline) : list part :=
  flat_map (line_parts resp) lines.

(** The branch taken for streaming NDJSON. *)
Definition is_ndjson (resp : response) : bool :=
  let content_type := match content_type resp with Some v => v | None => "" end in
  contains "ndjson" content_type
  || contains "application/x-ndjson" content_type
  || match encoding resp with None => true | Some _ => false end.

Definition read_ndjson (resp : response) : exn + json :=
  and_then (iter_lines resp) (fun lines =>
  and_then (join (collect_parts resp lines)) (fun combined =>
  inr (JObj [("model", JStr (OLLAMA_MODEL E)); ("text", JStr combined)]))).

Definition call_ollama (prompt : json) : exn + json :=
  let url := OLLAMA_HOST E +:+ "/api/generate" in
  let payload := JObj [("model", JStr (OLLAMA_MODEL E));
                       ("prompt", prompt);
                       ("max_tokens", JInt 512);
                       ("temperature", JFloat "0.0")] in
  let attempt_request :=
    and_then (requests_post E url payload) (fun resp =>
    if negb (ok resp) then
      let body := if String.eqb (text resp) "" then "<no body>"
                  else substring 0 4096 (text resp) in
      inl (Exn RuntimeError
               ("Ollama HTTP " +:+ pretty (status_code resp) +:+ ": " +:+ body))
    else if is_ndjson resp then read_ndjson resp
    else json_body resp) in
  match attempt_request with
  | inl e =>
      if is_request_exception e
      then inl (Exn RuntimeError ("Ollama request failed: " +:+ exn_msg e))
      else inl e
  | inr v => inr v
  end.

(** The handler: the state write is itself guarded by [try ... except
    Exception: pass]. *)
Definition on_failure (agent_id : string) (e : exn) : M unit :=
  try_except (AgentLogging.write_agent_state E agent_id (state_failed e))
             (fun _ => ret tt) ;;
  log_stamped E (AgentLogging.append_agent_log E) agent_id
              ("Agent failed: " +:+ exn_msg e) ;;
  raise e.

Definition run_agent_background (agent_id : string) : M unit :=
  try_except
    (run_body E (AgentLogging.append_agent_log E) (AgentLogging.write_agent_state E)
              call_ollama agent_id)
    (on_failure agent_id).

End WithEnv.
End App.

(** ** agent-ui/backend: [OllamaLLM._call] (Version20) *)

Module OllamaLLM.

Record t : Type := Make { ollama_host : string; model : string; timeout : Z }.

Section WithEnv.
Context (E : env).

(** [for k in ("response", "token", "content"): ...; break]: the first of
    the keys that holds a string, else [None]. *)
Fixpoint first_string (keys : list string) (fields : list (string * json)) : json :=
  match keys with
  | [] => JNull
  | k :: rest =>
      match dict_get k fields with
      | Some (JStr s) => JStr s
      | _ => first_string rest fields
      end
  end.

Definition line_parts (resp : response) (line : ndline) : list App.part :=
  if String.eqb (raw line) "" then []
  else
    match loads line with
    | inr obj =>
        let chunk := match obj with
                     | JObj fields => first_string ["response"; "token"; "content"] fields
                     | _ => JNull
                     end in
        match chunk with
        | JStr s => if truthy chunk then [App.Str s] else [App.raw_item resp line]
        | _ => [App.raw_item resp line]
        end
    | inl _ => [App.raw_item resp line]
    end.

Definition _call (self : t) (prompt : string) : exn + string :=
  let url := rstrip_by (Ascii.eqb "/") (ollama_host self) +:+ "/api/generate" in
  let payload := JObj [("model", JStr (model self));
                       ("prompt", JStr prompt);
                       ("max_tokens", JInt 512);
                       ("temperature", JFloat "0.0")] in
  let attempt_request :=
    and_then (requests_post E url payload) (fun resp =>
    and_then (raise_for_status resp) (fun _ =>
    and_then (iter_lines resp) (fun lines =>
    App.join (flat_map (line_parts resp) lines)))) in
  match attempt_request with
  | inl e =>
      if is_request_exception e
      then inl (Exn RuntimeError ("Ollama request failed: " +:+ exn_msg e))
      else inl e
  | inr combined => inr combined
  end.

End WithEnv.
End OllamaLLM.

(** ** mail-assistant/server.py *)

Module Server.

(** What the view function hands back to Flask, and the threads it started
  (each by the [agent_id] its closure [_run] holds). *)
Record outcome : Type := Outcome {
body : json;
status : Z;
started : list json
}.

(** [run_agent]; [request_json] is [request.get_json(silent=True)], [None]
  when the body is not JSON.  An exception that leaves the view is Flask's
  500. *)
Definition run_agent (request_json : option json) : exn + outcome :=
let data := py_or (match request_json with Some v => v | None => JNull end) (JObj []) in
and_then (py_get data "agent_id") (fun agent_id =>
if negb (truthy agent_id) then
  inr (Outcome (JObj [("error", JStr "agent_id required")]) 400 [])
else
  inr (Outcome (JObj [("status", JStr "started"); ("agent_id", agent_id)]) 202 [agent_id])).

(** The closure [_run] of a started thread.  [run_agent_background] joins
  the id to a path before its [try:], which raises for anything but a
  string; [_run] logs whatever is raised and ends. *)
Definition _run (E : env) (agent_id : json) : M unit :=
match agent_id with
| JStr id => try_except (App.run_agent_background E id) (fun _ => ret tt)
| _ => ret tt
end.

End Server.

(** ** The job store with faults

    A disk may refuse what the store above accepts: [mkdir] raises for a
    name that cannot be a directory, [open] fails on a store that cannot be
    read or written, and [write_text], which truncates the file before it
    writes, can stop midway.  A [disk] tells, for each operation in each state of
    the world, whether it fails and how. *)

Inductive file_op : Type :=
| MakeDir (agent_id : string)
| ReadInput (agent_id : string)
| WriteState (agent_id : string) (data : json)
| WriteOutput (agent_id : string) (out : json)
| AppendLog (agent_id : string) (text : string).

(** [Refused e]: [e] is raised and the file is as it was.  [Torn e partial]:
    [e] is raised after the file was opened; a JSON file then holds text
    that does not parse, for which the decoder's message is [partial], and the
    log has gained [partial]. *)
Inductive fault : Type :=
| Refused (e : exn)
| Torn (e : exn) (partial : string).

Definition disk : Type := file_op -> world -> option fault.

(** The disk that accepts every operation. *)
Definition sound_disk : disk := fun _ _ => None.

(** Replace the directory of [agent_id] without a completed operation to
    record. *)
Definition damage (agent_id : string) (d : agent_files) (w : world) : world :=
  World (<[agent_id := d]> (fs w)) (clock w) (journal w).

Module Disk.
Section WithDisk.
Context (D : disk) (E : env).

(** [agent_dir.mkdir(parents=True, exist_ok=True)]; a failure of the
    [chmod] that follows is ignored by the source. *)
Definition ensure_agent_dir (agent_id : string) : M unit :=
  fun w =>
    match fs w !! agent_id with
    | Some _ => (inr tt, w)
    | None =>
        match D (MakeDir agent_id) w with
        | None => (inr tt, commit agent_id empty_dir (DirCreated agent_id) w)
        | Some (Refused e) => (inl e, w)
        | Some (Torn e _) => (inl e, w)
        end
    end.

(** [input_path.exists()] followed by [input_path.read_text()]: [None] when
    there is no such file, and an error when the file cannot be read. *)
Definition find_input (agent_id : string) : M (option jfile) :=
  fun w =>
    match input_of agent_id w with
    | None => (inr None, w)
    | Some file =>
        match D (ReadInput agent_id) w with
        | None => (inr (Some file), w)
        | Some (Refused e) => (inl e, w)
        | Some (Torn e _) => (inl e, w)
        end
    end.

(** [(agent_dir / "state.json").write_text(json.dumps(data, indent=2))] *)
Definition write_state_json (agent_id : string) (data : json) : M unit :=
  fun w =>
    match fs w !! agent_id with
    | None => (inl (no_such_file E agent_id "state.json"), w)
    | Some d =>
        match D (WriteState agent_id data) w with
        | None =>
            (inr tt,
             commit agent_id (with_state (Parsed data) d) (StateWritten agent_id data) w)
        | Some (Refused e) => (inl e, w)
        | Some (Torn e partial) => (inl e, damage agent_id (with_state (Malformed partial) d) w)
        end
    end.

(** [(agent_dir / "output.json").write_text(json.dumps(out, indent=2))] *)
Definition write_output_json (agent_id : string) (out : json) : M unit :=
  fun w =>
    match fs w !! agent_id with
    | None => (inl (no_such_file E agent_id "output.json"), w)
    | Some d =>
        match D (WriteOutput agent_id out) w with
        | None =>
            (inr tt,
             commit agent_id (with_output (Parsed out) d) (OutputWritten agent_id out) w)
        | Some (Refused e) => (inl e, w)
        | Some (Torn e partial) => (inl e, damage agent_id (with_output (Malformed partial) d) w)
        end
    end.

(** [with (agent_dir / "log.txt").open("a") as f: f.write(text)] *)
Definition append_log_txt (agent_id : string) (text : string) : M unit :=
  fun w =>
    match fs w !! agent_id with
    | None => (inl (no_such_file E agent_id "log.txt"), w)
    | Some d =>
        let old := match log_txt d with Some old => old | None => "" end in
        match D (AppendLog agent_id text) w with
        | None =>
            (inr tt,
             commit agent_id (with_log (old +:+ text) d) (LogAppended agent_id text) w)
        | Some (Refused e) => (inl e, w)
        | Some (Torn e partial) => (inl e, damage agent_id (with_log (old +:+ partial) d) w)
        end
    end.

(** The [try] block of [run_agent_background], over the helpers of the
    revision at hand. *)
Section Workflow.
Variable append_agent_log : string -> string -> M unit.
Variable write_agent_state : string -> json -> M unit.
Variable call_ollama : json -> exn + json.

(** The statements from [flow_id = payload.get("flow_id")] to the adapter
    (tasks.py 68-104, app.py 98-133); their result is the [out] dict. *)
Definition out_of_payload (agent_id : string) (payload : json)
  : M (list (string * json)) :=
  let* flow_out := flowise_step E append_agent_log agent_id payload in
  let* prompt := lift (build_prompt E payload flow_out) in
  log_stamped E append_agent_log agent_id "Calling Ollama" ;;
  emit (OllamaCalled prompt) ;;
  let* gen := lift (call_ollama prompt) in
  log_stamped E append_agent_log agent_id "Ollama responded" ;;
  let* completed_at := asctime E in
  adapter_step E append_agent_log agent_id payload
               [("model_response", gen);
                ("flowise", flow_out);
                ("completed_at", JStr completed_at)].

(** From [if not input_path.exists():] on, given what was found. *)
Definition out_of_input (agent_id : string) (input : option jfile)
  : M (list (string * json)) :=
  match input with
  | None => raise (missing_input agent_id)
  | Some file =>
      let* payload := lift (json_loads file) in
      out_of_payload agent_id payload
  end.

(** The statements before the write of [output.json] (tasks.py 60-104,
    app.py 90-133). *)
Definition build_out (agent_id : string) : M (list (string * json)) :=
  log_stamped E append_agent_log agent_id "Agent started" ;;
  write_agent_state agent_id state_running ;;
  let* input := find_input agent_id in
  out_of_input agent_id input.

(** The last three statements of the [try] block. *)
Definition finish (agent_id : string) (out : list (string * json)) : M unit :=
  write_output_json agent_id (JObj out) ;;
  write_agent_state agent_id state_completed ;;
  log_stamped E append_agent_log agent_id "Agent completed".

Definition run_body (agent_id : string) : M unit :=
  let* out := build_out agent_id in
  finish agent_id out.

End Workflow.
End WithDisk.
End Disk.

(** [tasks.py] on a disk. *)
Module DiskTasks.
Section WithDisk.
Context (D : disk) (E : env).

Definition write_agent_state (agent_id : string) (data : json) : M unit :=
  Disk.write_state_json D E agent_id data.

Definition append_agent_log (agent_id : string) (line : string) : M unit :=
  Disk.append_log_txt D E agent_id (rstrip line +:+ nl).

Definition build_out (agent_id : string) : M (list (string * json)) :=
  Disk.build_out D E append_agent_log write_agent_state (Tasks.call_ollama E) agent_id.

Definition run_body (agent_id : string) : M unit :=
  Disk.run_body D E append_agent_log write_agent_state (Tasks.call_ollama E) agent_id.

Definition on_failure (agent_id : string) (e : exn) : M unit :=
  write_agent_state agent_id (state_failed e) ;;
  log_stamped E append_agent_log agent_id ("Agent failed: " +:+ exn_msg e) ;;
  raise e.

Definition run_agent_background (agent_id : string) : M unit :=
  try_except (run_body agent_id) (on_failure agent_id).

End WithDisk.
End DiskTasks.

(** [agent_logging.py] on a disk. *)
Module DiskLogging.
Section WithDisk.
Context (D : disk) (E : env).

Definition append_agent_log (agent_id : string) (message : string) : M unit :=
  Disk.ensure_agent_dir D agent_id ;;
  Disk.append_log_txt D E agent_id (message +:+ nl).

Definition write_agent_state (agent_id : string) (data : json) : M unit :=
  Disk.ensure_agent_dir D agent_id ;;
  Disk.write_state_json D E agent_id data.

End WithDisk.
End DiskLogging.

(** [app.py] on a disk. *)
Module DiskApp.
Section WithDisk.
Context (D : disk) (E : env).

Definition build_out (agent_id : string) : M (list (string * json)) :=
  Disk.build_out D E (DiskLogging.append_agent_log D E) (DiskLogging.write_agent_state D E)
                 (App.call_ollama E) agent_id.

Definition run_body (agent_id : string) : M unit :=
  Disk.run_body D E (DiskLogging.append_agent_log D E) (DiskLogging.write_agent_state D E)
                (App.call_ollama E) agent_id.

(** The state write of the handler is itself guarded by [try ... except
    Exception: pass]. *)
Definition on_failure (agent_id : string) (e : exn) : M unit :=
  try_except (DiskLogging.write_agent_state D E agent_id (state_failed e))
             (fun _ => ret tt) ;;
  log_stamped E (DiskLogging.append_agent_log D E) agent_id
              ("Agent failed: " +:+ exn_msg e) ;;
  raise e.

Definition run_agent_background (agent_id : string) : M unit :=
  try_except (run_body agent_id) (on_failure agent_id).

End WithDisk.
End DiskApp.

(** The thread of [server.run_agent] on a disk. *)
Module DiskServer.

Definition _run (D : disk) (E : env) (agent_id : json) : M unit :=
  match agent_id with
  | JStr id => try_except (DiskApp.run_agent_background D E id) (fun _ => ret tt)
  | _ => ret tt
  end.

End DiskServer.

(** ** The properties, in the words of the specification *)

(** [state.json]: status is one of the three, progress is 0 or 100, progress
    is 100 exactly for "completed", and "error" is there only for "failed". *)
Definition status_in_range (status : json) : Prop :=
  status = JStr "running" \/ status = JStr "completed" \/ status = JStr "failed".

Definition state_invariant (data : json) : Prop :=
  exists fields status progress,
    data = JObj fields
    /\ dict_get "status" fields = Some status
    /\ dict_get "progress" fields = Some (JInt progress)
    /\ status_in_range status
    /\ (progress = 0 \/ progress = 100)
    /\ (progress = 100 <-> status = JStr "completed")
    /\ (dict_has "error" fields = true -> status = JStr "failed").

Definition state_event_ok (ev : event) : Prop :=
  match ev with
  | StateWritten _ data => state_invariant data
  | _ => True
  end.

(** The status a state document carries. *)
Definition status_of (f : option jfile) : option json :=
  match f with
  | Some (Parsed (JObj fields)) => dict_get "status" fields
  | _ => None
  end.

Definition field_of (name : string) (f : option jfile) : option json :=
  match f with
  | Some (Parsed (JObj fields)) => dict_get name fields
  | _ => None
  end.

(** ** How a world may change *)

(** The job directory of [agent_id] exists. *)
Definition alive (agent_id : string) (w : world) : Prop := is_Some (fs w !! agent_id).

(** The journal of [w'] continues that of [w] with events that satisfy [P]. *)
Definition grows (P : event -> Prop) (w w' : world) : Prop :=
  exists new, journal w' = (journal w ++ new)%list /\ Forall P new.

(** A [state.json] is as it was, or holds a document whose writing [P] allows. *)
Definition state_kept_or_written (P : event -> Prop) (a : string) (before after : option jfile)
  : Prop :=
  after = before \/ exists data, after = Some (Parsed data) /\ P (StateWritten a data).

(** No directory disappears, no [input.json] changes, each [state.json] is
    kept or written under [P], and the journal grows by [P]. *)
Definition evolves (P : event -> Prop) (w w' : world) : Prop :=
  (forall a, alive a w -> alive a w')
  /\ (forall a, input_of a w' = input_of a w)
  /\ (forall a, state_kept_or_written P a (state_of a w) (state_of a w'))
  /\ grows P w w'.

(** [evolves], and no [output.json] changes either. *)
Definition quiet (P : event -> Prop) (w w' : world) : Prop :=
  evolves P w w' /\ (forall a, output_of a w' = output_of a w).

(** Whatever [m] does, the world it leaves is related to the one it found. *)
Definition preserves {A : Type} (R : world -> world -> Prop) (m : M A) : Prop :=
  forall w, R w (snd (m w)).

(** Events that any step of the workflow may add under [P]. *)
Definition routine (P : event -> Prop) : Prop :=
  (forall a l, P (LogAppended a l))
  /\ (forall a d, state_invariant d -> P (StateWritten a d))
  /\ (forall a, P (DirCreated a))
  /\ (forall f i, P (FlowiseCalled f i))
  /\ (forall n p, P (AdapterCalled n p)).

Definition is_output_event (ev : event) : Prop :=
  match ev with OutputWritten _ _ => True | _ => False end.

(** Sample environments and worlds used by the examples below. *)
Module Samples.

Definition reply_json (v : json) : response :=
  Response 200 "OK" "" (Some "application/json") (Some "utf-8") "" (inr []) (inr v).

Definition stamp (n : nat) : string := "t" +:+ pretty (Z.of_nat n).

(** Every endpoint answers 200 with the JSON body [null]; no adapter exists. *)
Definition env_null : env :=
  Env "http://ollama:11434" "qwen3" "http://flowise:3000/api/v1/flows/run"
      "/app/persistent" stamp (fun _ => "") (fun _ _ => inr (reply_json JNull))
      (fun _ => false) (fun _ _ => inl (Exn (OtherException "OSError") "unavailable")).

(** A job store with one job, ["a1"], whose input holds only a prompt. *)
Definition dir_prompt : agent_files :=
  AgentFiles (Some (Parsed (JObj [("prompt", JStr "hi")]))) None None None.

Definition world_prompt : world := World (<["a1" := dir_prompt]> ∅) 0 [].

(** Every request fails to connect; no adapter exists. *)
Definition env_down : env :=
  Env "http://ollama:11434" "qwen3" "http://flowise:3000/api/v1/flows/run"
      "/app/persistent" stamp (fun _ => "")
      (fun _ _ => inl (Exn RequestException "connection refused"))
      (fun _ => false) (fun _ _ => inl (Exn (OtherException "OSError") "unavailable")).

(** Every request fails with an exception that carries no message. *)
Definition env_silent : env :=
  Env "http://ollama:11434" "qwen3" "http://flowise:3000/api/v1/flows/run"
      "/app/persistent" stamp (fun _ => "")
      (fun _ _ => inl (Exn RequestException ""))
      (fun _ => false) (fun _ _ => inl (Exn (OtherException "OSError") "unavailable")).

(** The workflow engine is down and the model answers with an object. *)
Definition env_flowise_down : env :=
  Env "http://ollama:11434" "qwen3" "http://flowise:3000/api/v1/flows/run"
      "/app/persistent" stamp (fun _ => "")
      (fun url _ =>
         if String.eqb url "http://flowise:3000/api/v1/flows/run"
         then inl (Exn RequestException "connection refused")
         else inr (reply_json (JObj [("response", JStr "done")])))
      (fun _ => false) (fun _ _ => inl (Exn (OtherException "OSError") "unavailable")).

(** The workflow engine answers with the empty object. *)
Definition env_flowise_empty : env :=
  Env "http://ollama:11434" "qwen3" "http://flowise:3000/api/v1/flows/run"
      "/app/persistent" stamp (fun _ => "")
      (fun url _ =>
         if String.eqb url "http://flowise:3000/api/v1/flows/run"
         then inr (reply_json (JObj []))
         else inr (reply_json (JObj [("response", JStr "done")])))
      (fun _ => false) (fun _ _ => inl (Exn (OtherException "OSError") "unavailable")).

(** Streams of the model endpoint: the two lines of the specification's
    example, and the same stream with a line that is the JSON number 7. *)
Definition line_hel : ndline :=
  NdLine ("{" +:+ dquote +:+ "response" +:+ dquote +:+ ":" +:+ dquote +:+ "Hel"
              +:+ dquote +:+ "}")
         (inr (JObj [("response", JStr "Hel")])).

Definition line_lo : ndline :=
  NdLine ("{" +:+ dquote +:+ "response" +:+ dquote +:+ ":" +:+ dquote +:+ "lo"
              +:+ dquote +:+ "}")
         (inr (JObj [("response", JStr "lo")])).

Definition line_seven : ndline := NdLine "7" (inr (JInt 7)).

Definition reply_ndjson (lines : list ndline) : response :=
  Response 200 "OK" "" (Some "application/x-ndjson; charset=utf-8") (Some "utf-8") ""
           (inr lines) (inl (Exn RequestException "Extra data")).

Definition env_stream (lines : list ndline) : env :=
  Env "http://ollama:11434" "llama3" "http://flowise:3000/api/v1/flows/run"
      "/app/persistent" stamp (fun _ => "") (fun _ _ => inr (reply_ndjson lines))
      (fun _ => false) (fun _ _ => inl (Exn (OtherException "OSError") "unavailable")).

(** Jobs: ["flow"] asks for a workflow, ["tool"] for an adapter, ["bare"]
    has a directory without [input.json] and an [output.json] left by an
    earlier run. *)
Definition dir_flow : agent_files :=
  AgentFiles (Some (Parsed (JObj [("prompt", JStr "hi"); ("flow_id", JStr "f1")])))
             None None None.

Definition dir_tool : agent_files :=
  AgentFiles (Some (Parsed (JObj [("prompt", JStr "hi");
                                  ("tool", JObj [("name", JStr "resize")])])))
             None None None.

Definition old_output : jfile := Parsed (JObj [("model_response", JStr "old")]).

Definition dir_bare : agent_files := AgentFiles None None None (Some old_output).

(** ["badtool"] asks for a workflow and gives its tool as a bare string;
    ["empty"] has the empty object for a payload. *)
Definition dir_badtool : agent_files :=
  AgentFiles (Some (Parsed (JObj [("prompt", JStr "hi"); ("flow_id", JStr "f1");
                                  ("tool", JStr "resize")])))
             None None None.

Definition dir_empty : agent_files := AgentFiles (Some (Parsed (JObj []))) None None None.

Definition world_jobs : world :=
  World (<["flow" := dir_flow]>
           (<["tool" := dir_tool]>
              (<["bare" := dir_bare]>
                 (<["badtool" := dir_badtool]> (<["empty" := dir_empty]> ∅))))) 0 [].

(** A job with an earlier log. *)
Definition dir_logged : agent_files :=
  AgentFiles (Some (Parsed (JObj [("prompt", JStr "hi")]))) None (Some "earlier line") None.

Definition world_logged : world := World (<["a1" := dir_logged]> ∅) 0 [].

(** A job whose input is a JSON list, and one whose adapter exists. *)
Definition dir_list : agent_files :=
  AgentFiles (Some (Parsed (JArr [JStr "hi"]))) None None None.

Definition world_list : world := World (<["list" := dir_list]> ∅) 0 [].

(** The model answers; the adapter ["resize"] exists and exits with status 3. *)
Definition env_adapter : env :=
  Env "http://ollama:11434" "qwen3" "http://flowise:3000/api/v1/flows/run"
      "/app/persistent" stamp (fun _ => "")
      (fun _ _ => inr (reply_json (JObj [("response", JStr "done")])))
      (fun name => String.eqb name "resize")
      (fun _ _ => inr (3, "", "no such image")).

(** A job whose tool gives parameters and no name. *)
Definition dir_noname : agent_files :=
  AgentFiles (Some (Parsed (JObj [("prompt", JStr "hi");
                                  ("tool", JObj [("params", JObj [("w", JInt 1)])])])))
             None None None.

Definition world_noname : world := World (<["noname" := dir_noname]> ∅) 0 [].

(** The model's server answers 503 with a short text. *)
Definition reply_busy : response :=
  Response 503 "Service Unavailable" "http://ollama:11434/api/generate"
           (Some "text/plain") (Some "utf-8") "overloaded" (inr [])
           (inl (Exn RequestException "Expecting value")).

Definition env_busy : env :=
  Env "http://ollama:11434" "llama3" "http://flowise:3000/api/v1/flows/run"
      "/app/persistent" stamp (fun _ => "") (fun _ _ => inr reply_busy)
      (fun _ => false) (fun _ _ => inl (Exn (OtherException "OSError") "unavailable")).

(** A line that is not JSON, in a stream with and without an encoding. *)
Definition line_oops : ndline :=
  NdLine "oops" (inl (Exn JSONDecodeError "Expecting value: line 1 column 1 (char 0)")).

Definition reply_bytes (lines : list ndline) : response :=
  Response 200 "OK" "" None None "" (inr lines) (inl (Exn RequestException "Extra data")).

Definition env_bytes (lines : list ndline) : env :=
  Env "http://ollama:11434" "llama3" "http://flowise:3000/api/v1/flows/run"
      "/app/persistent" stamp (fun _ => "") (fun _ _ => inr (reply_bytes lines))
      (fun _ => false) (fun _ _ => inl (Exn (OtherException "OSError") "unavailable")).

(** The line that ends a stream. *)
Definition line_done : ndline :=
  NdLine ("{" +:+ dquote +:+ "response" +:+ dquote +:+ ":" +:+ dquote +:+ dquote
              +:+ "," +:+ dquote +:+ "done" +:+ dquote +:+ ":true}")
         (inr (JObj [("response", JStr ""); ("done", JBool true)])).

(** A job that ran before: its input, the state and the output of that run. *)
Definition dir_rerun : agent_files :=
  AgentFiles (Some (Parsed (JObj [("prompt", JStr "hi")])))
             (Some (Parsed state_completed)) None (Some old_output).

Definition world_rerun : world := World (<["a1" := dir_rerun]> ∅) 0 [].

Definition no_space : exn :=
  Exn (OtherException "OSError") "[Errno 28] No space left on device".

(** A disk that refuses the write of a [state.json] with the given status. *)
Definition disk_refuses_status (refused : string) : disk :=
  fun op _ =>
    match op with
    | WriteState _ (JObj (("status", JStr status) :: _)) =>
        if String.eqb status refused then Some (Refused no_space) else None
    | _ => None
    end.

(** The disk is full once [output.json] is written: the write of the
    completed state is refused. *)
Definition disk_full_at_end : disk := disk_refuses_status "completed".

(** The write of [output.json] stops right after the file was truncated. *)
Definition disk_tears_output : disk :=
  fun op _ =>
    match op with
    | WriteOutput _ _ => Some (Torn no_space "Expecting value: line 1 column 1 (char 0)")
    | _ => None
    end.

(** The log cannot take the line that reports the end of an adapter. *)
Definition disk_log_hiccup : disk :=
  fun op _ =>
    match op with
    | AppendLog _ text =>
        if App.contains "Adapter finished" text then Some (Refused no_space) else None
    | _ => None
    end.

End Samples.

(** ** Predicates and expected values used by the statements *)

(** Every document a run writes to a [state.json] satisfies the invariant:
    the writes the journal records, and the file the run leaves. *)
Definition writes_valid_states (run : M unit) : Prop :=
  forall w,
    let w' := snd (run w) in
    (exists new, journal w' = (journal w ++ new)%list
                 /\ forall a data, In (StateWritten a data) new -> state_invariant data)
    /\ (forall a, state_of a w' = state_of a w
                  \/ exists data, state_of a w' = Some (Parsed data) /\ state_invariant data).

Definition not_output_event (ev : event) : Prop := ~ is_output_event ev.

(** What [flowise_step] leaves in [flow_out] for a payload with these fields. *)
Definition flow_result (E : env) (fields : list (string * json)) : json :=
  let flow_id := match dict_get "flow_id" fields with Some v => v | None => JNull end in
  let context := match dict_get "context" fields with Some v => v | None => JObj [] end in
  if truthy flow_id then
    match call_flowise E flow_id context with
    | inr flow_out => flow_out
    | inl e => JObj [("error", JStr (exn_msg e))]
    end
  else JNull.

(** What [adapter_step] may turn [out] into. *)
Definition adapter_outcome (out out' : list (string * json)) : Prop :=
  out' = out
  \/ (exists result, out' = dict_set "adapter_result" result out)
  \/ (exists message, out' = dict_set "adapter_error" (JStr message) out).

Definition any_event (ev : event) : Prop := True.

(** The [out] dict as it stands before the adapter step. *)
Definition fresh_out (gen flow_out : json) (completed_at : string) : list (string * json) :=
  [("model_response", gen); ("flowise", flow_out); ("completed_at", JStr completed_at)].

(** From a world that satisfies [I], [m] leaves a world related by [R]. *)
Definition preserves_from {A : Type} (I : world -> Prop) (R : world -> world -> Prop)
           (m : M A) : Prop :=
  forall w, I w -> R w (snd (m w)).

(** An [output.json] document carries at most one of the two adapter keys. *)
Definition one_adapter_key (doc : json) : Prop :=
  match doc with
  | JObj out => ~ (dict_has "adapter_result" out = true /\ dict_has "adapter_error" out = true)
  | _ => True
  end.

Definition output_event_ok (ev : event) : Prop :=
  match ev with
  | OutputWritten _ doc => one_adapter_key doc
  | _ => True
  end.

(** The value of [payload.get("tool")]. *)
Definition tool_of (fields : list (string * json)) : json :=
  match dict_get "tool" fields with Some v => v | None => JNull end.

Definition no_model_call (ev : event) : Prop :=
  match ev with OllamaCalled _ => False | _ => True end.

(** The prompts of the calls of the model that a journal records. *)
Definition model_calls (events : list event) : list json :=
  flat_map (fun ev => match ev with OllamaCalled prompt => [prompt] | _ => [] end) events.

(** A line the stream reader takes a chunk from or skips: it parses to a
    JSON object, or it is the empty line. *)
Definition object_line (line : ndline) : Prop :=
  match loads line with
  | inr (JObj _) => raw line <> ""
  | inr _ => False
  | inl _ => raw line = ""
  end.

(** The [response] strings of the lines, one by one. *)
Definition response_strings (lines : list ndline) : list string :=
  flat_map (fun line =>
              match loads line with
              | inr (JObj fields) =>
                  match dict_get "response" fields with
                  | Some (JStr s) => [s]
                  | _ => []
                  end
              | _ => []
              end) lines.

(** The combined text of an NDJSON stream as the specification words it:
    the [response] string fields of the parsed lines, concatenated in order. *)
Definition response_strings_spec (lines : list ndline) : string :=
  String.concat "" (response_strings lines).

(** ** Further statements about the runner *)

Definition log_of (agent_id : string) (w : world) : option string :=
  match fs w !! agent_id with Some d => log_txt d | None => None end.

(** Every job but [agent_id] has its directory exactly as before. *)
Definition others_kept (agent_id : string) (w w' : world) : Prop :=
  forall a, a <> agent_id -> fs w' !! a = fs w !! a.

(** Each [log.txt] that existed still starts with what it held. *)
Definition logs_extended (w w' : world) : Prop :=
  forall a old, log_of a w = Some old -> exists more, log_of a w' = Some (old +:+ more).

(** What every statement of a run on [agent_id] preserves. *)
Definition frame (agent_id : string) (w w' : world) : Prop :=
  others_kept agent_id w w' /\ logs_extended w w'.

(** When [m] returns, the world it leaves satisfies [Q]. *)
Definition ensures {A : Type} (m : M A) (Q : world -> Prop) : Prop :=
  forall w a, fst (m w) = inr a -> Q (snd (m w)).

(** [state.json] says "completed" and there is an [output.json] document. *)
Definition job_completed (agent_id : string) (w : world) : Prop :=
  state_of agent_id w = Some (Parsed state_completed)
  /\ exists out, output_of agent_id w = Some (Parsed (JObj out)).

(** What reading the payload raises for an [input.json] that is not a JSON
    object: the decoder's error, or the missing [get] of the parsed value. *)
Definition invalid_input_error (file : jfile) : option exn :=
  match file with
  | Malformed why => Some (Exn JSONDecodeError why)
  | Parsed (JObj _) => None
  | Parsed v => Some (no_attribute v "get")
  end.

(** ** Further statements about the calls of the model *)

(** What [requests.post] answers to the request [call_ollama] sends. *)
Definition posted (E : env) (prompt : json) : exn + response :=
  requests_post E (OLLAMA_HOST E +:+ "/api/generate")
                (JObj [("model", JStr (OLLAMA_MODEL E)); ("prompt", prompt);
                       ("max_tokens", JInt 512); ("temperature", JFloat "0.0")]).

(** A line that the NDJSON loop of [app.call_ollama] appends as it came:
    not blank, and not the text of a JSON object. *)
Definition raw_line (line : ndline) : Prop :=
  raw line <> ""
  /\ match loads line with inr (JObj _) => False | _ => True end.

(** A piece of text that comes from one line of the stream: the line itself
    or the [response] string of the object it holds. *)
Definition chunk_of (lines : list ndline) (chunk : string) : Prop :=
  exists line,
    In line lines /\ raw line <> ""
    /\ (chunk = raw line
        \/ exists fields, loads line = inr (JObj fields)
                          /\ dict_get "response" fields = Some (JStr chunk)).

(** What ["".join(parts)] raises on [bytes] at position [i]. *)
Definition bytes_in_join (i : nat) : exn :=
  Exn TypeError ("sequence item " +:+ pretty (Z.of_nat i)
                   +:+ ": expected str instance, bytes found").

(** A line that carries text: blank, or an object whose [response] is a
    string that is not empty. *)
Definition chunk_line (line : ndline) : Prop :=
  raw line = ""
  \/ exists fields chunk,
      loads line = inr (JObj fields)
      /\ dict_get "response" fields = Some (JStr chunk) /\ chunk <> "".

(** The line that ends a stream of the model's server: an object whose
    [response] is the empty string. *)
Definition done_line (line : ndline) : Prop :=
  raw line <> ""
  /\ exists fields,
      loads line = inr (JObj fields) /\ dict_get "response" fields = Some (JStr "").

(** The wrapper of the agent UI set up as the mail assistant is. *)
Definition llm_of (E : env) (timeout : Z) : OllamaLLM.t :=
  OllamaLLM.Make (OLLAMA_HOST E) (OLLAMA_MODEL E) timeout.

(** Every character of [s] satisfies [p]. *)
Fixpoint all_chars (p : ascii -> bool) (s : string) : bool :=
  match s with
  | EmptyString => true
  | String c rest => p c && all_chars p rest
  end.

(** ** Statements about the runner on a disk *)

(** No directory disappears, no [input.json] and no [output.json] changes,
    and the journal grows by events that satisfy [P]. *)
Definition undisturbed (P : event -> Prop) (w w' : world) : Prop :=
  (forall a, alive a w -> alive a w')
  /\ (forall a, input_of a w' = input_of a w)
  /\ (forall a, output_of a w' = output_of a w)
  /\ grows P w w'.

(** No directory disappears, and every job but [agent_id] has its directory
    exactly as before. *)
Definition confined (agent_id : string) (w w' : world) : Prop :=
  (forall a, alive a w -> alive a w') /\ others_kept agent_id w w'.

(** From a world that satisfies [I], a result [a] of [m] and the world it
    leaves satisfy [Q]. *)
Definition hoare {A : Type} (I : world -> Prop) (m : M A) (Q : A -> world -> Prop) : Prop :=
  forall w a w', I w -> m w = (inr a, w') -> Q a w'.

(** An agent id that names one directory right under [agents/]: a file name
    of at most 255 characters that is not [.] or [..] and holds no slash and
    no NUL. *)
Definition simple_name (agent_id : string) : bool :=
  negb (String.eqb agent_id "")
  && negb (String.eqb agent_id ".")
  && negb (String.eqb agent_id "..")
  && all_chars (fun c => negb (Ascii.eqb c "/") && negb (Ascii.eqb c (ascii_of_N 0))) agent_id
  && (String.length agent_id <=? 255)%nat.

(** The store accepts every append to a [log.txt], every write of a
    [state.json], every [mkdir]. *)
Definition accepts_logs (D : disk) : Prop :=
  forall agent_id text w, D (AppendLog agent_id text) w = None.

Definition accepts_states (D : disk) : Prop :=
  forall agent_id data w, D (WriteState agent_id data) w = None.

Definition accepts_dirs (D : disk) : Prop :=
  forall agent_id w, D (MakeDir agent_id) w = None.

(** The [state.json] and the [output.json] of [agent_id] are as before. *)
Definition records_kept (agent_id : string) (w w' : world) : Prop :=
  state_of agent_id w' = state_of agent_id w
  /\ output_of agent_id w' = output_of agent_id w.

(** * Proofs *)

(** ** The statement monad *)

Lemma bind_run {A B : Type} (m : M A) (k : A -> M B) (w : world) (a : A) :
  fst (m w) = inr a -> bind m k w = k a (snd (m w)).
Proof. unfold bind. destruct (m w) as [[e|x] w1]; simpl; congruence. Qed.

Lemma try_except_run {A : Type} (m : M A) (h : exn -> M A) (w : world) (a : A) :
  fst (m w) = inr a -> try_except m h w = (inr a, snd (m w)).
Proof. unfold try_except. destruct (m w) as [[e|x] w1]; simpl; congruence. Qed.

Lemma bind_returned {A B : Type} (m : M A) (k : A -> M B) (w w1 : world) (a : A) :
  m w = (inr a, w1) -> bind m k w = k a w1.
Proof. intros H. unfold bind. rewrite H. reflexivity. Qed.

Lemma bind_raised {A B : Type} (m : M A) (k : A -> M B) (w w1 : world) (e : exn) :
  m w = (inl e, w1) -> bind m k w = (inl e, w1).
Proof. intros H. unfold bind. rewrite H. reflexivity. Qed.

Lemma try_except_returned {A : Type} (m : M A) (h : exn -> M A) (w w1 : world) (a : A) :
  m w = (inr a, w1) -> try_except m h w = (inr a, w1).
Proof. intros H. unfold try_except. rewrite H. reflexivity. Qed.

Lemma try_except_raised {A : Type} (m : M A) (h : exn -> M A) (w w1 : world) (e : exn) :
  m w = (inl e, w1) -> try_except m h w = h e w1.
Proof. intros H. unfold try_except. rewrite H. reflexivity. Qed.

Section Preserves.
Context (R : world -> world -> Prop) `{!PreOrder R}.

Lemma preserves_ret {A : Type} (a : A) : preserves R (ret a).
Proof. intros w. simpl. reflexivity. Qed.

Lemma preserves_raise {A : Type} (e : exn) : preserves R (@raise A e).
Proof. intros w. simpl. reflexivity. Qed.

Lemma preserves_lift {A : Type} (r : exn + A) : preserves R (lift r).
Proof. intros w. simpl. reflexivity. Qed.

Lemma preserves_bind {A B : Type} (m : M A) (k : A -> M B) :
  preserves R m -> (forall a, preserves R (k a)) -> preserves R (bind m k).
Proof.
  intros Hm Hk w. unfold bind. specialize (Hm w).
  destruct (m w) as [[e|a] w1]; simpl in *; [assumption|].
  transitivity w1; [assumption | apply Hk].
Qed.

Lemma preserves_try_except {A : Type} (m : M A) (h : exn -> M A) :
  preserves R m -> (forall e, preserves R (h e)) -> preserves R (try_except m h).
Proof.
  intros Hm Hh w. unfold try_except. specialize (Hm w).
  destruct (m w) as [[e|a] w1]; simpl in *; [|assumption].
  transitivity w1; [assumption | apply Hh].
Qed.

Lemma preserves_attempt {A : Type} (m : M A) :
  preserves R m -> preserves R (attempt m).
Proof.
  intros Hm w. unfold attempt. specialize (Hm w).
  destruct (m w) as [r w1]; assumption.
Qed.

Lemma preserves_find_input (agent_id : string) : preserves R (find_input agent_id).
Proof. intros w. simpl. reflexivity. Qed.

End Preserves.

(** ** The relations are preorders *)

Lemma grows_refl (P : event -> Prop) (w : world) : grows P w w.
Proof. exists []. split; [symmetry; apply app_nil_r | constructor]. Qed.

Lemma grows_trans (P : event -> Prop) (w1 w2 w3 : world) :
  grows P w1 w2 -> grows P w2 w3 -> grows P w1 w3.
Proof.
  intros [n1 [E1 F1]] [n2 [E2 F2]]. exists (n1 ++ n2)%list. split.
  - rewrite E2, E1. symmetry. apply app_assoc.
  - apply Forall_app. split; assumption.
Qed.

#[export] Instance evolves_preorder (P : event -> Prop) : PreOrder (evolves P).
Proof.
  split.
  - intros w. repeat split; auto using grows_refl. intros a. left. reflexivity.
  - intros w1 w2 w3 (A1 & I1 & S1 & G1) (A2 & I2 & S2 & G2). repeat split.
    + intros a Ha. apply A2, A1, Ha.
    + intros a. rewrite I2. apply I1.
    + intros a. destruct (S2 a) as [Heq|Hnew]; [rewrite Heq; apply S1 | right; exact Hnew].
    + eapply grows_trans; eassumption.
Qed.

#[export] Instance quiet_preorder (P : event -> Prop) : PreOrder (quiet P).
Proof.
  split.
  - intros w. split; [reflexivity | reflexivity].
  - intros w1 w2 w3 [E1 O1] [E2 O2]. split.
    + etransitivity; eassumption.
    + intros a. rewrite O2. apply O1.
Qed.

Lemma quiet_evolves (P : event -> Prop) (w w' : world) : quiet P w w' -> evolves P w w'.
Proof. intros [H _]. exact H. Qed.

Lemma preserves_quiet_evolves {A : Type} (P : event -> Prop) (m : M A) :
  preserves (quiet P) m -> preserves (evolves P) m.
Proof. intros H w. apply quiet_evolves, H. Qed.

(** ** The primitive statements *)

Lemma commit_evolves (P : event -> Prop) (agent_id : string) (d : agent_files)
      (ev : event) (w : world) :
  input_of agent_id w = input_json d ->
  state_kept_or_written P agent_id (state_of agent_id w) (state_json d) ->
  P ev ->
  evolves P w (commit agent_id d ev w).
Proof.
  intros Hin Hst Hev. repeat split.
  - intros a Ha. unfold alive, commit in *; simpl.
    destruct (decide (agent_id = a)) as [->|Hne].
    + rewrite lookup_insert_eq. eauto.
    + rewrite lookup_insert_ne by assumption. assumption.
  - intros a. unfold input_of, commit in *; simpl.
    destruct (decide (agent_id = a)) as [->|Hne].
    + rewrite lookup_insert_eq. symmetry. assumption.
    + rewrite lookup_insert_ne by assumption. reflexivity.
  - intros a. unfold state_of, commit in *; simpl.
    destruct (decide (agent_id = a)) as [->|Hne].
    + rewrite lookup_insert_eq. assumption.
    + rewrite lookup_insert_ne by assumption. left. reflexivity.
  - exists [ev]. split; [reflexivity | repeat constructor; assumption].
Qed.

Lemma commit_quiet (P : event -> Prop) (agent_id : string) (d : agent_files)
      (ev : event) (w : world) :
  input_of agent_id w = input_json d ->
  state_kept_or_written P agent_id (state_of agent_id w) (state_json d) ->
  output_of agent_id w = output_json d -> P ev ->
  quiet P w (commit agent_id d ev w).
Proof.
  intros Hin Hst Hout Hev. split; [apply commit_evolves; assumption|].
  intros a. unfold output_of, commit in *; simpl.
  destruct (decide (agent_id = a)) as [->|Hne].
  - rewrite lookup_insert_eq. symmetry. assumption.
  - rewrite lookup_insert_ne by assumption. reflexivity.
Qed.

Lemma asctime_quiet (P : event -> Prop) (E : env) : preserves (quiet P) (asctime E).
Proof.
  intros w. simpl. repeat split; auto.
  - intros a. left. reflexivity.
  - exists []. split; [symmetry; apply app_nil_r | constructor].
Qed.

Lemma emit_quiet (P : event -> Prop) (ev : event) : P ev -> preserves (quiet P) (emit ev).
Proof.
  intros Hev w. simpl. repeat split; auto.
  - intros a. left. reflexivity.
  - exists [ev]. split; [reflexivity | repeat constructor; assumption].
Qed.

Lemma write_state_json_quiet (P : event -> Prop) (E : env) (agent_id : string) (data : json) :
  P (StateWritten agent_id data) -> preserves (quiet P) (write_state_json E agent_id data).
Proof.
  intros Hev w. unfold write_state_json.
  destruct (fs w !! agent_id) as [d|] eqn:Hd; simpl; [|reflexivity].
  apply commit_quiet; [| | |assumption]; unfold input_of, output_of; try rewrite Hd;
    try reflexivity.
  right. exists data. split; [reflexivity | assumption].
Qed.

Lemma append_log_txt_quiet (P : event -> Prop) (E : env) (agent_id line : string) :
  P (LogAppended agent_id line) -> preserves (quiet P) (append_log_txt E agent_id line).
Proof.
  intros Hev w. unfold append_log_txt.
  destruct (fs w !! agent_id) as [d|] eqn:Hd; simpl; [|reflexivity].
  apply commit_quiet; [| | |assumption]; unfold input_of, output_of, state_of; try rewrite Hd;
    try reflexivity.
  left. reflexivity.
Qed.

Lemma write_output_json_evolves (P : event -> Prop) (E : env) (agent_id : string) (out : json) :
  P (OutputWritten agent_id out) -> preserves (evolves P) (write_output_json E agent_id out).
Proof.
  intros Hev w. unfold write_output_json.
  destruct (fs w !! agent_id) as [d|] eqn:Hd; simpl; [|reflexivity].
  apply commit_evolves; [| |assumption]; unfold input_of, state_of; rewrite Hd;
    [reflexivity | left; reflexivity].
Qed.

Lemma ensure_agent_dir_quiet (P : event -> Prop) (agent_id : string) :
  P (DirCreated agent_id) -> preserves (quiet P) (AgentLogging.ensure_agent_dir agent_id).
Proof.
  intros Hev w. unfold AgentLogging.ensure_agent_dir.
  destruct (fs w !! agent_id) as [d|] eqn:Hd; simpl; [reflexivity|].
  apply commit_quiet; [| | |assumption]; unfold input_of, output_of, state_of; try rewrite Hd;
    try reflexivity.
  left. reflexivity.
Qed.

(** The status documents satisfy the invariant of [state.json]. *)
Lemma state_running_invariant : state_invariant state_running.
Proof.
  exists [("status", JStr "running"); ("progress", JInt 0)], (JStr "running"), 0.
  unfold status_in_range. repeat split; auto; try discriminate; intros; try lia; congruence.
Qed.

Lemma state_completed_invariant : state_invariant state_completed.
Proof.
  exists [("status", JStr "completed"); ("progress", JInt 100)], (JStr "completed"), 100.
  unfold status_in_range. repeat split; auto; discriminate.
Qed.

Lemma state_failed_invariant (e : exn) : state_invariant (state_failed e).
Proof.
  exists [("status", JStr "failed"); ("progress", JInt 0); ("error", JStr (exn_msg e))],
         (JStr "failed"), 0.
  unfold status_in_range. repeat split; auto; try discriminate; intros; try lia; congruence.
Qed.

(** ** The workflow, whatever its outcome *)

Ltac preserve_step :=
  first
    [ apply preserves_ret; solve [typeclasses eauto]
    | apply preserves_raise; solve [typeclasses eauto]
    | apply preserves_lift; solve [typeclasses eauto]
    | apply preserves_find_input; solve [typeclasses eauto]
    | apply asctime_quiet
    | apply preserves_bind; [typeclasses eauto | | intros ?]
    | apply preserves_try_except; [typeclasses eauto | | intros ?]
    | apply preserves_attempt
    | match goal with
      | |- preserves _ (if ?b then _ else _) => destruct b
      | |- preserves _ (match ?x with _ => _ end) => destruct x
      | |- preserves _ (let '(_, _) := ?x in _) => destruct x
      end ].

Section WorkflowPreserves.
Context (E : env).
Variable append_agent_log : string -> string -> M unit.
Variable write_agent_state : string -> json -> M unit.
Variable call_ollama : json -> exn + json.
Context (P : event -> Prop) (HP : routine P).

Hypothesis append_agent_log_quiet :
  forall agent_id line, preserves (quiet P) (append_agent_log agent_id line).
Hypothesis write_agent_state_quiet :
  forall agent_id data, state_invariant data ->
                        preserves (quiet P) (write_agent_state agent_id data).

Lemma log_stamped_quiet (agent_id message : string) :
  preserves (quiet P) (log_stamped E append_agent_log agent_id message).
Proof. unfold log_stamped. repeat preserve_step. apply append_agent_log_quiet. Qed.

Lemma run_tool_adapter_quiet (agent_id : string) (adapter_name params : json) :
  preserves (quiet P) (run_tool_adapter E append_agent_log agent_id adapter_name params).
Proof.
  unfold run_tool_adapter.
  repeat first [ apply append_agent_log_quiet
               | apply emit_quiet; apply HP
               | preserve_step ].
Qed.

Lemma flowise_step_quiet (agent_id : string) (payload : json) :
  preserves (quiet P) (flowise_step E append_agent_log agent_id payload).
Proof.
  unfold flowise_step.
  repeat first [ apply log_stamped_quiet
               | apply emit_quiet; apply HP
               | preserve_step ].
Qed.

Lemma adapter_failed_quiet (agent_id : string) (out : list (string * json)) (e : exn) :
  preserves (quiet P) (adapter_failed E append_agent_log agent_id out e).
Proof. unfold adapter_failed. repeat first [apply log_stamped_quiet | preserve_step]. Qed.

Lemma adapter_step_quiet (agent_id : string) (payload : json) (out : list (string * json)) :
  preserves (quiet P) (adapter_step E append_agent_log agent_id payload out).
Proof.
  unfold adapter_step.
  repeat first [ apply log_stamped_quiet
               | apply run_tool_adapter_quiet
               | apply adapter_failed_quiet
               | preserve_step ].
Qed.

Lemma complete_evolves (agent_id : string) (payload flow_out gen : json) :
  (forall out, P (OutputWritten agent_id out)) ->
  preserves (evolves P)
            (complete E append_agent_log write_agent_state agent_id payload flow_out gen).
Proof.
  intros Hout. unfold complete, finish.
  repeat first [ apply preserves_quiet_evolves;
                 first [ apply log_stamped_quiet
                       | apply adapter_step_quiet
                       | apply asctime_quiet
                       | apply write_agent_state_quiet; apply state_completed_invariant ]
               | apply write_output_json_evolves; apply Hout
               | apply preserves_bind; [typeclasses eauto | | intros ?] ].
Qed.

Lemma generate_and_finish_evolves (agent_id : string) (payload flow_out prompt : json) :
  P (OllamaCalled prompt) ->
  (forall out, P (OutputWritten agent_id out)) ->
  preserves (evolves P)
            (generate_and_finish E append_agent_log write_agent_state call_ollama
                                 agent_id payload flow_out prompt).
Proof.
  intros Hprompt Hout. unfold generate_and_finish.
  repeat first [ apply complete_evolves; exact Hout
               | apply preserves_quiet_evolves;
                 first [ apply log_stamped_quiet
                       | apply emit_quiet; assumption ]
               | apply preserves_bind; [typeclasses eauto | | intros ?]
               | apply preserves_lift; solve [typeclasses eauto] ].
Qed.

Lemma run_body_evolves (agent_id : string) :
  (forall prompt, P (OllamaCalled prompt)) ->
  (forall out, P (OutputWritten agent_id out)) ->
  preserves (evolves P)
            (run_body E append_agent_log write_agent_state call_ollama agent_id).
Proof.
  intros Hprompt Hout. unfold run_body, run_input, run_payload.
  repeat first [ apply generate_and_finish_evolves; [apply Hprompt | apply Hout]
               | apply preserves_quiet_evolves;
                 first [ apply log_stamped_quiet
                       | apply flowise_step_quiet
                       | apply write_agent_state_quiet; apply state_running_invariant ]
               | apply preserves_bind; [typeclasses eauto | | intros ?]
               | apply preserves_lift; solve [typeclasses eauto]
               | apply preserves_raise; solve [typeclasses eauto]
               | apply preserves_find_input; solve [typeclasses eauto]
               | match goal with
                 | |- preserves _ (match ?x with _ => _ end) => destruct x
                 end ].
Qed.

End WorkflowPreserves.

(** ** The helpers of the two revisions *)

Section Helpers.
Context (E : env) (P : event -> Prop) (HP : routine P).

Lemma tasks_append_agent_log_quiet (agent_id line : string) :
  preserves (quiet P) (Tasks.append_agent_log E agent_id line).
Proof. apply append_log_txt_quiet, HP. Qed.

Lemma tasks_write_agent_state_quiet (agent_id : string) (data : json) :
  state_invariant data -> preserves (quiet P) (Tasks.write_agent_state E agent_id data).
Proof. intros Hd. apply write_state_json_quiet. apply HP, Hd. Qed.

Lemma logging_append_agent_log_quiet (agent_id message : string) :
  preserves (quiet P) (AgentLogging.append_agent_log E agent_id message).
Proof.
  unfold AgentLogging.append_agent_log.
  apply preserves_bind; [typeclasses eauto | | intros _].
  - apply ensure_agent_dir_quiet, HP.
  - apply append_log_txt_quiet, HP.
Qed.

Lemma logging_write_agent_state_quiet (agent_id : string) (data : json) :
  state_invariant data ->
  preserves (quiet P) (AgentLogging.write_agent_state E agent_id data).
Proof.
  intros Hd. unfold AgentLogging.write_agent_state.
  apply preserves_bind; [typeclasses eauto | | intros _].
  - apply ensure_agent_dir_quiet, HP.
  - apply write_state_json_quiet. apply HP, Hd.
Qed.

Lemma tasks_on_failure_quiet (agent_id : string) (e : exn) :
  preserves (quiet P) (Tasks.on_failure E agent_id e).
Proof.
  unfold Tasks.on_failure.
  repeat first [ apply tasks_write_agent_state_quiet; apply state_failed_invariant
               | apply log_stamped_quiet; intros; apply tasks_append_agent_log_quiet
               | preserve_step ].
Qed.

Lemma app_on_failure_quiet (agent_id : string) (e : exn) :
  preserves (quiet P) (App.on_failure E agent_id e).
Proof.
  unfold App.on_failure.
  repeat first [ apply logging_write_agent_state_quiet; apply state_failed_invariant
               | apply log_stamped_quiet; intros; apply logging_append_agent_log_quiet
               | preserve_step ].
Qed.

Lemma tasks_run_evolves (agent_id : string) :
  (forall prompt, P (OllamaCalled prompt)) ->
  (forall out, P (OutputWritten agent_id out)) ->
  preserves (evolves P) (Tasks.run_agent_background E agent_id).
Proof.
  intros Hprompt Hout. unfold Tasks.run_agent_background.
  apply preserves_try_except; [typeclasses eauto | | intros e].
  - apply run_body_evolves; auto.
    + intros. apply tasks_append_agent_log_quiet.
    + intros. apply tasks_write_agent_state_quiet. assumption.
  - apply preserves_quiet_evolves, tasks_on_failure_quiet.
Qed.

Lemma app_run_evolves (agent_id : string) :
  (forall prompt, P (OllamaCalled prompt)) ->
  (forall out, P (OutputWritten agent_id out)) ->
  preserves (evolves P) (App.run_agent_background E agent_id).
Proof.
  intros Hprompt Hout. unfold App.run_agent_background.
  apply preserves_try_except; [typeclasses eauto | | intros e].
  - apply run_body_evolves; auto.
    + intros. apply logging_append_agent_log_quiet.
    + intros. apply logging_write_agent_state_quiet. assumption.
  - apply preserves_quiet_evolves, app_on_failure_quiet.
Qed.

End Helpers.

Lemma state_event_ok_routine : routine state_event_ok.
Proof. repeat split; simpl; auto. Qed.

(** ** C5: the invariant of [state.json] *)

Lemma evolves_writes_valid_states (run : M unit) :
  preserves (evolves state_event_ok) run -> writes_valid_states run.
Proof.
  intros Hrun w. destruct (Hrun w) as (_ & _ & Hst & new & Hj & Hall). split.
  - exists new. split; [assumption|]. intros a data Hin.
    rewrite Forall_forall in Hall. apply (Hall (StateWritten a data)).
    apply list_elem_of_In. assumption.
  - intros a. destruct (Hst a) as [Heq|[data [Heq Hok]]]; [left; assumption|].
    right. exists data. split; assumption.
Qed.


(** ** C10: a job directory that does not exist *)

Lemma tasks_log_stamped_missing (E : env) (agent_id message : string) (w : world) :
  fs w !! agent_id = None ->
  log_stamped E (Tasks.append_agent_log E) agent_id message w
  = (inl (no_such_file E agent_id "log.txt"), World (fs w) (S (clock w)) (journal w)).
Proof.
  intros Hnone. unfold log_stamped.
  rewrite (bind_returned _ _ w (World (fs w) (S (clock w)) (journal w))
                         (asctime_at E (clock w))) by reflexivity.
  unfold Tasks.append_agent_log, append_log_txt. cbn [fs]. rewrite Hnone. reflexivity.
Qed.

Lemma tasks_write_agent_state_missing (E : env) (agent_id : string) (data : json) (w : world) :
  fs w !! agent_id = None ->
  Tasks.write_agent_state E agent_id data w = (inl (no_such_file E agent_id "state.json"), w).
Proof.
  intros Hnone. unfold Tasks.write_agent_state, write_state_json. rewrite Hnone. reflexivity.
Qed.

Lemma tasks_run_without_directory (E : env) (agent_id : string) (w : world) :
  fs w !! agent_id = None ->
  run_body E (Tasks.append_agent_log E) (Tasks.write_agent_state E)
           (Tasks.call_ollama E) agent_id w
  = (inl (no_such_file E agent_id "log.txt"), World (fs w) (S (clock w)) (journal w))
  /\ Tasks.run_agent_background E agent_id w
     = (inl (no_such_file E agent_id "state.json"), World (fs w) (S (clock w)) (journal w)).
Proof.
  intros Hnone.
  assert (Hbody : run_body E (Tasks.append_agent_log E) (Tasks.write_agent_state E)
                           (Tasks.call_ollama E) agent_id w
                  = (inl (no_such_file E agent_id "log.txt"),
                     World (fs w) (S (clock w)) (journal w))).
  { unfold run_body. apply bind_raised, tasks_log_stamped_missing, Hnone. }
  split; [exact Hbody|].
  unfold Tasks.run_agent_background.
  rewrite (try_except_raised _ _ _ _ _ Hbody).
  unfold Tasks.on_failure.
  apply bind_raised, tasks_write_agent_state_missing. exact Hnone.
Qed.

(** C10. When the job directory of [agent_id] does not exist,
    [tasks.run_agent_background] raises without recording anything: the
    first log append fails with the missing-directory error, the handler's
    write of the "failed" state fails the same way and is what the caller
    sees, and the job store and the journal are left as they were, so no
    [state.json] exists for the id afterwards. *)
Theorem C10_missing_directory_records_nothing (E : env) (agent_id : string) (w : world) :
  fs w !! agent_id = None ->
  let body := run_body E (Tasks.append_agent_log E) (Tasks.write_agent_state E)
                       (Tasks.call_ollama E) agent_id w in
  let final := Tasks.run_agent_background E agent_id w in
  fst body = inl (no_such_file E agent_id "log.txt")
  /\ fst final = inl (no_such_file E agent_id "state.json")
  /\ fs (snd final) = fs w
  /\ journal (snd final) = journal w
  /\ state_of agent_id (snd final) = None.
Proof.
  intros Hnone body final.
  destruct (tasks_run_without_directory E agent_id w Hnone) as [Hbody Hfinal].
  unfold body, final. rewrite Hbody, Hfinal. unfold state_of. simpl. rewrite Hnone. auto.
Qed.

Lemma C10_witness :
  fst (Tasks.run_agent_background Samples.env_null "ghost" Samples.world_prompt)
  = inl (no_such_file Samples.env_null "ghost" "state.json")
  /\ state_of "ghost" (snd (Tasks.run_agent_background Samples.env_null "ghost"
                                                      Samples.world_prompt)) = None.
Proof.
  pose proof (C10_missing_directory_records_nothing
                Samples.env_null "ghost" Samples.world_prompt) as H.
  simpl in H. destruct H as (_ & Hraise & _ & _ & Hstate); [reflexivity|].
  split; assumption.
Defined.

(** ** The workflow while the job directory exists *)

Lemma evolves_alive (P : event -> Prop) (agent_id : string) (w w' : world) :
  evolves P w w' -> alive agent_id w -> alive agent_id w'.
Proof. intros (Ha & _) H. apply Ha, H. Qed.

Lemma quiet_alive (P : event -> Prop) (agent_id : string) (w w' : world) :
  quiet P w w' -> alive agent_id w -> alive agent_id w'.
Proof. intros [Hev _]. eapply evolves_alive, Hev. Qed.

Lemma write_output_json_missing (E : env) (agent_id : string) (out : json) (w : world) :
  fs w !! agent_id = None ->
  write_output_json E agent_id out w = (inl (no_such_file E agent_id "output.json"), w).
Proof. intros Hnone. unfold write_output_json. rewrite Hnone. reflexivity. Qed.

Section WorkflowRuns.
Context (E : env).
Variable append_agent_log : string -> string -> M unit.
Variable write_agent_state : string -> json -> M unit.
Variable call_ollama : json -> exn + json.
Context (P : event -> Prop) (HP : routine P).

Hypothesis append_agent_log_quiet :
  forall agent_id line, preserves (quiet P) (append_agent_log agent_id line).
Hypothesis write_agent_state_quiet :
  forall agent_id data, state_invariant data ->
                        preserves (quiet P) (write_agent_state agent_id data).
Hypothesis append_agent_log_runs :
  forall agent_id line w, alive agent_id w -> fst (append_agent_log agent_id line w) = inr tt.
Hypothesis write_agent_state_runs :
  forall agent_id data w, alive agent_id w ->
                          fst (write_agent_state agent_id data w) = inr tt.

Lemma log_stamped_runs (agent_id message : string) (w : world) :
  alive agent_id w -> fst (log_stamped E append_agent_log agent_id message w) = inr tt.
Proof.
  intros Hw. unfold log_stamped.
  rewrite (bind_returned _ _ w (World (fs w) (S (clock w)) (journal w))
                         (asctime_at E (clock w))) by reflexivity.
  apply append_agent_log_runs. exact Hw.
Qed.

End WorkflowRuns.

Lemma tasks_append_agent_log_runs (E : env) (agent_id line : string) (w : world) :
  alive agent_id w -> fst (Tasks.append_agent_log E agent_id line w) = inr tt.
Proof.
  intros [d Hd]. unfold Tasks.append_agent_log, append_log_txt. rewrite Hd. reflexivity.
Qed.

Lemma tasks_write_agent_state_runs (E : env) (agent_id : string) (data : json) (w : world) :
  alive agent_id w -> fst (Tasks.write_agent_state E agent_id data w) = inr tt.
Proof.
  intros [d Hd]. unfold Tasks.write_agent_state, write_state_json. rewrite Hd. reflexivity.
Qed.

Lemma ensure_agent_dir_runs (agent_id : string) (w : world) :
  fst (AgentLogging.ensure_agent_dir agent_id w) = inr tt
  /\ alive agent_id (snd (AgentLogging.ensure_agent_dir agent_id w)).
Proof.
  unfold AgentLogging.ensure_agent_dir, alive.
  destruct (fs w !! agent_id) as [d|] eqn:Hd; simpl.
  - rewrite Hd. eauto.
  - rewrite lookup_insert_eq. eauto.
Qed.

Lemma logging_append_agent_log_runs (E : env) (agent_id message : string) (w : world) :
  fst (AgentLogging.append_agent_log E agent_id message w) = inr tt.
Proof.
  unfold AgentLogging.append_agent_log.
  destruct (ensure_agent_dir_runs agent_id w) as [Hr [d Hd]].
  rewrite (bind_run _ _ _ _ Hr). unfold append_log_txt. rewrite Hd. reflexivity.
Qed.

Lemma logging_write_agent_state_runs (E : env) (agent_id : string) (data : json) (w : world) :
  fst (AgentLogging.write_agent_state E agent_id data w) = inr tt.
Proof.
  unfold AgentLogging.write_agent_state.
  destruct (ensure_agent_dir_runs agent_id w) as [Hr [d Hd]].
  rewrite (bind_run _ _ _ _ Hr). unfold write_state_json. rewrite Hd. reflexivity.
Qed.

(** ** Events that are not writes of [output.json] *)

Lemma not_output_event_routine : routine not_output_event.
Proof. repeat split; unfold not_output_event; simpl; intros; tauto. Qed.

Section WorkflowPaths.
Context (E : env).
Variable append_agent_log : string -> string -> M unit.
Variable write_agent_state : string -> json -> M unit.
Variable call_ollama : json -> exn + json.
Context (P : event -> Prop) (HP : routine P).

Hypothesis append_agent_log_quiet :
  forall agent_id line, preserves (quiet P) (append_agent_log agent_id line).
Hypothesis append_agent_log_runs :
  forall agent_id line w, alive agent_id w -> fst (append_agent_log agent_id line w) = inr tt.

Let stamped_runs := log_stamped_runs E append_agent_log append_agent_log_runs.
Let stamped_quiet := log_stamped_quiet E append_agent_log P append_agent_log_quiet.

Lemma flowise_step_runs (agent_id : string) (fields : list (string * json)) (w : world) :
  alive agent_id w ->
  fst (flowise_step E append_agent_log agent_id (JObj fields) w)
  = inr (flow_result E fields).
Proof.
  intros Hw. unfold flowise_step, flow_result.
  rewrite (bind_returned _ _ w w
             (match dict_get "flow_id" fields with Some v => v | None => JNull end))
    by reflexivity.
  destruct (truthy _) eqn:Hflow; [|reflexivity].
  set (flow_id := match dict_get "flow_id" fields with Some v => v | None => JNull end) in *.
  rewrite (bind_run _ _ _ _ (stamped_runs agent_id _ w Hw)).
  match goal with |- context [snd (?m w)] => set (w1 := snd (m w)) end.
  assert (Hw1 : alive agent_id w1) by (eapply quiet_alive; [apply stamped_quiet | exact Hw]).
  set (context := match dict_get "context" fields with Some v => v | None => JObj [] end).
  set (w2 := World (fs w1) (clock w1) (journal w1 ++ [FlowiseCalled flow_id context])%list).
  assert (Hw2 : alive agent_id w2) by exact Hw1.
  destruct (call_flowise E flow_id context) as [e|flow_out] eqn:Hcall.
  - rewrite (try_except_raised _ _ w1 w2 e).
    + rewrite (bind_run _ _ _ _ (stamped_runs agent_id _ w2 Hw2)). reflexivity.
    + rewrite (bind_returned _ _ w1 w1 context) by reflexivity.
      rewrite (bind_returned _ _ w1 w2 tt) by reflexivity.
      apply bind_raised. unfold lift. rewrite Hcall. reflexivity.
  - erewrite try_except_run; [reflexivity|].
    rewrite (bind_returned _ _ w1 w1 context) by reflexivity.
    rewrite (bind_returned _ _ w1 w2 tt) by reflexivity.
    rewrite (bind_returned _ _ w2 w2 flow_out) by (unfold lift; rewrite Hcall; reflexivity).
    rewrite (bind_run _ _ _ _ (stamped_runs agent_id _ w2 Hw2)). reflexivity.
Qed.

Lemma attempt_eq {A : Type} (m : M A) (w : world) :
  attempt m w = (inr (fst (m w)), snd (m w)).
Proof. unfold attempt. destruct (m w); reflexivity. Qed.

Lemma run_tool_adapter_result (agent_id : string) (adapter_name params result : json)
      (w : world) :
  fst (run_tool_adapter E append_agent_log agent_id adapter_name params w) = inr result ->
  exists returncode stdout stderr,
    result = JObj [("returncode", JInt returncode);
                   ("stdout", JStr stdout);
                   ("stderr", JStr stderr)].
Proof.
  unfold run_tool_adapter. destruct adapter_name; try discriminate.
  destruct (adapter_exists E s); simpl.
  - unfold bind, emit, lift.
    destruct (subprocess_run E s params) as [e|[[rc so] se]]; simpl; [discriminate|].
    intros H. injection H as <-. eauto.
  - unfold bind. destruct (append_agent_log agent_id _ w) as [[e|u] w1]; discriminate.
Qed.

Lemma run_tool_adapter_missing (agent_id name : string) (params : json) (w : world) :
  alive agent_id w ->
  adapter_exists E name = false ->
  fst (run_tool_adapter E append_agent_log agent_id (JStr name) params w)
  = inl (Exn FileNotFoundError ("Adapter not found: " +:+ name)).
Proof.
  intros Hw Hmissing. unfold run_tool_adapter. rewrite Hmissing. simpl.
  rewrite (bind_run _ _ _ _ (append_agent_log_runs agent_id _ w Hw)). reflexivity.
Qed.

Lemma adapter_failed_runs (agent_id : string) (out : list (string * json)) (e : exn)
      (w : world) :
  alive agent_id w ->
  fst (adapter_failed E append_agent_log agent_id out e w)
  = inr (dict_set "adapter_error" (JStr (exn_msg e)) out).
Proof.
  intros Hw. unfold adapter_failed.
  rewrite (bind_run _ _ _ _ (stamped_runs agent_id _ w Hw)). reflexivity.
Qed.

(** The statements after [if payload.get("tool"):], for a tool that is a dict. *)
Lemma adapter_step_tool (agent_id : string) (fields tool : list (string * json))
      (out : list (string * json)) (w : world) :
  alive agent_id w ->
  dict_get "tool" fields = Some (JObj tool) ->
  tool <> [] ->
  let adapter := match dict_get "name" tool with Some v => v | None => JNull end in
  let params := match dict_get "params" tool with Some v => v | None => JObj [] end in
  exists w1,
    alive agent_id w1
    /\ fst (adapter_step E append_agent_log agent_id (JObj fields) out w)
       = match fst (run_tool_adapter E append_agent_log agent_id adapter params w1) with
         | inr result => inr (dict_set "adapter_result" result out)
         | inl e => inr (dict_set "adapter_error" (JStr (exn_msg e)) out)
         end.
Proof.
  intros Hw Htool Hne adapter params. unfold adapter_step.
  rewrite (bind_returned _ _ w w (JObj tool))
    by (unfold lift, py_get; simpl; rewrite Htool; reflexivity).
  assert (Htruthy : truthy (JObj tool) = true) by (destruct tool; [congruence|reflexivity]).
  rewrite Htruthy.
  rewrite (bind_returned _ _ w w adapter) by reflexivity.
  rewrite (bind_returned _ _ w w params) by reflexivity.
  rewrite (bind_run _ _ _ _ (stamped_runs agent_id _ w Hw)).
  match goal with |- context [snd (?m w)] => set (w1 := snd (m w)) end.
  assert (Hw1 : alive agent_id w1) by (eapply quiet_alive; [apply stamped_quiet | exact Hw]).
  exists w1. split; [exact Hw1|].
  rewrite (bind_returned _ _ w1 _ _ (attempt_eq _ w1)).
  pose proof (run_tool_adapter_quiet E append_agent_log P HP append_agent_log_quiet
                agent_id adapter params w1) as Hq.
  destruct (fst (run_tool_adapter E append_agent_log agent_id adapter params w1))
    as [e|result] eqn:Hran.
  - apply adapter_failed_runs. eapply quiet_alive; [exact Hq | exact Hw1].
  - destruct (run_tool_adapter_result _ _ _ _ _ Hran) as (rc & so & se & ->).
    set (w2 := snd (run_tool_adapter E append_agent_log agent_id adapter params w1)) in *.
    assert (Hw2 : alive agent_id w2) by (eapply quiet_alive; [exact Hq | exact Hw1]).
    rewrite (bind_returned _ _ w2 _ _ (attempt_eq _ w2)).
    rewrite (bind_returned _ _ w2 w2 (JInt rc)) by reflexivity.
    rewrite (stamped_runs agent_id _ w2 Hw2). reflexivity.
Qed.

Lemma adapter_step_no_tool (agent_id : string) (fields : list (string * json))
      (out : list (string * json)) (w : world) :
  truthy (match dict_get "tool" fields with Some v => v | None => JNull end) = false ->
  adapter_step E append_agent_log agent_id (JObj fields) out w = (inr out, w).
Proof.
  intros Hfalsy. unfold adapter_step.
  rewrite (bind_returned _ _ w w
             (match dict_get "tool" fields with Some v => v | None => JNull end))
    by reflexivity.
  rewrite Hfalsy. reflexivity.
Qed.

(** A truthy [tool] that is not a dict has no [get]: the job fails. *)
Lemma adapter_step_bad_tool (agent_id : string) (fields : list (string * json))
      (tool : json) (out : list (string * json)) (w : world) :
  dict_get "tool" fields = Some tool ->
  truthy tool = true ->
  is_dict tool = false ->
  adapter_step E append_agent_log agent_id (JObj fields) out w
  = (inl (no_attribute tool "get"), w).
Proof.
  intros Htool Htruthy Hdict. unfold adapter_step.
  rewrite (bind_returned _ _ w w tool)
    by (unfold lift, py_get; simpl; rewrite Htool; reflexivity).
  rewrite Htruthy. destruct tool; try discriminate; reflexivity.
Qed.

(** Whatever the payload asks for, [adapter_step] adds at most one of the
    two adapter keys. *)
Lemma adapter_step_outcome (agent_id : string) (payload : json)
      (out out' : list (string * json)) (w : world) :
  alive agent_id w ->
  fst (adapter_step E append_agent_log agent_id payload out w) = inr out' ->
  adapter_outcome out out'.
Proof.
  intros Hw Hret.
  destruct payload as [| | | | |items|fields];
    try (unfold adapter_step, bind, lift in Hret; simpl in Hret; discriminate).
  destruct (truthy (match dict_get "tool" fields with Some v => v | None => JNull end))
    eqn:Htruthy.
  - destruct (dict_get "tool" fields) as [tool|] eqn:Htool; [|discriminate].
    destruct (is_dict tool) eqn:Hdict.
    2:{ rewrite (adapter_step_bad_tool agent_id fields tool out w Htool Htruthy Hdict)
          in Hret.
        discriminate. }
    destruct tool as [| | | | |items|tfields]; try discriminate.
    assert (Hne : tfields <> []) by (intros ->; discriminate).
    destruct (adapter_step_tool agent_id fields tfields out w Hw Htool Hne)
      as (w1 & _ & Heq).
    rewrite Heq in Hret.
    destruct (fst (run_tool_adapter E append_agent_log agent_id _ _ w1)) as [e|result];
      injection Hret as <-; right; [right|left]; eauto.
  - rewrite (adapter_step_no_tool agent_id fields out w Htruthy) in Hret.
    injection Hret as <-. left. reflexivity.
Qed.

End WorkflowPaths.

(** ** The path of a run through its stages *)

Section RunPaths.
Context (E : env).
Variable append_agent_log : string -> string -> M unit.
Variable write_agent_state : string -> json -> M unit.
Variable call_ollama : json -> exn + json.
Context (P : event -> Prop) (HP : routine P).

Hypothesis append_agent_log_quiet :
  forall agent_id line, preserves (quiet P) (append_agent_log agent_id line).
Hypothesis write_agent_state_quiet :
  forall agent_id data, state_invariant data ->
                        preserves (quiet P) (write_agent_state agent_id data).
Hypothesis append_agent_log_runs :
  forall agent_id line w, alive agent_id w -> fst (append_agent_log agent_id line w) = inr tt.
Hypothesis write_agent_state_runs :
  forall agent_id data w, alive agent_id w ->
                          fst (write_agent_state agent_id data w) = inr tt.

Let stamped_runs := log_stamped_runs E append_agent_log append_agent_log_runs.
Let stamped_quiet := log_stamped_quiet E append_agent_log P append_agent_log_quiet.

Local Abbreviation body := (run_body E append_agent_log write_agent_state call_ollama).
Local Abbreviation input_stage := (run_input E append_agent_log write_agent_state call_ollama).
Local Abbreviation payload_stage := (run_payload E append_agent_log write_agent_state call_ollama).
Local Abbreviation generate := (generate_and_finish E append_agent_log write_agent_state call_ollama).

(** The first two statements succeed and the input is looked up. *)
Lemma run_body_start (agent_id : string) (w : world) :
  alive agent_id w ->
  exists w2, quiet P w w2
             /\ body agent_id w = input_stage agent_id (input_of agent_id w) w2.
Proof.
  intros Hw. unfold run_body.
  rewrite (bind_run _ _ _ _ (stamped_runs agent_id _ w Hw)).
  match goal with |- context [snd (?m w)] => set (w1 := snd (m w)) end.
  assert (Hq1 : quiet P w w1) by apply stamped_quiet.
  assert (Hw1 : alive agent_id w1) by (eapply quiet_alive; eassumption).
  rewrite (bind_run _ _ _ _ (write_agent_state_runs agent_id _ w1 Hw1)).
  match goal with |- context [snd (?m w1)] => set (w2 := snd (m w1)) end.
  assert (Hq2 : quiet P w1 w2) by apply write_agent_state_quiet, state_running_invariant.
  assert (Hq : quiet P w w2) by (etransitivity; eassumption).
  exists w2. split; [exact Hq|].
  rewrite (bind_returned _ _ w2 w2 (input_of agent_id w2)) by reflexivity.
  destruct Hq as [(_ & Hin & _) _]. rewrite Hin. reflexivity.
Qed.

(** For a payload that is a dict, the workflow step and the prompt. *)
Lemma run_payload_path (agent_id : string) (fields : list (string * json)) (prompt : json)
      (w : world) :
  alive agent_id w ->
  build_prompt E (JObj fields) (flow_result E fields) = inr prompt ->
  exists w1, quiet P w w1
             /\ payload_stage agent_id (JObj fields) w
                = generate agent_id (JObj fields) (flow_result E fields) prompt w1.
Proof.
  intros Hw Hprompt. unfold run_payload.
  pose proof (flowise_step_runs E append_agent_log P append_agent_log_quiet
                append_agent_log_runs agent_id fields w Hw) as Hflow.
  rewrite (bind_run _ _ _ _ Hflow).
  match goal with |- context [snd (?m w)] => set (w1 := snd (m w)) end.
  exists w1. split; [apply flowise_step_quiet; assumption|].
  rewrite (bind_returned _ _ w1 w1 prompt) by (unfold lift; rewrite Hprompt; reflexivity).
  reflexivity.
Qed.

(** The model answers: the run goes on to the adapter with the fresh [out]. *)
Lemma generate_answers (agent_id : string) (payload flow_out prompt gen : json) (w : world) :
  alive agent_id w ->
  P (OllamaCalled prompt) ->
  call_ollama prompt = inr gen ->
  exists w1 completed_at,
    quiet P w w1
    /\ generate agent_id payload flow_out prompt w
       = bind (adapter_step E append_agent_log agent_id payload
                            [("model_response", gen);
                             ("flowise", flow_out);
                             ("completed_at", JStr completed_at)])
              (finish E append_agent_log write_agent_state agent_id) w1.
Proof.
  intros Hw HPp Hgen. unfold generate_and_finish.
  rewrite (bind_run _ _ _ _ (stamped_runs agent_id _ w Hw)).
  match goal with |- context [snd (?m w)] => set (w1 := snd (m w)) end.
  assert (Hq1 : quiet P w w1) by apply stamped_quiet.
  set (w2 := snd (emit (OllamaCalled prompt) w1)).
  assert (Hq2 : quiet P w1 w2) by (apply emit_quiet; exact HPp).
  rewrite (bind_returned _ _ w1 w2 tt) by reflexivity.
  rewrite (bind_returned _ _ w2 w2 gen) by (unfold lift; rewrite Hgen; reflexivity).
  unfold complete.
  assert (Hw2 : alive agent_id w2) by (eapply quiet_alive; [|eapply quiet_alive]; eassumption).
  rewrite (bind_run _ _ _ _ (stamped_runs agent_id _ w2 Hw2)).
  match goal with |- context [snd (?m w2)] => set (w3 := snd (m w2)) end.
  assert (Hq3 : quiet P w2 w3) by apply stamped_quiet.
  set (w4 := snd (asctime E w3)).
  assert (Hq4 : quiet P w3 w4) by apply asctime_quiet.
  rewrite (bind_returned _ _ w3 w4 (asctime_at E (clock w3))) by reflexivity.
  exists w4, (asctime_at E (clock w3)). split; [|reflexivity].
  transitivity w1; [exact Hq1|]. transitivity w2; [exact Hq2|].
  transitivity w3; assumption.
Qed.

End RunPaths.

(** ** [tasks.py] while the job directory exists *)

Section TasksPaths.
Context (E : env) (P : event -> Prop) (HP : routine P).

Lemma tasks_finish (agent_id : string) (out : list (string * json)) (w : world) :
  alive agent_id w ->
  P (OutputWritten agent_id (JObj out)) ->
  exists w',
    finish E (Tasks.append_agent_log E) (Tasks.write_agent_state E) agent_id out w
    = (inr tt, w')
    /\ output_of agent_id w' = Some (Parsed (JObj out))
    /\ state_of agent_id w' = Some (Parsed state_completed)
    /\ evolves P w w'.
Proof.
  intros [d Hd] Hout.
  assert (Hev : evolves P w
                  (snd (finish E (Tasks.append_agent_log E) (Tasks.write_agent_state E)
                               agent_id out w))).
  { unfold finish.
    apply preserves_bind; [typeclasses eauto | | intros _].
    - apply write_output_json_evolves, Hout.
    - apply preserves_quiet_evolves.
      apply preserves_bind; [typeclasses eauto | | intros _].
      + apply tasks_write_agent_state_quiet; [exact HP | apply state_completed_invariant].
      + apply log_stamped_quiet. intros. apply tasks_append_agent_log_quiet, HP. }
  assert (Hrun : exists w',
             finish E (Tasks.append_agent_log E) (Tasks.write_agent_state E) agent_id out w
             = (inr tt, w')
             /\ output_of agent_id w' = Some (Parsed (JObj out))
             /\ state_of agent_id w' = Some (Parsed state_completed)).
  { unfold finish, Tasks.write_agent_state, log_stamped, Tasks.append_agent_log,
      write_output_json, write_state_json, append_log_txt, asctime, bind.
    rewrite Hd. cbn [commit fs clock journal].
    rewrite lookup_insert_eq. cbn [commit fs clock journal].
    rewrite lookup_insert_eq.
    eexists. split; [reflexivity|].
    unfold output_of, state_of. cbn [commit fs]. rewrite lookup_insert_eq.
    split; reflexivity. }
  destruct Hrun as (w' & Heq & Ho & Hs). rewrite Heq in Hev.
  exists w'. split; [exact Heq|]. split; [exact Ho|]. split; [exact Hs | exact Hev].
Qed.

Lemma tasks_on_failure_alive (agent_id : string) (e : exn) (w : world) :
  alive agent_id w ->
  exists w',
    Tasks.on_failure E agent_id e w = (inl e, w')
    /\ state_of agent_id w' = Some (Parsed (state_failed e))
    /\ quiet P w w'.
Proof.
  intros [d Hd].
  pose proof (tasks_on_failure_quiet E P HP agent_id e w) as Hq.
  assert (Hrun : exists w',
             Tasks.on_failure E agent_id e w = (inl e, w')
             /\ state_of agent_id w' = Some (Parsed (state_failed e))).
  { unfold Tasks.on_failure, Tasks.write_agent_state, log_stamped, Tasks.append_agent_log,
      write_state_json, append_log_txt, asctime, bind, raise.
    rewrite Hd. cbn [commit fs clock journal].
    rewrite lookup_insert_eq.
    eexists. split; [reflexivity|].
    unfold state_of. cbn [commit fs]. rewrite lookup_insert_eq. reflexivity. }
  destruct Hrun as (w' & Heq & Hs). rewrite Heq in Hq.
  exists w'. split; [exact Heq|]. split; [exact Hs | exact Hq].
Qed.

End TasksPaths.

Lemma any_event_routine : routine any_event.
Proof. repeat split. Qed.

Lemma input_of_alive (agent_id : string) (w : world) (file : jfile) :
  input_of agent_id w = Some file -> alive agent_id w.
Proof.
  unfold input_of, alive. destruct (fs w !! agent_id); [eauto | discriminate].
Qed.

Section TasksRuns.
Context (E : env).

Local Abbreviation tasks_body :=
  (run_body E (Tasks.append_agent_log E) (Tasks.write_agent_state E) (Tasks.call_ollama E)).
Local Abbreviation tasks_adapter_step := (adapter_step E (Tasks.append_agent_log E)).
Local Abbreviation tasks_finish_stage :=
  (finish E (Tasks.append_agent_log E) (Tasks.write_agent_state E)).
Local Abbreviation tasks_generate :=
  (generate_and_finish E (Tasks.append_agent_log E) (Tasks.write_agent_state E)
                       (Tasks.call_ollama E)).

(** With a dict for a payload, the [try] block reaches the call of the model. *)
Lemma tasks_body_reaches_model (P : event -> Prop) (agent_id : string)
      (fields : list (string * json)) (prompt : json) (w : world) :
  routine P ->
  input_of agent_id w = Some (Parsed (JObj fields)) ->
  build_prompt E (JObj fields) (flow_result E fields) = inr prompt ->
  exists w3,
    alive agent_id w3 /\ quiet P w w3
    /\ tasks_body agent_id w
       = tasks_generate agent_id (JObj fields) (flow_result E fields) prompt w3.
Proof.
  intros HP Hin Hprompt.
  pose proof (input_of_alive _ _ _ Hin) as Hw.
  pose proof (tasks_append_agent_log_quiet E P HP) as Hlq.
  pose proof (tasks_write_agent_state_quiet E P HP) as Hsq.
  destruct (run_body_start E _ _ (Tasks.call_ollama E) P Hlq Hsq
              (tasks_append_agent_log_runs E) (tasks_write_agent_state_runs E)
              agent_id w Hw) as (w2 & Hq2 & Hbody).
  rewrite Hbody, Hin. unfold run_input.
  rewrite (bind_returned _ _ w2 w2 (JObj fields)) by reflexivity.
  assert (Hw2 : alive agent_id w2) by (eapply quiet_alive; eassumption).
  destruct (run_payload_path E _ (Tasks.write_agent_state E) (Tasks.call_ollama E) P HP Hlq
              (tasks_append_agent_log_runs E) agent_id fields prompt w2 Hw2 Hprompt)
    as (w3 & Hq3 & Hpayload).
  exists w3. split; [eapply quiet_alive; eassumption|].
  split; [etransitivity; eassumption | exact Hpayload].
Qed.

(** A run whose payload is a dict, whose model call answers and whose
    adapter step returns: it completes, and [output.json] holds what the
    adapter step made of the fresh [out]. *)
Lemma tasks_run_completes (Q : list (string * json) -> Prop) (agent_id : string)
      (fields : list (string * json)) (prompt gen : json) (w : world) :
  input_of agent_id w = Some (Parsed (JObj fields)) ->
  build_prompt E (JObj fields) (flow_result E fields) = inr prompt ->
  Tasks.call_ollama E prompt = inr gen ->
  (forall completed_at w4,
      alive agent_id w4 ->
      exists out,
        fst (tasks_adapter_step agent_id (JObj fields)
               (fresh_out gen (flow_result E fields) completed_at) w4) = inr out
        /\ Q out) ->
  exists w' out,
    Tasks.run_agent_background E agent_id w = (inr tt, w')
    /\ output_of agent_id w' = Some (Parsed (JObj out))
    /\ Q out
    /\ state_of agent_id w' = Some (Parsed state_completed).
Proof.
  intros Hin Hprompt Hgen Hadapter.
  pose proof any_event_routine as HP.
  pose proof (tasks_append_agent_log_quiet E any_event HP) as Hlq.
  pose proof (tasks_write_agent_state_quiet E any_event HP) as Hsq.
  destruct (tasks_body_reaches_model any_event agent_id fields prompt w HP Hin Hprompt)
    as (w3 & Hw3 & _ & Hbody).
  destruct (generate_answers E _ (Tasks.write_agent_state E) (Tasks.call_ollama E)
              any_event Hlq
              (tasks_append_agent_log_runs E) agent_id (JObj fields)
              (flow_result E fields) prompt gen w3 Hw3 I Hgen)
    as (w4 & completed_at & Hq4 & Hgenerate).
  assert (Hw4 : alive agent_id w4) by (eapply quiet_alive; eassumption).
  destruct (Hadapter completed_at w4 Hw4) as (out & Hout & HQ).
  fold (fresh_out gen (flow_result E fields) completed_at) in Hgenerate.
  rewrite (bind_run _ _ _ _ Hout) in Hgenerate.
  match type of Hgenerate with context [snd (?m w4)] => set (w5 := snd (m w4)) in * end.
  assert (Hw5 : alive agent_id w5).
  { eapply quiet_alive; [|exact Hw4]. apply (adapter_step_quiet E _ any_event HP Hlq). }
  destruct (tasks_finish E any_event HP agent_id out w5 Hw5 I) as (w' & Hfin & Ho & Hs & _).
  exists w', out. split; [|auto].
  unfold Tasks.run_agent_background. apply try_except_returned.
  rewrite Hbody, Hgenerate. exact Hfin.
Qed.

End TasksRuns.

(** ** C1: a job whose input holds only a prompt *)





(** ** Steps that start from a world with the job directory *)

Section PreservesFrom.
Context (I : world -> Prop) (R : world -> world -> Prop) `{!PreOrder R}.
Hypothesis stable : forall w w', I w -> R w w' -> I w'.

Lemma preserves_from_any {A : Type} (m : M A) : preserves R m -> preserves_from I R m.
Proof. intros Hm w _. apply Hm. Qed.

End PreservesFrom.

Lemma output_event_ok_routine : routine output_event_ok.
Proof. repeat split. Qed.

Lemma adapter_outcome_one_key (gen flow_out : json) (completed_at : string)
      (out : list (string * json)) :
  adapter_outcome (fresh_out gen flow_out completed_at) out -> one_adapter_key (JObj out).
Proof.
  intros [->|[[result ->]|[message ->]]]; simpl; intros [H1 H2]; discriminate.
Qed.

Section WorkflowOutputs.
Context (E : env).
Variable append_agent_log : string -> string -> M unit.
Variable write_agent_state : string -> json -> M unit.
Variable call_ollama : json -> exn + json.
Context (P : event -> Prop) (HP : routine P).

Hypothesis append_agent_log_quiet :
  forall agent_id line, preserves (quiet P) (append_agent_log agent_id line).
Hypothesis write_agent_state_quiet :
  forall agent_id data, state_invariant data ->
                        preserves (quiet P) (write_agent_state agent_id data).
Hypothesis append_agent_log_runs :
  forall agent_id line w, alive agent_id w -> fst (append_agent_log agent_id line w) = inr tt.

Variable agent_id : string.
Hypothesis prompts_allowed : forall prompt, P (OllamaCalled prompt).
Hypothesis outputs_allowed :
  forall gen flow_out completed_at out,
    adapter_outcome (fresh_out gen flow_out completed_at) out ->
    P (OutputWritten agent_id (JObj out)).

Let stable : forall w w', alive agent_id w -> evolves P w w' -> alive agent_id w'.
Proof. intros w w' Hw Hev. eapply evolves_alive; eassumption. Qed.

Let from_quiet {A : Type} (m : M A) :
  preserves (quiet P) m -> preserves_from (alive agent_id) (evolves P) m.
Proof. intros H. apply preserves_from_any, preserves_quiet_evolves, H. Qed.

End WorkflowOutputs.

(** ** C3: a workflow call that raises *)

Lemma tasks_adapter_step_keeps_flowise (E : env) (agent_id : string)
      (fields : list (string * json)) (gen flow_out : json) (completed_at : string)
      (w : world) :
  alive agent_id w ->
  truthy (tool_of fields) = false \/ is_dict (tool_of fields) = true ->
  exists out,
    fst (adapter_step E (Tasks.append_agent_log E) agent_id (JObj fields)
                      (fresh_out gen flow_out completed_at) w) = inr out
    /\ dict_get "flowise" out = Some flow_out.
Proof.
  intros Hw Htool. pose proof any_event_routine as HP.
  destruct (truthy (tool_of fields)) eqn:Htruthy.
  - destruct Htool as [Hfalse|Hdict]; [discriminate|].
    unfold tool_of in *.
    destruct (dict_get "tool" fields) as [tool|] eqn:Hget; [|discriminate].
    destruct tool as [| | | | |items|tfields]; try discriminate.
    assert (Hne : tfields <> []) by (intros ->; discriminate).
    destruct (adapter_step_tool E _ any_event HP (tasks_append_agent_log_quiet E _ HP)
                (tasks_append_agent_log_runs E) agent_id fields tfields
                (fresh_out gen flow_out completed_at) w Hw Hget Hne) as (w1 & _ & Heq).
    rewrite Heq.
    destruct (fst (run_tool_adapter _ _ _ _ _ w1)) as [e|result]; eexists;
      (split; [reflexivity|reflexivity]).
  - exists (fresh_out gen flow_out completed_at). split; [|reflexivity].
    rewrite (adapter_step_no_tool E _ agent_id fields _ w Htruthy). reflexivity.
Qed.





(** ** C8: the prompt handed to the model *)

Lemma no_model_call_routine : routine no_model_call.
Proof. repeat split. Qed.

Lemma model_calls_none (events : list event) :
  Forall no_model_call events -> model_calls events = [].
Proof.
  induction 1 as [|ev rest Hev _ IH]; [reflexivity|].
  unfold model_calls in *. simpl. rewrite IH. destruct ev; simpl in *; tauto.
Qed.

Lemma model_calls_app (l1 l2 : list event) :
  model_calls (l1 ++ l2) = (model_calls l1 ++ model_calls l2)%list.
Proof. unfold model_calls. apply flat_map_app. Qed.

(** A run of [tasks.py] on a payload that is a dict calls the model once,
    with the prompt [build_prompt] makes. *)
Lemma tasks_run_calls_model_once (E : env) (agent_id : string)
      (fields : list (string * json)) (prompt : json) (w : world) :
  input_of agent_id w = Some (Parsed (JObj fields)) ->
  build_prompt E (JObj fields) (flow_result E fields) = inr prompt ->
  exists new,
    journal (snd (Tasks.run_agent_background E agent_id w)) = (journal w ++ new)%list
    /\ model_calls new = [prompt].
Proof.
  intros Hin Hprompt. pose proof no_model_call_routine as HP.
  pose proof (tasks_append_agent_log_quiet E no_model_call HP) as Hlq.
  pose proof (tasks_write_agent_state_quiet E no_model_call HP) as Hsq.
  destruct (tasks_body_reaches_model E no_model_call agent_id fields prompt w HP Hin Hprompt)
    as (w3 & Hw3 & Hq3 & Hbody).
  unfold generate_and_finish in Hbody.
  rewrite (bind_run _ _ _ _ (log_stamped_runs E _ (tasks_append_agent_log_runs E)
                               agent_id _ w3 Hw3)) in Hbody.
  match type of Hbody with context [snd (?m w3)] => set (w4 := snd (m w3)) in * end.
  assert (Hq4 : quiet no_model_call w3 w4) by (apply log_stamped_quiet; exact Hlq).
  set (w5 := World (fs w4) (clock w4) (journal w4 ++ [OllamaCalled prompt])%list).
  rewrite (bind_returned _ _ w4 w5 tt) in Hbody by reflexivity.
  match type of Hbody with _ = ?t w5 => set (tail := t) in * end.
  assert (Htail : preserves (evolves no_model_call) tail).
  { unfold tail. apply preserves_bind; [typeclasses eauto | | intros gen].
    - apply preserves_lift. typeclasses eauto.
    - apply complete_evolves; auto. intros out. exact I. }
  assert (Hrest : grows no_model_call w5 (snd (Tasks.run_agent_background E agent_id w))).
  { unfold Tasks.run_agent_background, try_except. rewrite Hbody.
    pose proof (Htail w5) as Ht.
    destruct (tail w5) as [[e|u] w6]; simpl in *.
    - pose proof (tasks_on_failure_quiet E no_model_call HP agent_id e w6) as Hh.
      apply quiet_evolves in Hh.
      assert (Hall : evolves no_model_call w5 (snd (Tasks.on_failure E agent_id e w6)))
        by (etransitivity; eassumption).
      destruct Hall as (_ & _ & _ & Hg). exact Hg.
    - destruct Ht as (_ & _ & _ & Hg). exact Hg. }
  assert (Hfirst : grows no_model_call w w4).
  { assert (Hq : quiet no_model_call w w4) by (etransitivity; eassumption).
    destruct Hq as [(_ & _ & _ & Hg) _]. exact Hg. }
  destruct Hfirst as (before & Hj4 & Hbefore). destruct Hrest as (after & Hj & Hafter).
  exists (before ++ [OllamaCalled prompt] ++ after)%list. split.
  - rewrite Hj. simpl. rewrite Hj4. rewrite <- !app_assoc. reflexivity.
  - rewrite !model_calls_app, (model_calls_none _ Hbefore), (model_calls_none _ Hafter).
    reflexivity.
Qed.





(** ** C6: the combined text of an NDJSON stream *)

Lemma append_empty_r (s : string) : s +:+ "" = s.
Proof.
  induction s as [|c s IH]; [reflexivity|].
  change (String c (s +:+ "") = String c s). f_equal. exact IH.
Qed.

Lemma join_from_strings (i : nat) (chunks : list string) :
  App.join_from i (map App.Str chunks) = inr (String.concat "" chunks).
Proof.
  revert i. induction chunks as [|s rest IH]; intros i; [reflexivity|].
  cbn [map App.join_from]. rewrite IH. cbn [and_then]. destruct rest as [|s' rest'].
  - cbn [String.concat]. rewrite append_empty_r. reflexivity.
  - reflexivity.
Qed.

Lemma collect_parts_object_lines (resp : response) (lines : list ndline) :
  Forall object_line lines ->
  App.collect_parts resp lines = map App.Str (response_strings lines).
Proof.
  induction 1 as [|line rest Hline _ IH]; [reflexivity|].
  unfold App.collect_parts, response_strings in *. simpl. rewrite IH, map_app. f_equal.
  unfold App.line_parts, object_line in *.
  destruct (loads line) as [e|[| | | | | |fields]]; simpl in *; try contradiction.
  - rewrite Hline. reflexivity.
  - destruct (String.eqb (raw line) "") eqn:Heq.
    + apply String.eqb_eq in Heq. contradiction.
    + destruct (dict_get "response" fields) as [[| | | | | |]|]; reflexivity.
Qed.

(** C6, as corrected. When the response to [app.call_ollama] is read as an
    NDJSON stream and every line of it is empty or parses to a JSON object,
    the text returned (with the model name) is the concatenation, in order,
    of the [response] fields of the lines that are strings. *)
Theorem C6_ndjson_text_is_concatenation (E : env) (prompt : json) (resp : response)
        (lines : list ndline) :
  requests_post E (OLLAMA_HOST E +:+ "/api/generate")
                (JObj [("model", JStr (OLLAMA_MODEL E)); ("prompt", prompt);
                       ("max_tokens", JInt 512); ("temperature", JFloat "0.0")])
  = inr resp ->
  ok resp = true ->
  App.is_ndjson resp = true ->
  iter_lines resp = inr lines ->
  Forall object_line lines ->
  App.call_ollama E prompt
  = inr (JObj [("model", JStr (OLLAMA_MODEL E));
               ("text", JStr (response_strings_spec lines))]).
Proof.
  intros Hpost Hok Hnd Hlines Hall.
  unfold App.call_ollama. rewrite Hpost. simpl. rewrite Hok, Hnd. simpl.
  unfold App.read_ndjson. rewrite Hlines. simpl.
  rewrite (collect_parts_object_lines resp lines Hall).
  unfold App.join. rewrite join_from_strings. reflexivity.
Qed.

(** The two lines of the specification's example yield "Hello". *)
Lemma C6_witness :
  App.call_ollama (Samples.env_stream [Samples.line_hel; Samples.line_lo]) (JStr "hi")
  = inr (JObj [("model", JStr "llama3"); ("text", JStr "Hello")]).
Proof.
  apply (C6_ndjson_text_is_concatenation
           (Samples.env_stream [Samples.line_hel; Samples.line_lo]) (JStr "hi")
           (Samples.reply_ndjson [Samples.line_hel; Samples.line_lo])
           [Samples.line_hel; Samples.line_lo]); try reflexivity.
  repeat constructor; simpl; discriminate.
Defined.

(** The claim as worded fails on a stream with a line that is JSON but not
    an object: the number 7 has no [get], the handler appends the raw line,
    and the text is "Hel7" where the [response] strings make "Hel". *)
Lemma C6_counterexample :
  App.is_ndjson (Samples.reply_ndjson [Samples.line_hel; Samples.line_seven]) = true
  /\ loads Samples.line_seven = inr (JInt 7)
  /\ response_strings_spec [Samples.line_hel; Samples.line_seven] = "Hel"
  /\ App.call_ollama (Samples.env_stream [Samples.line_hel; Samples.line_seven]) (JStr "hi")
     = inr (JObj [("model", JStr "llama3"); ("text", JStr "Hel7")]).
Proof. repeat split; vm_compute; reflexivity. Qed.

(** ** C7: the start-job endpoint *)

(** C7, as corrected. For a request whose JSON body is an object:
    when [agent_id] is present and truthy, the view returns 202 with
    [{status: "started", agent_id: <the id>}] and has started one thread for
    that id - the response is made from the request alone, without the job's
    outcome; when [agent_id] is missing or falsy (null, the empty string, 0,
    false, an empty list or object), it returns 400 with
    [{error: "agent_id required"}] and starts nothing, as it does when the
    body is not JSON at all. *)
Theorem C7_start_job_response (fields : list (string * json)) :
  (forall agent_id,
      dict_get "agent_id" fields = Some agent_id ->
      truthy agent_id = true ->
      Server.run_agent (Some (JObj fields))
      = inr (Server.Outcome (JObj [("status", JStr "started"); ("agent_id", agent_id)])
                            202 [agent_id]))
  /\ (dict_get "agent_id" fields = None
      \/ (exists agent_id, dict_get "agent_id" fields = Some agent_id
                           /\ truthy agent_id = false) ->
      Server.run_agent (Some (JObj fields))
      = inr (Server.Outcome (JObj [("error", JStr "agent_id required")]) 400 []))
  /\ Server.run_agent None
     = inr (Server.Outcome (JObj [("error", JStr "agent_id required")]) 400 []).
Proof.
  split; [|split].
  - intros agent_id Hget Htruthy. unfold Server.run_agent, py_or.
    destruct fields as [|kv rest]; [discriminate|]. simpl truthy. cbv iota.
    unfold py_get, py_get_default, and_then. rewrite Hget, Htruthy. reflexivity.
  - intros Hmissing. unfold Server.run_agent, py_or.
    assert (Hdata : (if truthy (JObj fields) then JObj fields else JObj []) = JObj fields)
      by (destruct fields; reflexivity).
    rewrite Hdata. unfold py_get, py_get_default, and_then.
    destruct Hmissing as [Hnone|(agent_id & Hget & Hfalsy)].
    + rewrite Hnone. reflexivity.
    + rewrite Hget, Hfalsy. reflexivity.
  - reflexivity.
Qed.

Lemma C7_witness :
  Server.run_agent (Some (JObj [("agent_id", JStr "a1")]))
  = inr (Server.Outcome (JObj [("status", JStr "started"); ("agent_id", JStr "a1")])
                        202 [JStr "a1"]).
Proof.
  destruct (C7_start_job_response [("agent_id", JStr "a1")]) as (Hstart & _ & _).
  apply Hstart; reflexivity.
Defined.

(** The claim as worded fails for an [agent_id] that is present but empty:
    the view answers 400. *)
Lemma C7_counterexample :
  dict_get "agent_id" [("agent_id", JStr "")] = Some (JStr "")
  /\ Server.run_agent (Some (JObj [("agent_id", JStr "")]))
     = inr (Server.Outcome (JObj [("error", JStr "agent_id required")]) 400 []).
Proof. split; reflexivity. Qed.

(** * Further properties of the code *)

(** ** What a run leaves alone *)

Lemma append_assoc_string (a b c : string) : (a +:+ b) +:+ c = a +:+ (b +:+ c).
Proof.
  induction a as [|ch a IH]; [reflexivity|].
  change (String ch ((a +:+ b) +:+ c) = String ch (a +:+ (b +:+ c))). f_equal. exact IH.
Qed.

#[export] Instance others_kept_preorder (agent_id : string) : PreOrder (others_kept agent_id).
Proof.
  split.
  - intros w a _. reflexivity.
  - intros w1 w2 w3 H12 H23 a Ha. rewrite (H23 a Ha). apply H12, Ha.
Qed.

#[export] Instance logs_extended_preorder : PreOrder logs_extended.
Proof.
  split.
  - intros w a old Hold. exists "". rewrite append_empty_r. exact Hold.
  - intros w1 w2 w3 H12 H23 a old Hold.
    destruct (H12 a old Hold) as [m1 H1]. destruct (H23 a _ H1) as [m2 H2].
    exists (m1 +:+ m2). rewrite H2, append_assoc_string. reflexivity.
Qed.

Lemma commit_others_kept (agent_id : string) (d : agent_files) (ev : event) (w : world) :
  others_kept agent_id w (commit agent_id d ev w).
Proof. intros a Ha. unfold commit. simpl. apply lookup_insert_ne. congruence. Qed.

Lemma commit_logs_extended (agent_id : string) (d : agent_files) (ev : event) (w : world) :
  (forall old, log_of agent_id w = Some old -> exists more, log_txt d = Some (old +:+ more)) ->
  logs_extended w (commit agent_id d ev w).
Proof.
  intros Hlog a old Hold. unfold log_of, commit in *. simpl.
  destruct (decide (agent_id = a)) as [->|Hne].
  - rewrite lookup_insert_eq. apply Hlog, Hold.
  - rewrite lookup_insert_ne by assumption. exists "". rewrite append_empty_r. exact Hold.
Qed.

#[export] Instance frame_preorder (agent_id : string) : PreOrder (frame agent_id).
Proof.
  split.
  - intros w. split; reflexivity.
  - intros w1 w2 w3 [O1 L1] [O2 L2]. split; etransitivity; eassumption.
Qed.

Lemma frame_same_fs (agent_id : string) (w w' : world) : fs w' = fs w -> frame agent_id w w'.
Proof.
  intros Hfs. split.
  - intros a _. rewrite Hfs. reflexivity.
  - intros a old Hold. exists "". rewrite append_empty_r. unfold log_of in *.
    rewrite Hfs. exact Hold.
Qed.

Lemma commit_frame (agent_id : string) (d : agent_files) (ev : event) (w : world) :
  (forall old, log_of agent_id w = Some old -> exists more, log_txt d = Some (old +:+ more)) ->
  frame agent_id w (commit agent_id d ev w).
Proof.
  intros Hlog. split; [apply commit_others_kept | apply commit_logs_extended, Hlog].
Qed.

Lemma asctime_frame (E : env) (agent_id : string) : preserves (frame agent_id) (asctime E).
Proof. intros w. apply frame_same_fs. reflexivity. Qed.

Lemma emit_frame (agent_id : string) (ev : event) : preserves (frame agent_id) (emit ev).
Proof. intros w. apply frame_same_fs. reflexivity. Qed.

Lemma write_state_json_frame (E : env) (agent_id : string) (data : json) :
  preserves (frame agent_id) (write_state_json E agent_id data).
Proof.
  intros w. unfold write_state_json.
  destruct (fs w !! agent_id) as [d|] eqn:Hd; simpl; [|reflexivity].
  apply commit_frame. intros old Hold. unfold log_of in Hold. rewrite Hd in Hold.
  exists "". rewrite append_empty_r. exact Hold.
Qed.

Lemma write_output_json_frame (E : env) (agent_id : string) (out : json) :
  preserves (frame agent_id) (write_output_json E agent_id out).
Proof.
  intros w. unfold write_output_json.
  destruct (fs w !! agent_id) as [d|] eqn:Hd; simpl; [|reflexivity].
  apply commit_frame. intros old Hold. unfold log_of in Hold. rewrite Hd in Hold.
  exists "". rewrite append_empty_r. exact Hold.
Qed.

Lemma append_log_txt_frame (E : env) (agent_id line : string) :
  preserves (frame agent_id) (append_log_txt E agent_id line).
Proof.
  intros w. unfold append_log_txt.
  destruct (fs w !! agent_id) as [d|] eqn:Hd; simpl; [|reflexivity].
  apply commit_frame. intros old Hold. unfold log_of in Hold. rewrite Hd in Hold.
  simpl. rewrite Hold. eauto.
Qed.

Lemma ensure_agent_dir_frame (agent_id : string) :
  preserves (frame agent_id) (AgentLogging.ensure_agent_dir agent_id).
Proof.
  intros w. unfold AgentLogging.ensure_agent_dir.
  destruct (fs w !! agent_id) as [d|] eqn:Hd; simpl; [reflexivity|].
  apply commit_frame. intros old Hold. unfold log_of in Hold. rewrite Hd in Hold.
  discriminate.
Qed.

(** The workflow preserves any preorder that its helpers and primitives
    preserve. *)
Section WorkflowFrame.
Context (E : env).
Variable append_agent_log : string -> string -> M unit.
Variable write_agent_state : string -> json -> M unit.
Variable call_ollama : json -> exn + json.
Variable agent_id : string.
Context (R : world -> world -> Prop) `{!PreOrder R}.

Hypothesis append_agent_log_kept : forall line, preserves R (append_agent_log agent_id line).
Hypothesis write_agent_state_kept : forall data, preserves R (write_agent_state agent_id data).
Hypothesis asctime_kept : preserves R (asctime E).
Hypothesis emit_kept : forall ev, preserves R (emit ev).
Hypothesis write_output_json_kept : forall out, preserves R (write_output_json E agent_id out).

Ltac kept_step :=
  first
    [ apply append_agent_log_kept
    | apply write_agent_state_kept
    | apply asctime_kept
    | apply emit_kept
    | apply write_output_json_kept
    | apply preserves_ret; solve [typeclasses eauto]
    | apply preserves_raise; solve [typeclasses eauto]
    | apply preserves_lift; solve [typeclasses eauto]
    | apply preserves_find_input; solve [typeclasses eauto]
    | apply preserves_bind; [typeclasses eauto | | intros ?]
    | apply preserves_try_except; [typeclasses eauto | | intros ?]
    | apply preserves_attempt
    | match goal with
      | |- preserves _ (if ?b then _ else _) => destruct b
      | |- preserves _ (match ?x with _ => _ end) => destruct x
      | |- preserves _ (let '(_, _) := ?x in _) => destruct x
      end ].

Lemma log_stamped_kept (message : string) :
  preserves R (log_stamped E append_agent_log agent_id message).
Proof. unfold log_stamped. repeat kept_step. Qed.

Lemma run_tool_adapter_kept (adapter_name params : json) :
  preserves R (run_tool_adapter E append_agent_log agent_id adapter_name params).
Proof. unfold run_tool_adapter. repeat kept_step. Qed.

Lemma flowise_step_kept (payload : json) :
  preserves R (flowise_step E append_agent_log agent_id payload).
Proof. unfold flowise_step. repeat first [apply log_stamped_kept | kept_step]. Qed.

Lemma adapter_step_kept (payload : json) (out : list (string * json)) :
  preserves R (adapter_step E append_agent_log agent_id payload out).
Proof.
  unfold adapter_step, adapter_failed.
  repeat first [apply log_stamped_kept | apply run_tool_adapter_kept | kept_step].
Qed.

Lemma run_body_kept :
  preserves R (run_body E append_agent_log write_agent_state call_ollama agent_id).
Proof.
  unfold run_body, run_input, run_payload, generate_and_finish, complete, finish.
  repeat first [ apply log_stamped_kept
               | apply flowise_step_kept
               | apply adapter_step_kept
               | kept_step ].
Qed.

End WorkflowFrame.

Lemma tasks_run_frame (E : env) (agent_id : string) :
  preserves (frame agent_id) (Tasks.run_agent_background E agent_id).
Proof.
  assert (Hlog : forall line, preserves (frame agent_id)
                                        (Tasks.append_agent_log E agent_id line))
    by (intros; apply append_log_txt_frame).
  assert (Hstate : forall data, preserves (frame agent_id)
                                          (Tasks.write_agent_state E agent_id data))
    by (intros; apply write_state_json_frame).
  unfold Tasks.run_agent_background.
  apply preserves_try_except; [typeclasses eauto | | intros e].
  - apply run_body_kept; auto using asctime_frame, emit_frame, write_output_json_frame.
    typeclasses eauto.
  - unfold Tasks.on_failure.
    apply preserves_bind; [typeclasses eauto | apply Hstate | intros _].
    apply preserves_bind; [typeclasses eauto | | intros _].
    + apply log_stamped_kept; auto using asctime_frame. typeclasses eauto.
    + apply preserves_raise. typeclasses eauto.
Qed.

Lemma app_run_frame (E : env) (agent_id : string) :
  preserves (frame agent_id) (App.run_agent_background E agent_id).
Proof.
  assert (Hlog : forall line, preserves (frame agent_id)
                                        (AgentLogging.append_agent_log E agent_id line)).
  { intros. unfold AgentLogging.append_agent_log.
    apply preserves_bind; [typeclasses eauto | apply ensure_agent_dir_frame | intros _].
    apply append_log_txt_frame. }
  assert (Hstate : forall data, preserves (frame agent_id)
                                          (AgentLogging.write_agent_state E agent_id data)).
  { intros. unfold AgentLogging.write_agent_state.
    apply preserves_bind; [typeclasses eauto | apply ensure_agent_dir_frame | intros _].
    apply write_state_json_frame. }
  unfold App.run_agent_background.
  apply preserves_try_except; [typeclasses eauto | | intros e].
  - apply run_body_kept; auto using asctime_frame, emit_frame, write_output_json_frame.
    typeclasses eauto.
  - unfold App.on_failure.
    apply preserves_bind; [typeclasses eauto | | intros _].
    { apply preserves_try_except; [typeclasses eauto | apply Hstate | intros _].
      apply preserves_ret. typeclasses eauto. }
    apply preserves_bind; [typeclasses eauto | | intros _].
    + apply log_stamped_kept; auto using asctime_frame. typeclasses eauto.
    + apply preserves_raise. typeclasses eauto.
Qed.


(** X2. [log.txt] is append-only: after a run, in [tasks.py] and in [app.py]
    alike and whatever the outcome, every log that existed still begins with
    what it held before. *)
Theorem X2_log_is_append_only (E : env) (agent_id a old : string) (w : world) :
  log_of a w = Some old ->
  (exists more, log_of a (snd (Tasks.run_agent_background E agent_id w))
                = Some (old +:+ more))
  /\ (exists more, log_of a (snd (App.run_agent_background E agent_id w))
                   = Some (old +:+ more)).
Proof.
  intros Hold. split.
  - destruct (tasks_run_frame E agent_id w) as [_ Hlogs]. apply Hlogs, Hold.
  - destruct (app_run_frame E agent_id w) as [_ Hlogs]. apply Hlogs, Hold.
Qed.

Lemma X2_witness :
  (exists more, log_of "a1" (snd (Tasks.run_agent_background Samples.env_null "a1"
                                                             Samples.world_logged))
                = Some ("earlier line" +:+ more))
  /\ (exists more, log_of "a1" (snd (App.run_agent_background Samples.env_null "a1"
                                                              Samples.world_logged))
                   = Some ("earlier line" +:+ more)).
Proof.
  apply (X2_log_is_append_only Samples.env_null "a1" "a1" "earlier line"
           Samples.world_logged).
  reflexivity.
Defined.

(** X3. A run never changes any [input.json] and never removes a job
    directory, in [tasks.py] and in [app.py] alike and whatever the outcome. *)
Theorem X3_run_keeps_inputs_and_directories (E : env) (agent_id : string) (w : world) :
  (forall a, input_of a (snd (Tasks.run_agent_background E agent_id w)) = input_of a w)
  /\ (forall a, alive a w -> alive a (snd (Tasks.run_agent_background E agent_id w)))
  /\ (forall a, input_of a (snd (App.run_agent_background E agent_id w)) = input_of a w)
  /\ (forall a, alive a w -> alive a (snd (App.run_agent_background E agent_id w))).
Proof.
  pose proof any_event_routine as HP.
  destruct (tasks_run_evolves E any_event HP agent_id (fun _ => I) (fun _ => I) w)
    as (Ha1 & Hi1 & _).
  destruct (app_run_evolves E any_event HP agent_id (fun _ => I) (fun _ => I) w)
    as (Ha2 & Hi2 & _).
  auto.
Qed.

Lemma X3_witness :
  input_of "flow" (snd (Tasks.run_agent_background Samples.env_down "flow" Samples.world_jobs))
  = Some (Parsed (JObj [("prompt", JStr "hi"); ("flow_id", JStr "f1")]))
  /\ alive "bare" (snd (App.run_agent_background Samples.env_down "flow" Samples.world_jobs)).
Proof.
  destruct (X3_run_keeps_inputs_and_directories Samples.env_down "flow" Samples.world_jobs)
    as (Hin & _ & _ & Halive).
  split.
  - rewrite Hin. reflexivity.
  - apply Halive. eexists. reflexivity.
Defined.

(** ** The outcome of a run and the status it leaves *)

Lemma ensures_bind {A B : Type} (m : M A) (k : A -> M B) (Q : world -> Prop) :
  (forall a, ensures (k a) Q) -> ensures (bind m k) Q.
Proof.
  intros Hk w b. unfold bind. destruct (m w) as [[e|a] w1]; simpl; [discriminate|].
  apply Hk.
Qed.

Lemma ensures_raise {A : Type} (e : exn) (Q : world -> Prop) : ensures (@raise A e) Q.
Proof. intros w a. simpl. discriminate. Qed.

Section WorkflowEnsures.
Context (E : env).
Variable append_agent_log : string -> string -> M unit.
Variable write_agent_state : string -> json -> M unit.
Variable call_ollama : json -> exn + json.
Variable agent_id : string.
Variable Q : world -> Prop.

Hypothesis finish_ensures :
  forall out, ensures (finish E append_agent_log write_agent_state agent_id out) Q.

(** The [try] block returns only through its last three statements. *)
Lemma run_body_ensures :
  ensures (run_body E append_agent_log write_agent_state call_ollama agent_id) Q.
Proof.
  unfold run_body, run_input.
  apply ensures_bind; intros _. apply ensures_bind; intros _.
  apply ensures_bind; intros input. destruct input as [file|]; [|apply ensures_raise].
  unfold run_payload, generate_and_finish, complete.
  do 9 (apply ensures_bind; intros ?). apply finish_ensures.
Qed.

End WorkflowEnsures.

Lemma tasks_finish_ensures (E : env) (agent_id : string) (out : list (string * json)) :
  ensures (finish E (Tasks.append_agent_log E) (Tasks.write_agent_state E) agent_id out)
          (job_completed agent_id).
Proof.
  intros w a Hret. destruct (fs w !! agent_id) as [d|] eqn:Hd.
  - assert (Hw : alive agent_id w) by (exists d; exact Hd).
    destruct (tasks_finish E any_event any_event_routine agent_id out w Hw I)
      as (w' & Heq & Ho & Hs & _).
    rewrite Heq. split; [exact Hs | eauto].
  - unfold finish in Hret.
    rewrite (bind_raised _ _ _ _ _ (write_output_json_missing E agent_id _ w Hd)) in Hret.
    discriminate.
Qed.

Lemma app_finish_ensures (E : env) (agent_id : string) (out : list (string * json)) :
  ensures (finish E (AgentLogging.append_agent_log E) (AgentLogging.write_agent_state E)
                  agent_id out)
          (job_completed agent_id).
Proof.
  intros w a Hret. destruct (fs w !! agent_id) as [d|] eqn:Hd.
  - clear Hret.
    unfold finish, AgentLogging.write_agent_state, AgentLogging.append_agent_log,
      AgentLogging.ensure_agent_dir, log_stamped, write_output_json, write_state_json,
      append_log_txt, asctime, bind.
    rewrite Hd. cbn [commit fs clock journal].
    rewrite lookup_insert_eq. cbn [commit fs clock journal].
    rewrite lookup_insert_eq. cbn [commit fs clock journal].
    rewrite lookup_insert_eq. cbn [commit fs clock journal].
    rewrite lookup_insert_eq.
    unfold job_completed, state_of, output_of. cbn [commit fs snd].
    rewrite lookup_insert_eq. split; [reflexivity | eexists; reflexivity].
  - unfold finish in Hret.
    rewrite (bind_raised _ _ _ _ _ (write_output_json_missing E agent_id _ w Hd)) in Hret.
    discriminate.
Qed.

Lemma tasks_on_failure_raises (E : env) (agent_id : string) (e : exn) (w : world) :
  exists e', fst (Tasks.on_failure E agent_id e w) = inl e'.
Proof.
  unfold Tasks.on_failure, bind.
  destruct (Tasks.write_agent_state E agent_id (state_failed e) w) as [[e1|u] w1]; simpl; eauto.
  destruct (log_stamped E (Tasks.append_agent_log E) agent_id _ w1) as [[e2|u2] w2];
    simpl; eauto.
Qed.

(** The handler of [app.py] records the failure wherever it starts from. *)
Lemma app_on_failure_records (E : env) (agent_id : string) (e : exn) (w : world) :
  exists w',
    App.on_failure E agent_id e w = (inl e, w')
    /\ state_of agent_id w' = Some (Parsed (state_failed e)).
Proof.
  unfold App.on_failure, try_except, AgentLogging.write_agent_state,
    AgentLogging.append_agent_log, AgentLogging.ensure_agent_dir, log_stamped,
    write_state_json, append_log_txt, asctime, bind, raise, ret.
  destruct (fs w !! agent_id) as [d|] eqn:Hd.
  - rewrite Hd. cbn [commit fs clock journal].
    rewrite lookup_insert_eq. cbn [commit fs clock journal].
    rewrite lookup_insert_eq.
    eexists. split; [reflexivity|].
    unfold state_of. cbn [commit fs]. rewrite lookup_insert_eq. reflexivity.
  - cbn [commit fs clock journal].
    rewrite lookup_insert_eq. cbn [commit fs clock journal].
    rewrite lookup_insert_eq. cbn [commit fs clock journal].
    rewrite lookup_insert_eq.
    eexists. split; [reflexivity|].
    unfold state_of. cbn [commit fs]. rewrite lookup_insert_eq. reflexivity.
Qed.

Lemma try_except_returns {A : Type} (body : M A) (handler : exn -> M A) (w : world) (a : A) :
  (forall e w1, exists e', fst (handler e w1) = inl e') ->
  fst (try_except body handler w) = inr a ->
  body w = (inr a, snd (try_except body handler w)).
Proof.
  intros Hraises. unfold try_except. destruct (body w) as [[e|x] w1]; simpl.
  - destruct (Hraises e w1) as [e' He']. rewrite He'. discriminate.
  - intros H. injection H as ->. reflexivity.
Qed.

Lemma app_on_failure_raises (E : env) (agent_id : string) (e : exn) (w : world) :
  exists e', fst (App.on_failure E agent_id e w) = inl e'.
Proof.
  destruct (app_on_failure_records E agent_id e w) as (w' & Heq & _).
  exists e. rewrite Heq. reflexivity.
Qed.

(** X4. When [run_agent_background] returns, in [tasks.py] and in [app.py]
    alike, [state.json] holds [{status: "completed", progress: 100}] and
    [output.json] holds a JSON object. *)
Theorem X4_returned_run_is_completed (E : env) (agent_id : string) (w : world) :
  (fst (Tasks.run_agent_background E agent_id w) = inr tt ->
   job_completed agent_id (snd (Tasks.run_agent_background E agent_id w)))
  /\ (fst (App.run_agent_background E agent_id w) = inr tt ->
      job_completed agent_id (snd (App.run_agent_background E agent_id w))).
Proof.
  split; intros Hret.
  - pose proof (try_except_returns _ _ w tt (tasks_on_failure_raises E agent_id) Hret) as Hb.
    pose proof (run_body_ensures E _ _ (Tasks.call_ollama E) agent_id _
                  (tasks_finish_ensures E agent_id) w tt) as Hq.
    fold (Tasks.run_agent_background E agent_id w) in Hb.
    rewrite Hb in Hq. apply Hq. reflexivity.
  - pose proof (try_except_returns _ _ w tt (app_on_failure_raises E agent_id) Hret) as Hb.
    pose proof (run_body_ensures E _ _ (App.call_ollama E) agent_id _
                  (app_finish_ensures E agent_id) w tt) as Hq.
    fold (App.run_agent_background E agent_id w) in Hb.
    rewrite Hb in Hq. apply Hq. reflexivity.
Qed.

Lemma X4_witness :
  job_completed "a1" (snd (Tasks.run_agent_background Samples.env_null "a1"
                                                      Samples.world_prompt))
  /\ job_completed "a1" (snd (App.run_agent_background Samples.env_null "a1"
                                                       Samples.world_prompt)).
Proof.
  destruct (X4_returned_run_is_completed Samples.env_null "a1" Samples.world_prompt)
    as [Ht Ha].
  split; [apply Ht | apply Ha]; vm_compute; reflexivity.
Defined.



(** ** Runs that stop at the input *)

(** In [app.py] the first two statements succeed from any world. *)
Lemma app_run_body_start (E : env) (P : event -> Prop) (agent_id : string) (w : world) :
  routine P ->
  exists w2,
    quiet P w w2 /\ alive agent_id w2
    /\ run_body E (AgentLogging.append_agent_log E) (AgentLogging.write_agent_state E)
                (App.call_ollama E) agent_id w
       = run_input E (AgentLogging.append_agent_log E) (AgentLogging.write_agent_state E)
                   (App.call_ollama E) agent_id (input_of agent_id w) w2.
Proof.
  intros HP. unfold run_body.
  assert (Hlog : fst (log_stamped E (AgentLogging.append_agent_log E) agent_id
                                  "Agent started" w) = inr tt).
  { unfold log_stamped.
    rewrite (bind_returned _ _ w (World (fs w) (S (clock w)) (journal w))
                           (asctime_at E (clock w))) by reflexivity.
    apply logging_append_agent_log_runs. }
  rewrite (bind_run _ _ _ _ Hlog).
  match goal with |- context [snd (?m w)] => set (w1 := snd (m w)) end.
  assert (Hq1 : quiet P w w1).
  { apply log_stamped_quiet. intros. apply logging_append_agent_log_quiet, HP. }
  rewrite (bind_run _ _ _ _ (logging_write_agent_state_runs E agent_id state_running w1)).
  match goal with |- context [snd (?m w1)] => set (w2 := snd (m w1)) end.
  assert (Hq2 : quiet P w1 w2).
  { apply logging_write_agent_state_quiet; [exact HP | apply state_running_invariant]. }
  assert (Hq : quiet P w w2) by (etransitivity; eassumption).
  exists w2. split; [exact Hq|]. split.
  - unfold w2, AgentLogging.write_agent_state.
    destruct (ensure_agent_dir_runs agent_id w1) as [Hr Ha].
    rewrite (bind_run _ _ _ _ Hr).
    eapply quiet_alive; [|exact Ha]. apply write_state_json_quiet.
    apply HP, state_running_invariant.
  - rewrite (bind_returned _ _ w2 w2 (input_of agent_id w2)) by reflexivity.
    destruct Hq as [(_ & Hin & _) _]. rewrite Hin. reflexivity.
Qed.

Lemma run_input_invalid (E : env) (append_agent_log : string -> string -> M unit)
      (write_agent_state : string -> json -> M unit) (call_ollama : json -> exn + json)
      (agent_id : string) (file : jfile) (e : exn) (w : world) :
  invalid_input_error file = Some e ->
  run_input E append_agent_log write_agent_state call_ollama agent_id (Some file) w
  = (inl e, w).
Proof.
  intros Hinvalid. unfold run_input.
  destruct file as [v|why]; simpl in Hinvalid.
  - destruct v; try discriminate; injection Hinvalid as <-; reflexivity.
  - injection Hinvalid as <-. reflexivity.
Qed.




(** ** The adapter and the workflow result in [output.json] *)

Lemma run_tool_adapter_exists (E : env) (append_agent_log : string -> string -> M unit)
      (agent_id name : string) (params : json) (w : world) :
  adapter_exists E name = true ->
  fst (run_tool_adapter E append_agent_log agent_id (JStr name) params w)
  = match subprocess_run E name params with
    | inr (returncode, stdout, stderr) =>
        inr (JObj [("returncode", JInt returncode);
                   ("stdout", JStr stdout);
                   ("stderr", JStr stderr)])
    | inl e => inl e
    end.
Proof.
  intros Hexists. unfold run_tool_adapter. rewrite Hexists. simpl.
  unfold bind, emit, lift.
  destruct (subprocess_run E name params) as [e|[[rc so] se]]; reflexivity.
Qed.





(** ** [app.call_ollama]: errors and streams *)

Lemma substring_prefix (n : nat) (s : string) :
  (String.length (substring 0 n s) <= n)%nat
  /\ exists rest, s = substring 0 n s +:+ rest.
Proof.
  revert s. induction n as [|n IH]; intros s.
  - destruct s; (split; [simpl; lia | eexists; reflexivity]).
  - destruct s as [|c s]; [split; [simpl; lia | exists ""; reflexivity]|].
    destruct (IH s) as [Hlen [rest Hrest]]. split.
    + simpl. lia.
    + exists rest. change (String c s = String c (substring 0 n s +:+ rest)).
      rewrite <- Hrest. reflexivity.
Qed.

Lemma ok_raise_for_status (resp : response) :
  ok resp = false -> exists msg, raise_for_status resp = inl (Exn RequestException msg).
Proof.
  unfold ok, raise_for_status.
  destruct ((400 <=? status_code resp)%Z && (status_code resp <? 500)%Z);
    [intros _; eexists; reflexivity|].
  destruct ((500 <=? status_code resp)%Z && (status_code resp <? 600)%Z);
    [intros _; eexists; reflexivity|discriminate].
Qed.

(** X11. An HTTP error status makes [app.call_ollama] raise
    [RuntimeError("Ollama HTTP <code>: <body>")], where the body is
    ["<no body>"] for an empty response text and otherwise the text cut to
    at most 4096 characters; [tasks.call_ollama] raises the
    [RequestException] of [raise_for_status] instead. *)
Theorem X11_http_error_is_reported (E : env) (prompt : json) (resp : response) :
  posted E prompt = inr resp ->
  ok resp = false ->
  (exists body,
      App.call_ollama E prompt
      = inl (Exn RuntimeError
                 ("Ollama HTTP " +:+ pretty (status_code resp) +:+ ": " +:+ body))
      /\ (String.length body <= 4096)%nat
      /\ (text resp = "" -> body = "<no body>")
      /\ (text resp <> "" -> exists rest, text resp = body +:+ rest))
  /\ (exists msg, Tasks.call_ollama E prompt = inl (Exn RequestException msg)).
Proof.
  intros Hpost Hok. unfold posted in Hpost. split.
  - unfold App.call_ollama. rewrite Hpost. cbn [and_then]. rewrite Hok. cbn [negb].
    destruct (String.eqb (text resp) "") eqn:Hempty.
    + apply String.eqb_eq in Hempty. exists "<no body>".
      split; [reflexivity|]. split; [simpl; lia|]. split; [reflexivity|congruence].
    + apply String.eqb_neq in Hempty. exists (substring 0 4096 (text resp)).
      destruct (substring_prefix 4096 (text resp)) as [Hlen Hrest].
      split; [reflexivity|]. split; [exact Hlen|]. split; [congruence|]. intros _. exact Hrest.
  - unfold Tasks.call_ollama. rewrite Hpost. cbn [and_then].
    destruct (ok_raise_for_status resp Hok) as [msg ->]. exists msg. reflexivity.
Qed.

Lemma X11_witness :
  (exists body,
      App.call_ollama Samples.env_busy (JStr "hi")
      = inl (Exn RuntimeError ("Ollama HTTP " +:+ pretty 503%Z +:+ ": " +:+ body))
      /\ (String.length body <= 4096)%nat
      /\ (text Samples.reply_busy = "" -> body = "<no body>")
      /\ (text Samples.reply_busy <> "" -> exists rest, text Samples.reply_busy = body +:+ rest))
  /\ (exists msg, Tasks.call_ollama Samples.env_busy (JStr "hi")
                  = inl (Exn RequestException msg)).
Proof.
  apply (X11_http_error_is_reported Samples.env_busy (JStr "hi") Samples.reply_busy);
    reflexivity.
Defined.

Lemma line_parts_with_encoding (resp : response) (enc : string) (line : ndline) :
  encoding resp = Some enc ->
  exists chunks,
    App.line_parts resp line = map App.Str chunks
    /\ Forall (chunk_of [line]) chunks.
Proof.
  intros Henc. unfold App.line_parts, App.raw_item. rewrite Henc.
  destruct (String.eqb (raw line) "") eqn:Hblank; [exists []; split; [reflexivity|constructor]|].
  apply String.eqb_neq in Hblank.
  assert (Hraw : chunk_of [line] (raw line)).
  { exists line. split; [left; reflexivity|]. split; [exact Hblank|]. left. reflexivity. }
  destruct (loads line) as [e|v] eqn:Hloads; cbn [and_then].
  - exists [raw line]. split; [reflexivity|]. constructor; [exact Hraw|constructor].
  - destruct v as [| b | z | f | t | items | fields];
      try (exists [raw line]; split; [reflexivity|]; constructor; [exact Hraw|constructor]).
    unfold py_get, py_get_default.
    destruct (dict_get "response" fields) as [[| b | z | f | chunk | items | inner]|] eqn:Hget;
      try (exists []; split; [reflexivity|constructor]).
    exists [chunk]. split; [reflexivity|]. constructor; [|constructor].
    exists line. split; [left; reflexivity|]. split; [exact Hblank|]. right.
    exists fields. split; [exact Hloads|exact Hget].
Qed.

Lemma chunk_of_mono (lines more : list ndline) (chunk : string) :
  (forall line, In line lines -> In line more) ->
  chunk_of lines chunk -> chunk_of more chunk.
Proof.
  intros Hsub (line & Hin & Hrest). exists line. split; [apply Hsub, Hin|exact Hrest].
Qed.

Lemma collect_parts_with_encoding (resp : response) (enc : string) (lines : list ndline) :
  encoding resp = Some enc ->
  exists chunks,
    App.collect_parts resp lines = map App.Str chunks
    /\ Forall (chunk_of lines) chunks.
Proof.
  intros Henc. induction lines as [|line rest (chunks & Heq & Hall)].
  - exists []. split; [reflexivity|constructor].
  - destruct (line_parts_with_encoding resp enc line Henc) as (first & Hfirst & Hfall).
    exists (first ++ chunks)%list. split.
    + unfold App.collect_parts in *. cbn [flat_map]. rewrite Hfirst, Heq, map_app. reflexivity.
    + apply Forall_app. split.
      * eapply Forall_impl; [exact Hfall|]. intros chunk.
        apply chunk_of_mono. intros l [<-|[]]. left. reflexivity.
      * eapply Forall_impl; [exact Hall|]. intros chunk.
        apply chunk_of_mono. intros l Hl. right. exact Hl.
Qed.

(** X12. When the response of an NDJSON stream declares an encoding, no
    content of its lines makes [app.call_ollama] fail: it returns
    [{model, text}], and the text is a concatenation of pieces that each
    come from a line that is not blank - the line itself or the [response]
    string of its object. *)
Theorem X12_stream_with_encoding_is_read (E : env) (prompt : json) (resp : response)
        (enc : string) (lines : list ndline) :
  posted E prompt = inr resp ->
  ok resp = true ->
  App.is_ndjson resp = true ->
  encoding resp = Some enc ->
  iter_lines resp = inr lines ->
  exists chunks,
    App.call_ollama E prompt
    = inr (JObj [("model", JStr (OLLAMA_MODEL E));
                 ("text", JStr (String.concat "" chunks))])
    /\ Forall (chunk_of lines) chunks.
Proof.
  intros Hpost Hok Hnd Henc Hlines. unfold posted in Hpost.
  destruct (collect_parts_with_encoding resp enc lines Henc) as (chunks & Heq & Hall).
  exists chunks. split; [|exact Hall].
  unfold App.call_ollama. rewrite Hpost. cbn [and_then]. rewrite Hok, Hnd. cbn [negb].
  unfold App.read_ndjson. rewrite Hlines. cbn [and_then].
  rewrite Heq. unfold App.join. rewrite join_from_strings. reflexivity.
Qed.

Lemma X12_witness :
  exists chunks,
    App.call_ollama (Samples.env_stream [Samples.line_hel; Samples.line_oops]) (JStr "hi")
    = inr (JObj [("model", JStr "llama3"); ("text", JStr (String.concat "" chunks))])
    /\ Forall (chunk_of [Samples.line_hel; Samples.line_oops]) chunks.
Proof.
  apply (X12_stream_with_encoding_is_read
           (Samples.env_stream [Samples.line_hel; Samples.line_oops]) (JStr "hi")
           (Samples.reply_ndjson [Samples.line_hel; Samples.line_oops]) "utf-8"
           [Samples.line_hel; Samples.line_oops]); reflexivity.
Defined.

Lemma line_parts_length (resp : response) (line : ndline) :
  (length (App.line_parts resp line) <= 1)%nat.
Proof.
  unfold App.line_parts.
  destruct (String.eqb (raw line) ""); [simpl; lia|].
  destruct (and_then (loads line) (fun obj => py_get obj "response"))
    as [e|[| b | z | f | t | items | fields]]; simpl; lia.
Qed.

Lemma collect_parts_length (resp : response) (lines : list ndline) :
  (length (App.collect_parts resp lines) <= length lines)%nat.
Proof.
  induction lines as [|line rest IH]; [simpl; lia|].
  unfold App.collect_parts in *. cbn [flat_map]. rewrite length_app.
  pose proof (line_parts_length resp line). simpl. lia.
Qed.

Lemma line_parts_raw_line (resp : response) (line : ndline) :
  encoding resp = None -> raw_line line ->
  App.line_parts resp line = [App.Bytes (raw line)].
Proof.
  intros Henc [Hblank Hloads]. unfold App.line_parts, App.raw_item. rewrite Henc.
  apply String.eqb_neq in Hblank. rewrite Hblank.
  destruct (loads line) as [e|[| b | z | f | t | items | fields]];
    try reflexivity; contradiction.
Qed.

Lemma join_from_bytes (i : nat) (parts : list App.part) :
  Exists (fun p => exists b, p = App.Bytes b) parts ->
  exists j, (i <= j < i + length parts)%nat /\ App.join_from i parts = inl (bytes_in_join j).
Proof.
  intros Hex. revert i. induction Hex as [p rest [b ->]|p rest _ IH]; intros i.
  - exists i. split; [simpl; lia|reflexivity].
  - destruct p as [s|b].
    + destruct (IH (S i)) as (j & Hj & Heq). exists j. split; [simpl; lia|].
      cbn [App.join_from]. rewrite Heq. reflexivity.
    + exists i. split; [simpl; lia|reflexivity].
Qed.

Lemma collect_parts_bytes (resp : response) (lines : list ndline) :
  encoding resp = None ->
  Exists raw_line lines ->
  Exists (fun p => exists b, p = App.Bytes b) (App.collect_parts resp lines).
Proof.
  intros Henc Hex. unfold App.collect_parts.
  induction Hex as [line rest Hline|line rest _ IH]; cbn [flat_map]; apply Exists_app.
  - left. rewrite (line_parts_raw_line resp line Henc Hline). left. eexists. reflexivity.
  - right. exact IH.
Qed.

(** X13. When the response declares no encoding, [app.call_ollama] reads it
    as an NDJSON stream whatever its content type, and a single line that is
    not blank and not a JSON object makes the call fail: the line is kept as
    [bytes] and joining the parts raises [TypeError] at the position of the
    first such part. *)
Theorem X13_stream_without_encoding_fails (E : env) (prompt : json) (resp : response)
        (lines : list ndline) :
  posted E prompt = inr resp ->
  ok resp = true ->
  encoding resp = None ->
  iter_lines resp = inr lines ->
  Exists raw_line lines ->
  exists i, (i < length lines)%nat /\ App.call_ollama E prompt = inl (bytes_in_join i).
Proof.
  intros Hpost Hok Henc Hlines Hex. unfold posted in Hpost.
  destruct (join_from_bytes 0 _ (collect_parts_bytes resp lines Henc Hex)) as (i & Hi & Heq).
  pose proof (collect_parts_length resp lines) as Hlen.
  exists i. split; [lia|].
  unfold App.call_ollama. rewrite Hpost. cbn [and_then]. rewrite Hok. cbn [negb].
  assert (Hnd : App.is_ndjson resp = true).
  { unfold App.is_ndjson. rewrite Henc. apply orb_true_r. }
  rewrite Hnd. unfold App.read_ndjson. rewrite Hlines. cbn [and_then].
  unfold App.join. rewrite Heq. reflexivity.
Qed.

Lemma X13_witness :
  exists i,
    (i < length [Samples.line_hel; Samples.line_oops])%nat
    /\ App.call_ollama (Samples.env_bytes [Samples.line_hel; Samples.line_oops]) (JStr "hi")
       = inl (bytes_in_join i).
Proof.
  apply (X13_stream_without_encoding_fails
           (Samples.env_bytes [Samples.line_hel; Samples.line_oops]) (JStr "hi")
           (Samples.reply_bytes [Samples.line_hel; Samples.line_oops])
           [Samples.line_hel; Samples.line_oops]); try reflexivity.
  right. left. split; [discriminate|exact I].
Defined.

(** X14. No [RequestException] leaves [app.call_ollama] or
    [OllamaLLM._call]: whatever they raise is of another class (a failure of
    the transport is raised again as [RuntimeError]). *)
Theorem X14_no_request_exception_escapes (E : env) (prompt : json) (self : OllamaLLM.t)
        (text : string) (e : exn) :
  App.call_ollama E prompt = inl e \/ OllamaLLM._call E self text = inl e ->
  exn_cls e <> RequestException.
Proof.
  intros [Hcall|Hcall].
  - unfold App.call_ollama in Hcall.
    match type of Hcall with
    | match ?r with _ => _ end = _ => destruct r as [e0|v]; [|discriminate]
    end.
    unfold is_request_exception in Hcall.
    destruct e0 as [cls msg]; destruct cls; simpl in Hcall;
      injection Hcall as <-; discriminate.
  - unfold OllamaLLM._call in Hcall.
    match type of Hcall with
    | match ?r with _ => _ end = _ => destruct r as [e0|v]; [|discriminate]
    end.
    unfold is_request_exception in Hcall.
    destruct e0 as [cls msg]; destruct cls; simpl in Hcall;
      injection Hcall as <-; discriminate.
Qed.

Lemma X14_witness :
  exn_cls (Exn RuntimeError "Ollama request failed: connection refused") <> RequestException.
Proof.
  apply (X14_no_request_exception_escapes Samples.env_down (JStr "hi")
           (llm_of Samples.env_down 300) "hi").
  left. reflexivity.
Defined.

(** ** [OllamaLLM._call] beside [app.call_ollama] *)

Lemma ok_true (resp : response) : ok resp = true -> raise_for_status resp = inr tt.
Proof.
  unfold ok. destruct (raise_for_status resp) as [e|[]]; [discriminate|reflexivity].
Qed.

Lemma chunk_line_parts (resp : response) (line : ndline) :
  chunk_line line ->
  exists chunks,
    App.line_parts resp line = map App.Str chunks
    /\ OllamaLLM.line_parts resp line = map App.Str chunks.
Proof.
  intros Hline. unfold App.line_parts, OllamaLLM.line_parts.
  destruct (String.eqb (raw line) "") eqn:Hblank; [exists []; split; reflexivity|].
  apply String.eqb_neq in Hblank.
  destruct Hline as [Hraw|(fields & chunk & Hloads & Hget & Hne)]; [contradiction|].
  exists [chunk]. rewrite Hloads. cbn [and_then]. unfold py_get, py_get_default.
  cbn [OllamaLLM.first_string]. rewrite Hget.
  split; [reflexivity|].
  destruct chunk as [|c rest]; [contradiction|reflexivity].
Qed.

Lemma chunk_lines_parts (resp : response) (lines : list ndline) :
  Forall chunk_line lines ->
  exists chunks,
    App.collect_parts resp lines = map App.Str chunks
    /\ flat_map (OllamaLLM.line_parts resp) lines = map App.Str chunks.
Proof.
  induction 1 as [|line rest Hline _ (chunks & Happ & Hllm)].
  - exists []. split; reflexivity.
  - destruct (chunk_line_parts resp line Hline) as (first & Hfirst & Hfirst').
    exists (first ++ chunks)%list. unfold App.collect_parts in *. cbn [flat_map].
    rewrite Hfirst, Hfirst', Happ, Hllm, map_app. split; reflexivity.
Qed.

(** X15. [OllamaLLM._call] and [app.call_ollama] agree on a stream whose
    lines are blank or objects with a [response] string that is not empty:
    set up with the same host and model, and given the same answer of the
    server, the wrapper returns the very text that [call_ollama] returns
    under [text]. *)
Theorem X15_wrappers_agree_on_chunks (E : env) (prompt : string) (timeout : Z)
        (resp : response) (lines : list ndline) :
  rstrip_by (Ascii.eqb "/") (OLLAMA_HOST E) = OLLAMA_HOST E ->
  posted E (JStr prompt) = inr resp ->
  ok resp = true ->
  App.is_ndjson resp = true ->
  iter_lines resp = inr lines ->
  Forall chunk_line lines ->
  exists text,
    OllamaLLM._call E (llm_of E timeout) prompt = inr text
    /\ App.call_ollama E (JStr prompt)
       = inr (JObj [("model", JStr (OLLAMA_MODEL E)); ("text", JStr text)]).
Proof.
  intros Hhost Hpost Hok Hnd Hlines Hall. unfold posted in Hpost.
  destruct (chunk_lines_parts resp lines Hall) as (chunks & Happ & Hllm).
  exists (String.concat "" chunks). split.
  - unfold OllamaLLM._call, llm_of. cbn [OllamaLLM.ollama_host OllamaLLM.model].
    rewrite Hhost, Hpost. cbn [and_then]. rewrite (ok_true resp Hok). cbn [and_then].
    rewrite Hlines. cbn [and_then]. rewrite Hllm. unfold App.join.
    rewrite join_from_strings. reflexivity.
  - unfold App.call_ollama. rewrite Hpost. cbn [and_then]. rewrite Hok, Hnd. cbn [negb].
    unfold App.read_ndjson. rewrite Hlines. cbn [and_then]. rewrite Happ.
    unfold App.join. rewrite join_from_strings. reflexivity.
Qed.

Lemma X15_witness :
  exists text,
    OllamaLLM._call (Samples.env_stream [Samples.line_hel; Samples.line_lo])
                    (llm_of (Samples.env_stream [Samples.line_hel; Samples.line_lo]) 300) "hi"
    = inr text
    /\ App.call_ollama (Samples.env_stream [Samples.line_hel; Samples.line_lo]) (JStr "hi")
       = inr (JObj [("model", JStr "llama3"); ("text", JStr text)]).
Proof.
  apply (X15_wrappers_agree_on_chunks
           (Samples.env_stream [Samples.line_hel; Samples.line_lo]) "hi" 300
           (Samples.reply_ndjson [Samples.line_hel; Samples.line_lo])
           [Samples.line_hel; Samples.line_lo]); try reflexivity.
  constructor; [|constructor; [|constructor]];
    right; eexists; eexists; (split; [reflexivity|]; split; [reflexivity|discriminate]).
Defined.

Lemma concat_empty_app (a b : list string) :
  String.concat "" (a ++ b)%list = String.concat "" a +:+ String.concat "" b.
Proof.
  induction a as [|x rest IH]; [reflexivity|].
  destruct rest as [|y rest'].
  - destruct b as [|z b']; [symmetry; apply append_empty_r|reflexivity].
  - change (x +:+ String.concat "" ((y :: rest') ++ b)%list
            = (x +:+ String.concat "" (y :: rest')) +:+ String.concat "" b).
    rewrite IH. symmetry. apply append_assoc_string.
Qed.

Lemma done_line_parts (resp : response) (enc : string) (line : ndline) :
  encoding resp = Some enc ->
  done_line line ->
  App.line_parts resp line = [App.Str ""]
  /\ OllamaLLM.line_parts resp line = [App.Str (raw line)].
Proof.
  intros Henc (Hblank & fields & Hloads & Hresponse).
  unfold App.line_parts, OllamaLLM.line_parts, App.raw_item.
  apply String.eqb_neq in Hblank. rewrite Hblank, Hloads, Henc. cbn [and_then].
  unfold py_get, py_get_default. cbn [OllamaLLM.first_string].
  rewrite Hresponse. split; reflexivity.
Qed.

(** X16. The two readers differ on the line that ends a stream, an object
    whose [response] is the empty string: [app.call_ollama] adds nothing for
    it, [OllamaLLM._call] takes the empty chunk for no chunk and appends the
    line as it came.  When the response is an NDJSON stream that declares an
    encoding, and the lines before the last one are blank or carry a
    [response] string that is not empty, the wrapper's answer is the text of
    [call_ollama] followed by that raw line. *)
Theorem X16_wrapper_appends_final_line (E : env) (prompt : string) (timeout : Z)
        (resp : response) (enc : string) (lines : list ndline) (final : ndline) :
  rstrip_by (Ascii.eqb "/") (OLLAMA_HOST E) = OLLAMA_HOST E ->
  posted E (JStr prompt) = inr resp ->
  ok resp = true ->
  App.is_ndjson resp = true ->
  encoding resp = Some enc ->
  iter_lines resp = inr (lines ++ [final])%list ->
  Forall chunk_line lines ->
  done_line final ->
  exists text,
    App.call_ollama E (JStr prompt)
    = inr (JObj [("model", JStr (OLLAMA_MODEL E)); ("text", JStr text)])
    /\ OllamaLLM._call E (llm_of E timeout) prompt = inr (text +:+ raw final).
Proof.
  intros Hhost Hpost Hok Hnd Henc Hlines Hall Hfinal. unfold posted in Hpost.
  destruct (chunk_lines_parts resp lines Hall) as (chunks & Happ & Hllm).
  destruct (done_line_parts resp enc final Henc Hfinal) as [Hfapp Hfllm].
  exists (String.concat "" chunks). split.
  - unfold App.call_ollama. rewrite Hpost. cbn [and_then]. rewrite Hok, Hnd. cbn [negb].
    unfold App.read_ndjson. rewrite Hlines. cbn [and_then].
    unfold App.collect_parts in *. rewrite flat_map_app, Happ. cbn [flat_map].
    rewrite Hfapp. change ([App.Str ""] ++ [])%list with (map App.Str [""]).
    rewrite <- map_app. unfold App.join. rewrite join_from_strings, concat_empty_app.
    cbn [String.concat]. rewrite append_empty_r. reflexivity.
  - unfold OllamaLLM._call, llm_of. cbn [OllamaLLM.ollama_host OllamaLLM.model].
    rewrite Hhost, Hpost. cbn [and_then]. rewrite (ok_true resp Hok). cbn [and_then].
    rewrite Hlines. cbn [and_then]. rewrite flat_map_app, Hllm. cbn [flat_map].
    rewrite Hfllm. change ([App.Str (raw final)] ++ [])%list with (map App.Str [raw final]).
    rewrite <- map_app. unfold App.join. rewrite join_from_strings, concat_empty_app.
    reflexivity.
Qed.

Lemma X16_witness :
  exists text,
    App.call_ollama (Samples.env_stream [Samples.line_hel; Samples.line_lo; Samples.line_done])
                    (JStr "hi")
    = inr (JObj [("model", JStr "llama3"); ("text", JStr text)])
    /\ OllamaLLM._call
         (Samples.env_stream [Samples.line_hel; Samples.line_lo; Samples.line_done])
         (llm_of (Samples.env_stream [Samples.line_hel; Samples.line_lo; Samples.line_done])
                 300) "hi"
       = inr (text +:+ raw Samples.line_done).
Proof.
  apply (X16_wrapper_appends_final_line
           (Samples.env_stream [Samples.line_hel; Samples.line_lo; Samples.line_done]) "hi" 300
           (Samples.reply_ndjson [Samples.line_hel; Samples.line_lo; Samples.line_done])
           "utf-8" [Samples.line_hel; Samples.line_lo] Samples.line_done); try reflexivity.
  - constructor; [|constructor; [|constructor]];
      right; eexists; eexists; (split; [reflexivity|]; split; [reflexivity|discriminate]).
  - split; [discriminate|]. eexists. split; reflexivity.
Defined.

(** ** The workflow's answer in [output.json] *)



(** ** A job of [app.py] that completes *)

Lemma app_finish (E : env) (agent_id : string) (out : list (string * json)) (w : world) :
  alive agent_id w ->
  exists w',
    finish E (AgentLogging.append_agent_log E) (AgentLogging.write_agent_state E)
           agent_id out w = (inr tt, w')
    /\ output_of agent_id w' = Some (Parsed (JObj out))
    /\ state_of agent_id w' = Some (Parsed state_completed).
Proof.
  intros [d Hd].
  unfold finish, AgentLogging.write_agent_state, AgentLogging.append_agent_log,
    AgentLogging.ensure_agent_dir, log_stamped, write_output_json, write_state_json,
    append_log_txt, asctime, bind.
  rewrite Hd. cbn [commit fs clock journal].
  rewrite lookup_insert_eq. cbn [commit fs clock journal].
  rewrite lookup_insert_eq. cbn [commit fs clock journal].
  rewrite lookup_insert_eq. cbn [commit fs clock journal].
  rewrite lookup_insert_eq.
  eexists. split; [reflexivity|].
  unfold state_of, output_of. cbn [commit fs]. rewrite lookup_insert_eq.
  split; reflexivity.
Qed.

(** A run of [app.py] whose payload is a dict without a tool and whose model
    call answers. *)
Lemma app_run_completes (E : env) (agent_id : string) (fields : list (string * json))
      (prompt gen : json) (w : world) :
  input_of agent_id w = Some (Parsed (JObj fields)) ->
  build_prompt E (JObj fields) (flow_result E fields) = inr prompt ->
  App.call_ollama E prompt = inr gen ->
  truthy (tool_of fields) = false ->
  exists w' completed_at,
    App.run_agent_background E agent_id w = (inr tt, w')
    /\ output_of agent_id w'
       = Some (Parsed (JObj (fresh_out gen (flow_result E fields) completed_at)))
    /\ state_of agent_id w' = Some (Parsed state_completed).
Proof.
  intros Hin Hprompt Hgen Htool.
  pose proof any_event_routine as HP.
  pose proof (logging_append_agent_log_quiet E any_event HP) as Hlq.
  assert (Hlr : forall a l w0, alive a w0 ->
                               fst (AgentLogging.append_agent_log E a l w0) = inr tt)
    by (intros a l w0 _; apply logging_append_agent_log_runs).
  destruct (app_run_body_start E any_event agent_id w HP) as (w2 & _ & Hw2 & Hbody).
  rewrite Hin in Hbody. unfold run_input in Hbody.
  rewrite (bind_returned _ _ w2 w2 (JObj fields)) in Hbody by reflexivity.
  destruct (run_payload_path E _ (AgentLogging.write_agent_state E) (App.call_ollama E)
              any_event HP Hlq Hlr agent_id fields prompt w2 Hw2 Hprompt)
    as (w3 & Hq3 & Hpayload).
  assert (Hw3 : alive agent_id w3) by (eapply quiet_alive; eassumption).
  destruct (generate_answers E _ (AgentLogging.write_agent_state E) (App.call_ollama E)
              any_event Hlq Hlr agent_id (JObj fields)
              (flow_result E fields) prompt gen w3 Hw3 I Hgen)
    as (w4 & completed_at & Hq4 & Hgenerate).
  assert (Hw4 : alive agent_id w4) by (eapply quiet_alive; eassumption).
  fold (fresh_out gen (flow_result E fields) completed_at) in Hgenerate.
  unfold bind in Hgenerate at 1.
  rewrite (adapter_step_no_tool E _ agent_id fields _ w4 Htool) in Hgenerate.
  destruct (app_finish E agent_id (fresh_out gen (flow_result E fields) completed_at) w4 Hw4)
    as (w' & Hfin & Hout & Hstate).
  exists w', completed_at. split; [|split; assumption].
  unfold App.run_agent_background. apply try_except_returned.
  rewrite Hbody, Hpayload, Hgenerate. exact Hfin.
Qed.



(** ** What [rstrip] takes away *)

Lemma rstrip_by_all (strip : ascii -> bool) (s : string) :
  all_chars strip s = true -> rstrip_by strip s = "".
Proof.
  induction s as [|c rest IH]; [reflexivity|].
  cbn [all_chars rstrip_by]. intros H. apply andb_true_iff in H as [Hc Hrest].
  rewrite (IH Hrest), Hc. reflexivity.
Qed.

Lemma rstrip_by_app (strip : ascii -> bool) (s tail : string) :
  all_chars strip tail = true ->
  rstrip_by strip (s +:+ tail) = rstrip_by strip s.
Proof.
  intros Htail. induction s as [|c rest IH].
  - change ("" +:+ tail) with tail. rewrite (rstrip_by_all strip tail Htail). reflexivity.
  - change (String c rest +:+ tail) with (String c (rest +:+ tail)).
    cbn [rstrip_by]. rewrite IH. reflexivity.
Qed.

(** X20. [tasks.append_agent_log] writes [line.rstrip()] and a newline, so
    white space at the end of a line never reaches [log.txt]: a line and the
    same line followed by white space leave the same log, while
    [agent_logging.append_agent_log] writes its message as it is given. *)
Theorem X20_log_line_is_stripped (E : env) (agent_id line spaces : string) (w : world) :
  all_chars py_isspace spaces = true ->
  Tasks.append_agent_log E agent_id (line +:+ spaces) w
  = Tasks.append_agent_log E agent_id line w
  /\ (forall d, fs w !! agent_id = Some d ->
                log_of agent_id (snd (Tasks.append_agent_log E agent_id (line +:+ spaces) w))
                = Some (match log_txt d with Some old => old | None => "" end
                          +:+ rstrip line +:+ nl)
                /\ log_of agent_id
                          (snd (AgentLogging.append_agent_log E agent_id (line +:+ spaces) w))
                   = Some (match log_txt d with Some old => old | None => "" end
                             +:+ (line +:+ spaces) +:+ nl)).
Proof.
  intros Hspaces.
  assert (Hstrip : rstrip (line +:+ spaces) = rstrip line)
    by (apply rstrip_by_app, Hspaces).
  split.
  - unfold Tasks.append_agent_log. rewrite Hstrip. reflexivity.
  - intros d Hd. split.
    + unfold Tasks.append_agent_log, append_log_txt, log_of. rewrite Hstrip, Hd.
      cbn [snd commit fs]. rewrite lookup_insert_eq. reflexivity.
    + unfold AgentLogging.append_agent_log, AgentLogging.ensure_agent_dir, append_log_txt,
        log_of, bind.
      rewrite Hd. cbn [snd commit fs]. rewrite Hd. cbn [snd commit fs].
      rewrite lookup_insert_eq. reflexivity.
Qed.

Lemma X20_witness :
  Tasks.append_agent_log Samples.env_null "a1" ("done" +:+ "  ") Samples.world_logged
  = Tasks.append_agent_log Samples.env_null "a1" "done" Samples.world_logged
  /\ (forall d, fs Samples.world_logged !! "a1" = Some d ->
                log_of "a1" (snd (Tasks.append_agent_log Samples.env_null "a1"
                                                         ("done" +:+ "  ")
                                                         Samples.world_logged))
                = Some (match log_txt d with Some old => old | None => "" end
                          +:+ rstrip "done" +:+ nl)
                /\ log_of "a1"
                          (snd (AgentLogging.append_agent_log Samples.env_null "a1"
                                                              ("done" +:+ "  ")
                                                              Samples.world_logged))
                   = Some (match log_txt d with Some old => old | None => "" end
                             +:+ ("done" +:+ "  ") +:+ nl)).
Proof.
  apply (X20_log_line_is_stripped Samples.env_null "a1" "done" "  " Samples.world_logged).
  reflexivity.
Defined.

(** X21. [OllamaLLM._call] strips the slashes that end [ollama_host] before
    it appends [/api/generate]: hosts that differ only in such slashes send
    the same request and give the same result. *)
Theorem X21_host_slashes_are_ignored (E : env) (host slashes model : string) (timeout : Z)
        (prompt : string) :
  all_chars (Ascii.eqb "/") slashes = true ->
  OllamaLLM._call E (OllamaLLM.Make (host +:+ slashes) model timeout) prompt
  = OllamaLLM._call E (OllamaLLM.Make host model timeout) prompt.
Proof.
  intros Hslashes. unfold OllamaLLM._call. cbn [OllamaLLM.ollama_host OllamaLLM.model].
  rewrite (rstrip_by_app _ host slashes Hslashes). reflexivity.
Qed.

Lemma X21_witness :
  OllamaLLM._call (Samples.env_stream [Samples.line_hel; Samples.line_lo])
                  (OllamaLLM.Make ("http://ollama:11434" +:+ "//") "llama3" 300) "hi"
  = OllamaLLM._call (Samples.env_stream [Samples.line_hel; Samples.line_lo])
                    (OllamaLLM.Make "http://ollama:11434" "llama3" 300) "hi".
Proof.
  apply (X21_host_slashes_are_ignored
           (Samples.env_stream [Samples.line_hel; Samples.line_lo])
           "http://ollama:11434" "//" "llama3" 300 "hi").
  reflexivity.
Defined.

(** * The runner on a disk *)

(** ** The relations and the rules *)

#[export] Instance undisturbed_preorder (P : event -> Prop) : PreOrder (undisturbed P).
Proof.
  split.
  - intros w. split; [auto|]. split; [auto|]. split; [auto|apply grows_refl].
  - intros w1 w2 w3 (A1 & I1 & O1 & G1) (A2 & I2 & O2 & G2).
    split; [auto|]. split; [intros a; rewrite I2; apply I1|].
    split; [intros a; rewrite O2; apply O1|].
    eapply grows_trans; eassumption.
Qed.

#[export] Instance confined_preorder (agent_id : string) : PreOrder (confined agent_id).
Proof.
  split.
  - intros w. split; [auto|]. intros a _. reflexivity.
  - intros w1 w2 w3 [A1 K1] [A2 K2]. split; [auto|].
    intros a Ha. rewrite (K2 a Ha). apply K1, Ha.
Qed.

Lemma quiet_undisturbed (P : event -> Prop) (w w' : world) :
  quiet P w w' -> undisturbed P w w'.
Proof.
  intros [(A & I & S & G) O]. split; [exact A|]. split; [exact I|]. split; assumption.
Qed.

Lemma preserves_quiet_undisturbed {A : Type} (P : event -> Prop) (m : M A) :
  preserves (quiet P) m -> preserves (undisturbed P) m.
Proof. intros H w. apply quiet_undisturbed, H. Qed.

Lemma undisturbed_alive (P : event -> Prop) (agent_id : string) (w w' : world) :
  undisturbed P w w' -> alive agent_id w -> alive agent_id w'.
Proof. intros (A & _) Hw. apply A, Hw. Qed.

(** A world in which the directory of one job was replaced. *)
Lemma replaced_quiet (P : event -> Prop) (agent_id : string) (d d' : agent_files)
      (events : list event) (w w' : world) :
  fs w !! agent_id = Some d ->
  input_json d' = input_json d ->
  state_json d' = state_json d ->
  output_json d' = output_json d ->
  fs w' = <[agent_id := d']> (fs w) ->
  journal w' = (journal w ++ events)%list ->
  Forall P events ->
  quiet P w w'.
Proof.
  intros Hd Hin Hst Hout Hfs Hj HP.
  split; [split; [|split; [|split]]|].
  - intros a Ha. unfold alive in *. rewrite Hfs.
    destruct (decide (agent_id = a)) as [<-|Hne].
    + rewrite lookup_insert_eq. eauto.
    + rewrite lookup_insert_ne by assumption. assumption.
  - intros a. unfold input_of. rewrite Hfs.
    destruct (decide (agent_id = a)) as [<-|Hne].
    + rewrite lookup_insert_eq, Hd. assumption.
    + rewrite lookup_insert_ne by assumption. reflexivity.
  - intros a. left. unfold state_of. rewrite Hfs.
    destruct (decide (agent_id = a)) as [<-|Hne].
    + rewrite lookup_insert_eq, Hd. assumption.
    + rewrite lookup_insert_ne by assumption. reflexivity.
  - exists events. split; assumption.
  - intros a. unfold output_of. rewrite Hfs.
    destruct (decide (agent_id = a)) as [<-|Hne].
    + rewrite lookup_insert_eq, Hd. assumption.
    + rewrite lookup_insert_ne by assumption. reflexivity.
Qed.

Lemma replaced_undisturbed (P : event -> Prop) (agent_id : string) (d d' : agent_files)
      (events : list event) (w w' : world) :
  fs w !! agent_id = Some d ->
  input_json d' = input_json d ->
  output_json d' = output_json d ->
  fs w' = <[agent_id := d']> (fs w) ->
  journal w' = (journal w ++ events)%list ->
  Forall P events ->
  undisturbed P w w'.
Proof.
  intros Hd Hin Hout Hfs Hj HP.
  split; [|split; [|split]].
  - intros a Ha. unfold alive in *. rewrite Hfs.
    destruct (decide (agent_id = a)) as [<-|Hne].
    + rewrite lookup_insert_eq. eauto.
    + rewrite lookup_insert_ne by assumption. assumption.
  - intros a. unfold input_of. rewrite Hfs.
    destruct (decide (agent_id = a)) as [<-|Hne].
    + rewrite lookup_insert_eq, Hd. assumption.
    + rewrite lookup_insert_ne by assumption. reflexivity.
  - intros a. unfold output_of. rewrite Hfs.
    destruct (decide (agent_id = a)) as [<-|Hne].
    + rewrite lookup_insert_eq, Hd. assumption.
    + rewrite lookup_insert_ne by assumption. reflexivity.
  - exists events. split; assumption.
Qed.

Lemma replaced_confined (agent_id : string) (d' : agent_files) (w w' : world) :
  fs w' = <[agent_id := d']> (fs w) -> confined agent_id w w'.
Proof.
  intros Hfs. split.
  - intros a Ha. unfold alive in *. rewrite Hfs.
    destruct (decide (agent_id = a)) as [<-|Hne].
    + rewrite lookup_insert_eq. eauto.
    + rewrite lookup_insert_ne by assumption. assumption.
  - intros a Hne. rewrite Hfs. apply lookup_insert_ne. congruence.
Qed.

Lemma same_fs_confined (agent_id : string) (w w' : world) :
  fs w' = fs w -> confined agent_id w w'.
Proof.
  intros Hfs. split.
  - intros a Ha. unfold alive in *. rewrite Hfs. assumption.
  - intros a _. rewrite Hfs. reflexivity.
Qed.

Lemma damage_quiet (P : event -> Prop) (agent_id : string) (d d' : agent_files) (w : world) :
  fs w !! agent_id = Some d ->
  input_json d' = input_json d ->
  state_json d' = state_json d ->
  output_json d' = output_json d ->
  quiet P w (damage agent_id d' w).
Proof.
  intros Hd Hin Hst Hout.
  apply (replaced_quiet P agent_id d d' []); try assumption; try reflexivity.
  - symmetry. apply app_nil_r.
  - constructor.
Qed.

Lemma damage_undisturbed (P : event -> Prop) (agent_id : string) (d d' : agent_files)
      (w : world) :
  fs w !! agent_id = Some d ->
  input_json d' = input_json d ->
  output_json d' = output_json d ->
  undisturbed P w (damage agent_id d' w).
Proof.
  intros Hd Hin Hout.
  apply (replaced_undisturbed P agent_id d d' []); try assumption; try reflexivity.
  - symmetry. apply app_nil_r.
  - constructor.
Qed.

Lemma commit_undisturbed (P : event -> Prop) (agent_id : string) (d d' : agent_files)
      (ev : event) (w : world) :
  fs w !! agent_id = Some d ->
  input_json d' = input_json d ->
  output_json d' = output_json d ->
  P ev ->
  undisturbed P w (commit agent_id d' ev w).
Proof.
  intros Hd Hin Hout Hev.
  apply (replaced_undisturbed P agent_id d d' [ev]); try assumption; try reflexivity.
  repeat constructor. exact Hev.
Qed.

(** The rules of [hoare]. *)
Lemma hoare_bind {A B : Type} (I : world -> Prop) (m : M A) (k : A -> M B)
      (Q1 : A -> world -> Prop) (Q : B -> world -> Prop) :
  hoare I m Q1 -> (forall a, hoare (Q1 a) (k a) Q) -> hoare I (bind m k) Q.
Proof.
  intros Hm Hk w b w' HI Hrun. unfold bind in Hrun.
  destruct (m w) as [[e|a] w1] eqn:Hmw; [discriminate|].
  eapply Hk; [|exact Hrun]. eapply Hm; eassumption.
Qed.

Lemma hoare_raise {A : Type} (I : world -> Prop) (e : exn) (Q : A -> world -> Prop) :
  hoare I (@raise A e) Q.
Proof. intros w a w' _ Hrun. discriminate. Qed.

(** A step that preserves [R] keeps what [R] keeps. *)
Lemma hoare_preserves {A : Type} (R : world -> world -> Prop) (I : world -> Prop) (m : M A) :
  preserves R m -> (forall w w', R w w' -> I w -> I w') ->
  hoare I m (fun _ => I).
Proof.
  intros Hm Hstable w a w' HI Hrun. eapply Hstable; [|exact HI].
  specialize (Hm w). rewrite Hrun in Hm. exact Hm.
Qed.

Lemma bind_returns_inv {A B : Type} (m : M A) (k : A -> M B) (w w' : world) (b : B) :
  bind m k w = (inr b, w') ->
  exists a w1, m w = (inr a, w1) /\ k a w1 = (inr b, w').
Proof.
  unfold bind. destruct (m w) as [[e|a] w1]; [discriminate|]. eauto.
Qed.

(** ** What the operations of the disk preserve *)

(** Looking for [input.json] changes nothing. *)
Lemma disk_find_input_same (D : disk) (agent_id : string) (R : world -> world -> Prop)
      `{!PreOrder R} :
  preserves R (Disk.find_input D agent_id).
Proof.
  intros w. unfold Disk.find_input.
  destruct (input_of agent_id w) as [file|]; [|reflexivity].
  destruct (D (ReadInput agent_id) w) as [[e|e partial]|]; reflexivity.
Qed.

Lemma disk_find_input_accepted (D : disk) (agent_id : string) (w : world) :
  input_of agent_id w = None \/ D (ReadInput agent_id) w = None ->
  Disk.find_input D agent_id w = (inr (input_of agent_id w), w).
Proof.
  intros Hok. unfold Disk.find_input.
  destruct (input_of agent_id w) as [file|]; [|reflexivity].
  destruct Hok as [Hnone|Hread]; [discriminate|]. rewrite Hread. reflexivity.
Qed.

Section DiskOperations.
Context (D : disk) (E : env) (P : event -> Prop) (HP : routine P).

Lemma disk_append_log_txt_quiet (agent_id text : string) :
  preserves (quiet P) (Disk.append_log_txt D E agent_id text).
Proof.
  intros w. unfold Disk.append_log_txt.
  destruct (fs w !! agent_id) as [d|] eqn:Hd; [|reflexivity].
  destruct (D (AppendLog agent_id text) w) as [[e|e partial]|]; cbn [snd].
  - reflexivity.
  - apply (damage_quiet P agent_id d); [exact Hd | reflexivity..].
  - apply commit_quiet; unfold input_of, output_of, state_of; try rewrite Hd;
      try reflexivity; [left; reflexivity | apply HP].
Qed.

Lemma disk_ensure_agent_dir_quiet (agent_id : string) :
  preserves (quiet P) (Disk.ensure_agent_dir D agent_id).
Proof.
  intros w. unfold Disk.ensure_agent_dir.
  destruct (fs w !! agent_id) as [d|] eqn:Hd; [reflexivity|].
  destruct (D (MakeDir agent_id) w) as [[e|e partial]|]; cbn [snd]; try reflexivity.
  apply commit_quiet; unfold input_of, output_of, state_of; try rewrite Hd;
    try reflexivity; [left; reflexivity | apply HP].
Qed.

Lemma disk_write_state_json_undisturbed (agent_id : string) (data : json) :
  state_invariant data ->
  preserves (undisturbed P) (Disk.write_state_json D E agent_id data).
Proof.
  intros Hinv w. unfold Disk.write_state_json.
  destruct (fs w !! agent_id) as [d|] eqn:Hd; [|reflexivity].
  destruct (D (WriteState agent_id data) w) as [[e|e partial]|]; cbn [snd].
  - reflexivity.
  - apply (damage_undisturbed P agent_id d); [exact Hd | reflexivity..].
  - apply (commit_undisturbed P agent_id d); [exact Hd | reflexivity.. | apply HP, Hinv].
Qed.

Lemma disk_tasks_append_agent_log_quiet (agent_id line : string) :
  preserves (quiet P) (DiskTasks.append_agent_log D E agent_id line).
Proof. apply disk_append_log_txt_quiet. Qed.

Lemma disk_logging_append_agent_log_quiet (agent_id message : string) :
  preserves (quiet P) (DiskLogging.append_agent_log D E agent_id message).
Proof.
  unfold DiskLogging.append_agent_log.
  apply preserves_bind; [typeclasses eauto | | intros _].
  - apply disk_ensure_agent_dir_quiet.
  - apply disk_append_log_txt_quiet.
Qed.

Lemma disk_tasks_write_agent_state_undisturbed (agent_id : string) (data : json) :
  state_invariant data ->
  preserves (undisturbed P) (DiskTasks.write_agent_state D E agent_id data).
Proof. apply disk_write_state_json_undisturbed. Qed.

Lemma disk_logging_write_agent_state_undisturbed (agent_id : string) (data : json) :
  state_invariant data ->
  preserves (undisturbed P) (DiskLogging.write_agent_state D E agent_id data).
Proof.
  intros Hinv. unfold DiskLogging.write_agent_state.
  apply preserves_bind; [typeclasses eauto | | intros _].
  - apply preserves_quiet_undisturbed, disk_ensure_agent_dir_quiet.
  - apply disk_write_state_json_undisturbed, Hinv.
Qed.

End DiskOperations.

(** ** The statements before the write of [output.json] *)

Section DiskWorkflow.
Context (D : disk) (E : env).
Variable append_agent_log : string -> string -> M unit.
Variable write_agent_state : string -> json -> M unit.
Variable call_ollama : json -> exn + json.
Context (P : event -> Prop) (HP : routine P).

Hypothesis prompts_allowed : forall prompt, P (OllamaCalled prompt).
Hypothesis append_agent_log_quiet :
  forall agent_id line, preserves (quiet P) (append_agent_log agent_id line).
Hypothesis write_agent_state_undisturbed :
  forall agent_id data,
    state_invariant data -> preserves (undisturbed P) (write_agent_state agent_id data).

Ltac undisturbed_step :=
  first
    [ apply write_agent_state_undisturbed;
      first [ apply state_running_invariant
            | apply state_completed_invariant
            | apply state_failed_invariant ]
    | apply preserves_quiet_undisturbed;
      first [ apply log_stamped_quiet; exact append_agent_log_quiet
            | apply flowise_step_quiet; [exact HP | exact append_agent_log_quiet]
            | apply adapter_step_quiet; [exact HP | exact append_agent_log_quiet]
            | apply asctime_quiet
            | apply emit_quiet; apply prompts_allowed ]
    | apply preserves_ret; solve [typeclasses eauto]
    | apply preserves_raise; solve [typeclasses eauto]
    | apply preserves_lift; solve [typeclasses eauto]
    | apply disk_find_input_same; solve [typeclasses eauto]
    | apply preserves_bind; [typeclasses eauto | | intros ?]
    | match goal with
      | |- preserves _ (match ?x with _ => _ end) => destruct x
      end ].

Lemma build_out_undisturbed (agent_id : string) :
  preserves (undisturbed P)
            (Disk.build_out D E append_agent_log write_agent_state call_ollama agent_id).
Proof.
  unfold Disk.build_out, Disk.out_of_input, Disk.out_of_payload.
  repeat undisturbed_step.
Qed.

(** A handler made of a state write, a stamped log line and [raise]. *)
Lemma handler_undisturbed (agent_id : string) (e : exn) (record : M unit) :
  preserves (undisturbed P) record ->
  preserves (undisturbed P)
            (record ;;
             log_stamped E append_agent_log agent_id ("Agent failed: " +:+ exn_msg e) ;;
             @raise unit e).
Proof. intros Hrecord. repeat first [exact Hrecord | undisturbed_step]. Qed.

(** A run that raises before [output.json] is written. *)
Lemma stopped_before_output (agent_id : string) (handler : exn -> M unit)
      (w w' : world) (e : exn) :
  (forall e1, preserves (undisturbed P) (handler e1)) ->
  try_except (Disk.run_body D E append_agent_log write_agent_state call_ollama agent_id)
             handler w = (inl e, w') ->
  undisturbed P w w'
  \/ exists out w1,
      Disk.build_out D E append_agent_log write_agent_state call_ollama agent_id w
      = (inr out, w1).
Proof.
  intros Hhandler Hrun.
  pose proof (build_out_undisturbed agent_id w) as Hbuild.
  destruct (Disk.build_out D E append_agent_log write_agent_state call_ollama agent_id w)
    as [[e1|out] w1] eqn:Hb; [left|right; eauto].
  unfold try_except, Disk.run_body in Hrun.
  rewrite (bind_raised _ _ _ _ _ Hb) in Hrun.
  pose proof (Hhandler e1 w1) as Hh. rewrite Hrun in Hh.
  etransitivity; [exact Hbuild|exact Hh].
Qed.

End DiskWorkflow.

Lemma disk_tasks_on_failure_undisturbed (D : disk) (E : env) (P : event -> Prop)
      (agent_id : string) (e : exn) :
  routine P -> preserves (undisturbed P) (DiskTasks.on_failure D E agent_id e).
Proof.
  intros HP. unfold DiskTasks.on_failure.
  apply (handler_undisturbed E _ P).
  - intros a line. apply disk_tasks_append_agent_log_quiet, HP.
  - apply disk_tasks_write_agent_state_undisturbed; [exact HP|apply state_failed_invariant].
Qed.

Lemma disk_app_on_failure_undisturbed (D : disk) (E : env) (P : event -> Prop)
      (agent_id : string) (e : exn) :
  routine P -> preserves (undisturbed P) (DiskApp.on_failure D E agent_id e).
Proof.
  intros HP. unfold DiskApp.on_failure.
  apply (handler_undisturbed E _ P).
  - intros a line. apply disk_logging_append_agent_log_quiet, HP.
  - apply preserves_try_except; [typeclasses eauto | | intros _].
    + apply disk_logging_write_agent_state_undisturbed;
        [exact HP|apply state_failed_invariant].
    + apply preserves_ret. typeclasses eauto.
Qed.

(** ** C9: a run that raises before [output.json] is written *)

(** C9, as corrected. On a disk whose operations may fail, in [tasks.py]
    and in [app.py] alike: a run of [run_agent_background] that raises
    before it reaches the statement that writes [output.json] - the
    statements before that one did not all return - has not written or
    changed any [output.json] (nor any [input.json], and no directory is
    gone): the file a previous run left is still there, unchanged. *)
Theorem C9_failed_run_keeps_output (D : disk) (E : env) (agent_id : string) (w : world) :
  (forall e w',
      DiskTasks.run_agent_background D E agent_id w = (inl e, w') ->
      undisturbed not_output_event w w'
      \/ exists out w1, DiskTasks.build_out D E agent_id w = (inr out, w1))
  /\ (forall e w',
         DiskApp.run_agent_background D E agent_id w = (inl e, w') ->
         undisturbed not_output_event w w'
         \/ exists out w1, DiskApp.build_out D E agent_id w = (inr out, w1)).
Proof.
  pose proof not_output_event_routine as HP.
  assert (Hprompts : forall prompt, not_output_event (OllamaCalled prompt))
    by (intros prompt H; exact H).
  split; intros e w' Hrun.
  - eapply (stopped_before_output D E _ _ _ not_output_event HP Hprompts); [| | |exact Hrun].
    + intros a line. apply disk_tasks_append_agent_log_quiet, HP.
    + intros a data. apply disk_tasks_write_agent_state_undisturbed, HP.
    + intros e1. apply disk_tasks_on_failure_undisturbed, HP.
  - eapply (stopped_before_output D E _ _ _ not_output_event HP Hprompts); [| | |exact Hrun].
    + intros a line. apply disk_logging_append_agent_log_quiet, HP.
    + intros a data. apply disk_logging_write_agent_state_undisturbed, HP.
    + intros e1. apply disk_app_on_failure_undisturbed, HP.
Qed.

Lemma C9_witness :
  output_of "bare" (snd (DiskTasks.run_agent_background sound_disk Samples.env_null "bare"
                                                        Samples.world_jobs))
  = Some Samples.old_output.
Proof.
  destruct (C9_failed_run_keeps_output sound_disk Samples.env_null "bare" Samples.world_jobs)
    as [Htasks _].
  destruct (Htasks (missing_input "bare")
                   (snd (DiskTasks.run_agent_background sound_disk Samples.env_null "bare"
                                                        Samples.world_jobs)))
    as [(_ & _ & Hout & _)|(out & w1 & Hbuilt)].
  - vm_compute. reflexivity.
  - rewrite Hout. reflexivity.
  - vm_compute in Hbuilt. discriminate.
Defined.

(** The claim as worded fails for a run that raises after it reached the
    write of [output.json].  When the disk is full once that file is
    written, the write of the completed state raises, the run raises, and
    the [output.json] of the earlier run has been replaced, in [tasks.py] and
    in [app.py]; when the write of [output.json] itself stops midway, the
    run raises and leaves the file truncated. *)
Lemma C9_counterexample :
  output_of "a1" Samples.world_rerun = Some Samples.old_output
  /\ (fst (DiskTasks.run_agent_background Samples.disk_full_at_end Samples.env_null "a1"
                                          Samples.world_rerun) = inl Samples.no_space
      /\ output_of "a1" (snd (DiskTasks.run_agent_background
                                Samples.disk_full_at_end Samples.env_null "a1"
                                Samples.world_rerun))
         = Some (Parsed (JObj [("model_response", JNull); ("flowise", JNull);
                               ("completed_at", JStr "t3")])))
  /\ (fst (DiskApp.run_agent_background Samples.disk_full_at_end Samples.env_null "a1"
                                        Samples.world_rerun) = inl Samples.no_space
      /\ output_of "a1" (snd (DiskApp.run_agent_background
                                Samples.disk_full_at_end Samples.env_null "a1"
                                Samples.world_rerun))
         = Some (Parsed (JObj [("model_response", JNull); ("flowise", JNull);
                               ("completed_at", JStr "t3")])))
  /\ (fst (DiskTasks.run_agent_background Samples.disk_tears_output Samples.env_null "a1"
                                          Samples.world_rerun) = inl Samples.no_space
      /\ output_of "a1" (snd (DiskTasks.run_agent_background
                                Samples.disk_tears_output Samples.env_null "a1"
                                Samples.world_rerun))
         = Some (Malformed "Expecting value: line 1 column 1 (char 0)")).
Proof.
  split; [reflexivity|]. repeat split; vm_compute; reflexivity.
Qed.

(** ** What a run on a disk leaves alone *)

Section DiskConfined.
Context (D : disk) (E : env) (agent_id : string).

Lemma disk_write_state_json_confined (data : json) :
  preserves (confined agent_id) (Disk.write_state_json D E agent_id data).
Proof.
  intros w. unfold Disk.write_state_json.
  destruct (fs w !! agent_id) as [d|]; [|reflexivity].
  destruct (D (WriteState agent_id data) w) as [[e|e partial]|]; cbn [snd];
    [reflexivity | eapply replaced_confined; reflexivity..].
Qed.

Lemma disk_write_output_json_confined (out : json) :
  preserves (confined agent_id) (Disk.write_output_json D E agent_id out).
Proof.
  intros w. unfold Disk.write_output_json.
  destruct (fs w !! agent_id) as [d|]; [|reflexivity].
  destruct (D (WriteOutput agent_id out) w) as [[e|e partial]|]; cbn [snd];
    [reflexivity | eapply replaced_confined; reflexivity..].
Qed.

Lemma disk_append_log_txt_confined (text : string) :
  preserves (confined agent_id) (Disk.append_log_txt D E agent_id text).
Proof.
  intros w. unfold Disk.append_log_txt.
  destruct (fs w !! agent_id) as [d|]; [|reflexivity].
  destruct (D (AppendLog agent_id text) w) as [[e|e partial]|]; cbn [snd];
    [reflexivity | eapply replaced_confined; reflexivity..].
Qed.

Lemma disk_ensure_agent_dir_confined :
  preserves (confined agent_id) (Disk.ensure_agent_dir D agent_id).
Proof.
  intros w. unfold Disk.ensure_agent_dir.
  destruct (fs w !! agent_id) as [d|]; [reflexivity|].
  destruct (D (MakeDir agent_id) w) as [[e|e partial]|]; cbn [snd];
    [reflexivity | reflexivity | eapply replaced_confined; reflexivity].
Qed.

Lemma asctime_confined : preserves (confined agent_id) (asctime E).
Proof. intros w. apply same_fs_confined. reflexivity. Qed.

Lemma emit_confined (ev : event) : preserves (confined agent_id) (emit ev).
Proof. intros w. apply same_fs_confined. reflexivity. Qed.

End DiskConfined.

Section DiskFrame.
Context (D : disk) (E : env).
Variable append_agent_log : string -> string -> M unit.
Variable write_agent_state : string -> json -> M unit.
Variable call_ollama : json -> exn + json.
Variable agent_id : string.
Context (R : world -> world -> Prop) `{!PreOrder R}.

Hypothesis append_agent_log_kept : forall line, preserves R (append_agent_log agent_id line).
Hypothesis write_agent_state_kept : forall data, preserves R (write_agent_state agent_id data).
Hypothesis asctime_kept : preserves R (asctime E).
Hypothesis emit_kept : forall ev, preserves R (emit ev).
Hypothesis write_output_json_kept :
  forall out, preserves R (Disk.write_output_json D E agent_id out).

Ltac disk_kept_step :=
  first
    [ apply (log_stamped_kept E append_agent_log agent_id R); assumption
    | apply (flowise_step_kept E append_agent_log agent_id R); assumption
    | apply (adapter_step_kept E append_agent_log agent_id R); assumption
    | apply append_agent_log_kept
    | apply write_agent_state_kept
    | apply asctime_kept
    | apply emit_kept
    | apply write_output_json_kept
    | apply preserves_ret; solve [typeclasses eauto]
    | apply preserves_raise; solve [typeclasses eauto]
    | apply preserves_lift; solve [typeclasses eauto]
    | apply disk_find_input_same; solve [typeclasses eauto]
    | apply preserves_bind; [typeclasses eauto | | intros ?]
    | apply preserves_try_except; [typeclasses eauto | | intros ?]
    | match goal with
      | |- preserves _ (match ?x with _ => _ end) => destruct x
      end ].

Lemma disk_run_body_kept :
  preserves R (Disk.run_body D E append_agent_log write_agent_state call_ollama agent_id).
Proof.
  unfold Disk.run_body, Disk.build_out, Disk.out_of_input, Disk.out_of_payload, Disk.finish.
  repeat disk_kept_step.
Qed.

(** The run, with a handler made of a record, a stamped log line and
    [raise]. *)
Lemma disk_run_kept (record : exn -> M unit) :
  (forall e, preserves R (record e)) ->
  preserves R
    (try_except
       (Disk.run_body D E append_agent_log write_agent_state call_ollama agent_id)
       (fun e =>
          record e ;;
          log_stamped E append_agent_log agent_id ("Agent failed: " +:+ exn_msg e) ;;
          raise e)).
Proof.
  intros Hrecord.
  apply preserves_try_except; [typeclasses eauto | apply disk_run_body_kept | intros e].
  repeat first [apply Hrecord | disk_kept_step].
Qed.

End DiskFrame.

Lemma disk_tasks_run_body_confined (D : disk) (E : env) (agent_id : string) :
  preserves (confined agent_id) (DiskTasks.run_body D E agent_id).
Proof.
  unfold DiskTasks.run_body.
  apply disk_run_body_kept; [typeclasses eauto | intros line | intros data | | intros ev
                            | intros out].
  - apply disk_append_log_txt_confined.
  - apply disk_write_state_json_confined.
  - apply asctime_confined.
  - apply emit_confined.
  - apply disk_write_output_json_confined.
Qed.

Lemma disk_logging_append_agent_log_confined (D : disk) (E : env) (agent_id line : string) :
  preserves (confined agent_id) (DiskLogging.append_agent_log D E agent_id line).
Proof.
  unfold DiskLogging.append_agent_log.
  apply preserves_bind; [typeclasses eauto | | intros _].
  - apply disk_ensure_agent_dir_confined.
  - apply disk_append_log_txt_confined.
Qed.

Lemma disk_logging_write_agent_state_confined (D : disk) (E : env) (agent_id : string)
      (data : json) :
  preserves (confined agent_id) (DiskLogging.write_agent_state D E agent_id data).
Proof.
  unfold DiskLogging.write_agent_state.
  apply preserves_bind; [typeclasses eauto | | intros _].
  - apply disk_ensure_agent_dir_confined.
  - apply disk_write_state_json_confined.
Qed.

Lemma disk_tasks_run_confined (D : disk) (E : env) (agent_id : string) :
  preserves (confined agent_id) (DiskTasks.run_agent_background D E agent_id).
Proof.
  unfold DiskTasks.run_agent_background, DiskTasks.on_failure.
  apply (disk_run_kept D E (DiskTasks.append_agent_log D E)
           (DiskTasks.write_agent_state D E) (Tasks.call_ollama E)
           agent_id (confined agent_id)
           (fun line => disk_append_log_txt_confined D E agent_id (rstrip line +:+ nl))
           (disk_write_state_json_confined D E agent_id)
           (asctime_confined E agent_id)
           (emit_confined agent_id)
           (disk_write_output_json_confined D E agent_id)
           (fun e => DiskTasks.write_agent_state D E agent_id (state_failed e))).
  intros e. apply disk_write_state_json_confined.
Qed.

Lemma disk_app_run_confined (D : disk) (E : env) (agent_id : string) :
  preserves (confined agent_id) (DiskApp.run_agent_background D E agent_id).
Proof.
  unfold DiskApp.run_agent_background, DiskApp.on_failure.
  apply (disk_run_kept D E (DiskLogging.append_agent_log D E)
           (DiskLogging.write_agent_state D E) (App.call_ollama E)
           agent_id (confined agent_id)
           (disk_logging_append_agent_log_confined D E agent_id)
           (disk_logging_write_agent_state_confined D E agent_id)
           (asctime_confined E agent_id)
           (emit_confined agent_id)
           (disk_write_output_json_confined D E agent_id)
           (fun e => try_except (DiskLogging.write_agent_state D E agent_id (state_failed e))
                                (fun _ => ret tt))).
  intros e. apply preserves_try_except; [typeclasses eauto | | intros _].
  - apply disk_logging_write_agent_state_confined.
  - apply preserves_ret. typeclasses eauto.
Qed.

(** ** A disk that accepts the log and the state *)

Lemma disk_append_log_txt_accepted (D : disk) (E : env) (agent_id text : string) (w : world) :
  accepts_logs D ->
  Disk.append_log_txt D E agent_id text w = append_log_txt E agent_id text w.
Proof.
  intros Hlogs. unfold Disk.append_log_txt, append_log_txt. rewrite Hlogs. reflexivity.
Qed.

Lemma disk_write_state_json_accepted (D : disk) (E : env) (agent_id : string) (data : json)
      (w : world) :
  accepts_states D ->
  Disk.write_state_json D E agent_id data w = write_state_json E agent_id data w.
Proof.
  intros Hstates. unfold Disk.write_state_json, write_state_json. rewrite Hstates.
  reflexivity.
Qed.

Lemma disk_ensure_agent_dir_accepted (D : disk) (agent_id : string) (w : world) :
  accepts_dirs D ->
  Disk.ensure_agent_dir D agent_id w = AgentLogging.ensure_agent_dir agent_id w.
Proof.
  intros Hdirs. unfold Disk.ensure_agent_dir, AgentLogging.ensure_agent_dir.
  rewrite Hdirs. reflexivity.
Qed.

Lemma disk_logging_append_agent_log_accepted (D : disk) (E : env) (agent_id message : string)
      (w : world) :
  accepts_dirs D -> accepts_logs D ->
  DiskLogging.append_agent_log D E agent_id message w
  = AgentLogging.append_agent_log E agent_id message w.
Proof.
  intros Hdirs Hlogs. unfold DiskLogging.append_agent_log, AgentLogging.append_agent_log, bind.
  rewrite (disk_ensure_agent_dir_accepted D agent_id w Hdirs).
  destruct (AgentLogging.ensure_agent_dir agent_id w) as [[e|u] w1]; [reflexivity|].
  apply disk_append_log_txt_accepted, Hlogs.
Qed.

Lemma disk_logging_write_agent_state_accepted (D : disk) (E : env) (agent_id : string)
      (data : json) (w : world) :
  accepts_dirs D -> accepts_states D ->
  DiskLogging.write_agent_state D E agent_id data w
  = AgentLogging.write_agent_state E agent_id data w.
Proof.
  intros Hdirs Hstates.
  unfold DiskLogging.write_agent_state, AgentLogging.write_agent_state, bind.
  rewrite (disk_ensure_agent_dir_accepted D agent_id w Hdirs).
  destruct (AgentLogging.ensure_agent_dir agent_id w) as [[e|u] w1]; [reflexivity|].
  apply disk_write_state_json_accepted, Hstates.
Qed.

(** ** How far the statements before the write get *)

Section DiskPaths.
Context (D : disk) (E : env).
Variable append_agent_log : string -> string -> M unit.
Variable write_agent_state : string -> json -> M unit.
Variable call_ollama : json -> exn + json.
Context (P : event -> Prop) (HP : routine P).
Variable ready : string -> world -> Prop.

Hypothesis prompts_allowed : forall prompt, P (OllamaCalled prompt).
Hypothesis ready_asctime :
  forall agent_id w, ready agent_id w -> ready agent_id (snd (asctime E w)).
Hypothesis append_agent_log_quiet :
  forall agent_id line, preserves (quiet P) (append_agent_log agent_id line).
Hypothesis write_agent_state_quiet :
  forall agent_id data,
    state_invariant data -> preserves (quiet P) (write_agent_state agent_id data).
Hypothesis append_agent_log_starts :
  forall agent_id line w,
    ready agent_id w ->
    fst (append_agent_log agent_id line w) = inr tt
    /\ alive agent_id (snd (append_agent_log agent_id line w)).
Hypothesis append_agent_log_runs :
  forall agent_id line w,
    alive agent_id w -> fst (append_agent_log agent_id line w) = inr tt.
Hypothesis write_agent_state_runs :
  forall agent_id data w,
    alive agent_id w -> fst (write_agent_state agent_id data w) = inr tt.

(** The first two statements return and [input.json] is looked for. *)
Lemma disk_build_out_start (agent_id : string) (w : world) :
  ready agent_id w ->
  input_of agent_id w = None \/ (forall w0, D (ReadInput agent_id) w0 = None) ->
  exists w2,
    quiet P w w2 /\ alive agent_id w2
    /\ Disk.build_out D E append_agent_log write_agent_state call_ollama agent_id w
       = Disk.out_of_input E append_agent_log call_ollama agent_id (input_of agent_id w) w2.
Proof.
  intros Hready Hread. unfold Disk.build_out.
  assert (Hlog : fst (log_stamped E append_agent_log agent_id "Agent started" w) = inr tt
                 /\ alive agent_id
                          (snd (log_stamped E append_agent_log agent_id "Agent started" w))).
  { unfold log_stamped.
    rewrite (bind_returned _ _ w (snd (asctime E w)) (asctime_at E (clock w)))
      by reflexivity.
    apply append_agent_log_starts, ready_asctime, Hready. }
  destruct Hlog as [Hlog Hw1].
  rewrite (bind_run _ _ _ _ Hlog).
  match goal with |- context [snd (?m w)] => set (w1 := snd (m w)) in * end.
  assert (Hq1 : quiet P w w1) by (apply log_stamped_quiet; exact append_agent_log_quiet).
  rewrite (bind_run _ _ _ _ (write_agent_state_runs agent_id state_running w1 Hw1)).
  match goal with |- context [snd (?m w1)] => set (w2 := snd (m w1)) in * end.
  assert (Hq2 : quiet P w1 w2)
    by (apply write_agent_state_quiet, state_running_invariant).
  assert (Hq : quiet P w w2) by (etransitivity; eassumption).
  exists w2. split; [exact Hq|]. split; [exact (quiet_alive P agent_id w1 w2 Hq2 Hw1)|].
  destruct Hq as [(_ & Hin & _) _].
  rewrite (bind_returned _ _ w2 w2 (input_of agent_id w2)).
  - rewrite Hin. reflexivity.
  - apply disk_find_input_accepted. rewrite Hin.
    destruct Hread as [Hnone|Haccepted]; [left; exact Hnone | right; apply Haccepted].
Qed.

(** With a dict for a payload, a call of the model that raises ends the
    statements. *)
Lemma disk_out_of_payload_model_raises (agent_id : string) (fields : list (string * json))
      (prompt : json) (e : exn) (w : world) :
  alive agent_id w ->
  build_prompt E (JObj fields) (flow_result E fields) = inr prompt ->
  call_ollama prompt = inl e ->
  exists w',
    quiet P w w'
    /\ Disk.out_of_payload E append_agent_log call_ollama agent_id (JObj fields) w
       = (inl e, w').
Proof.
  intros Hw Hprompt Hgen. unfold Disk.out_of_payload.
  rewrite (bind_run _ _ _ _
             (flowise_step_runs E append_agent_log P append_agent_log_quiet
                                append_agent_log_runs agent_id fields w Hw)).
  match goal with |- context [snd (?m w)] => set (w1 := snd (m w)) in * end.
  assert (Hq1 : quiet P w w1)
    by (apply flowise_step_quiet; [exact HP | exact append_agent_log_quiet]).
  assert (Hw1 : alive agent_id w1) by (eapply quiet_alive; eassumption).
  rewrite (bind_returned _ _ w1 w1 prompt) by (unfold lift; rewrite Hprompt; reflexivity).
  rewrite (bind_run _ _ _ _
             (log_stamped_runs E append_agent_log append_agent_log_runs
                               agent_id "Calling Ollama" w1 Hw1)).
  match goal with |- context [snd (?m w1)] => set (w2 := snd (m w1)) in * end.
  assert (Hq2 : quiet P w1 w2) by (apply log_stamped_quiet; exact append_agent_log_quiet).
  set (w3 := snd (emit (OllamaCalled prompt) w2)).
  assert (Hq3 : quiet P w2 w3) by (apply emit_quiet, prompts_allowed).
  rewrite (bind_returned _ _ w2 w3 tt) by reflexivity.
  rewrite (bind_raised _ _ w3 w3 e) by (unfold lift; rewrite Hgen; reflexivity).
  exists w3. split; [|reflexivity].
  etransitivity; [exact Hq1|]. etransitivity; eassumption.
Qed.

End DiskPaths.

(** The helpers of [tasks.py] on a disk that accepts the log and the state. *)
Section DiskTasksAccepted.
Context (D : disk) (E : env) (P : event -> Prop) (HP : routine P).
Hypothesis logs_accepted : accepts_logs D.
Hypothesis states_accepted : accepts_states D.

Lemma disk_tasks_append_agent_log_runs (agent_id line : string) (w : world) :
  alive agent_id w -> fst (DiskTasks.append_agent_log D E agent_id line w) = inr tt.
Proof.
  intros Hw. unfold DiskTasks.append_agent_log.
  rewrite (disk_append_log_txt_accepted D E _ _ w logs_accepted).
  apply (tasks_append_agent_log_runs E agent_id line w Hw).
Qed.

Lemma disk_tasks_append_agent_log_starts (agent_id line : string) (w : world) :
  alive agent_id w ->
  fst (DiskTasks.append_agent_log D E agent_id line w) = inr tt
  /\ alive agent_id (snd (DiskTasks.append_agent_log D E agent_id line w)).
Proof.
  intros Hw. split; [apply disk_tasks_append_agent_log_runs, Hw|].
  eapply quiet_alive; [|exact Hw].
  apply (disk_tasks_append_agent_log_quiet D E any_event any_event_routine).
Qed.

Lemma disk_tasks_write_agent_state_runs (agent_id : string) (data : json) (w : world) :
  alive agent_id w -> fst (DiskTasks.write_agent_state D E agent_id data w) = inr tt.
Proof.
  intros Hw. unfold DiskTasks.write_agent_state.
  rewrite (disk_write_state_json_accepted D E _ _ w states_accepted).
  apply (tasks_write_agent_state_runs E agent_id data w Hw).
Qed.

Lemma disk_tasks_write_agent_state_quiet (agent_id : string) (data : json) :
  state_invariant data ->
  preserves (quiet P) (DiskTasks.write_agent_state D E agent_id data).
Proof.
  intros Hinv w. unfold DiskTasks.write_agent_state.
  rewrite (disk_write_state_json_accepted D E _ _ w states_accepted).
  apply (tasks_write_agent_state_quiet E P HP agent_id data Hinv).
Qed.

End DiskTasksAccepted.

(** ** C2: failures are recorded and raised again *)

(** The handler of [tasks.py] when the disk takes its two writes. *)
Lemma disk_tasks_on_failure_records (D : disk) (E : env) (agent_id : string) (e : exn)
      (w : world) :
  alive agent_id w ->
  D (WriteState agent_id (state_failed e)) w = None ->
  (forall text w0, D (AppendLog agent_id text) w0 = None) ->
  exists w',
    DiskTasks.on_failure D E agent_id e w = (inl e, w')
    /\ state_of agent_id w' = Some (Parsed (state_failed e)).
Proof.
  intros [d Hd] Hstate Hlogs.
  unfold DiskTasks.on_failure, DiskTasks.write_agent_state, DiskTasks.append_agent_log,
    Disk.write_state_json, Disk.append_log_txt, log_stamped, asctime, bind, raise.
  rewrite Hd, Hstate. cbn [commit fs clock journal].
  rewrite lookup_insert_eq, Hlogs.
  eexists. split; [reflexivity|].
  unfold state_of. cbn [commit fs]. rewrite lookup_insert_eq. reflexivity.
Qed.

(** C2, as corrected. On a disk whose operations may fail, while the job
    directory exists and the disk accepts the writes of [state.json] and the
    appends to [log.txt]: whatever exception [e] leaves the [try] block of
    [tasks.run_agent_background] - a failed write of [output.json] among
    them - the run writes [state.json] as [{status: "failed", progress: 0,
    error: str(e)}] and raises [e] again.  A missing [input.json] is such a
    failure, raised as [RuntimeError("input.json missing for agent <id>")],
    whose message is not empty; a model call that raises, after
    [input.json] was read, is another. *)
Theorem C2_failure_is_recorded_and_raised (D : disk) (E : env) (agent_id : string)
        (w : world) :
  alive agent_id w ->
  accepts_logs D ->
  accepts_states D ->
  let body := DiskTasks.run_body D E agent_id in
  (forall e w1,
      body w = (inl e, w1) ->
      exists w',
        DiskTasks.run_agent_background D E agent_id w = (inl e, w')
        /\ state_of agent_id w' = Some (Parsed (state_failed e))
        /\ status_of (state_of agent_id w') = Some (JStr "failed")
        /\ field_of "error" (state_of agent_id w') = Some (JStr (exn_msg e)))
  /\ (input_of agent_id w = None ->
      exn_cls (missing_input agent_id) = RuntimeError
      /\ exn_msg (missing_input agent_id) <> ""
      /\ exists w1, body w = (inl (missing_input agent_id), w1))
  /\ (forall fields prompt e,
         input_of agent_id w = Some (Parsed (JObj fields)) ->
         (forall w0, D (ReadInput agent_id) w0 = None) ->
         build_prompt E (JObj fields) (flow_result E fields) = inr prompt ->
         Tasks.call_ollama E prompt = inl e ->
         exists w1, body w = (inl e, w1)).
Proof.
  intros Hw Hlogs Hstates body. pose proof any_event_routine as HP.
  assert (Hstart :
            input_of agent_id w = None \/ (forall w0, D (ReadInput agent_id) w0 = None) ->
            exists w2,
              quiet any_event w w2 /\ alive agent_id w2
              /\ DiskTasks.build_out D E agent_id w
                 = Disk.out_of_input E (DiskTasks.append_agent_log D E) (Tasks.call_ollama E)
                                     agent_id (input_of agent_id w) w2).
  { intros Hread. apply (disk_build_out_start D E _ _ _ any_event alive); [| | | | |exact Hw|exact Hread].
    - intros a w0 Ha. exact Ha.
    - intros a line. apply disk_tasks_append_agent_log_quiet, HP.
    - intros a data. apply disk_tasks_write_agent_state_quiet; assumption.
    - intros a line w0. apply disk_tasks_append_agent_log_starts, Hlogs.
    - intros a data w0. apply disk_tasks_write_agent_state_runs, Hstates. }
  split; [|split].
  - intros e w1 Hbody.
    assert (Hw1 : alive agent_id w1).
    { pose proof (disk_tasks_run_body_confined D E agent_id w) as [Halive _].
      unfold body in Hbody. rewrite Hbody in Halive. apply Halive, Hw. }
    destruct (disk_tasks_on_failure_records D E agent_id e w1 Hw1 (Hstates _ _ _)
                (fun text w0 => Hlogs agent_id text w0))
      as (w' & Hhandler & Hstate).
    exists w'. split.
    + unfold DiskTasks.run_agent_background.
      rewrite (try_except_raised _ _ _ _ _ Hbody). exact Hhandler.
    + rewrite Hstate. repeat split; reflexivity.
  - intros Hin. split; [reflexivity|]. split; [discriminate|].
    destruct (Hstart (or_introl Hin)) as (w2 & Hq2 & Hw2 & Hbuild).
    exists w2. unfold body, DiskTasks.run_body, Disk.run_body.
    apply bind_raised. fold (DiskTasks.build_out D E agent_id).
    rewrite Hbuild, Hin. reflexivity.
  - intros fields prompt e Hin Hread Hprompt Hgen.
    destruct (Hstart (or_intror Hread)) as (w2 & Hq2 & Hw2 & Hbuild).
    destruct (disk_out_of_payload_model_raises E (DiskTasks.append_agent_log D E)
                (Tasks.call_ollama E) any_event HP (fun _ => I)
                (fun a line => disk_tasks_append_agent_log_quiet D E any_event HP a line)
                (fun a line w0 => disk_tasks_append_agent_log_runs D E Hlogs a line w0)
                agent_id fields prompt e w2 Hw2 Hprompt Hgen)
      as (w3 & _ & Hraise).
    exists w3. unfold body, DiskTasks.run_body, Disk.run_body.
    apply bind_raised. fold (DiskTasks.build_out D E agent_id).
    rewrite Hbuild, Hin. unfold Disk.out_of_input.
    rewrite (bind_returned _ _ w2 w2 (JObj fields)) by reflexivity.
    exact Hraise.
Qed.

Lemma C2_witness :
  exists w',
    DiskTasks.run_agent_background sound_disk Samples.env_null "bare" Samples.world_jobs
    = (inl (missing_input "bare"), w')
    /\ state_of "bare" w' = Some (Parsed (state_failed (missing_input "bare")))
    /\ status_of (state_of "bare" w') = Some (JStr "failed")
    /\ field_of "error" (state_of "bare" w')
       = Some (JStr "input.json missing for agent bare").
Proof.
  assert (Hw : alive "bare" Samples.world_jobs) by (eexists; reflexivity).
  destruct (C2_failure_is_recorded_and_raised sound_disk Samples.env_null "bare"
              Samples.world_jobs Hw (fun _ _ _ => eq_refl) (fun _ _ _ => eq_refl))
    as (Hrecorded & Hmissing & _).
  destruct Hmissing as (_ & _ & w1 & Hbody); [reflexivity|].
  exact (Hrecorded _ _ Hbody).
Defined.

(** The claim as worded fails when the job directory itself is missing:
    [input.json] is absent, the run raises, and no [state.json] is written.
    It fails, with the directory in place, when the exception carries no
    message: the error string recorded is empty.  And it fails when the disk
    refuses the handler's write of [state.json]: the [try] block raises for
    the missing input, the run raises the error of the disk instead, and
    [state.json] still says "running". *)
Lemma C2_counterexample :
  (input_of "ghost" Samples.world_prompt = None
   /\ (exists e, fst (DiskTasks.run_agent_background sound_disk Samples.env_null "ghost"
                                                     Samples.world_prompt) = inl e)
   /\ state_of "ghost" (snd (DiskTasks.run_agent_background sound_disk Samples.env_null
                                                            "ghost" Samples.world_prompt))
      = None)
  /\ (fst (DiskTasks.run_agent_background sound_disk Samples.env_silent "a1"
                                          Samples.world_prompt)
      = inl (Exn RequestException "")
      /\ field_of "error"
           (state_of "a1" (snd (DiskTasks.run_agent_background sound_disk Samples.env_silent
                                                               "a1" Samples.world_prompt)))
         = Some (JStr ""))
  /\ (fst (DiskTasks.run_body (Samples.disk_refuses_status "failed") Samples.env_null "bare"
                              Samples.world_jobs)
      = inl (missing_input "bare")
      /\ fst (DiskTasks.run_agent_background (Samples.disk_refuses_status "failed")
                                             Samples.env_null "bare" Samples.world_jobs)
         = inl Samples.no_space
      /\ state_of "bare"
                  (snd (DiskTasks.run_agent_background (Samples.disk_refuses_status "failed")
                                                       Samples.env_null "bare"
                                                       Samples.world_jobs))
         = Some (Parsed state_running)).
Proof.
  split; [split; [reflexivity|split; [eexists|]]|split; [split|split; [|split]]];
    vm_compute; reflexivity.
Qed.

(** ** C4: an adapter that does not exist, and the two adapter keys *)

#[export] Instance grows_preorder (P : event -> Prop) : PreOrder (grows P).
Proof. split; [intros w; apply grows_refl | intros w1 w2 w3; apply grows_trans]. Qed.

Lemma preserves_undisturbed_grows {A : Type} (P : event -> Prop) (m : M A) :
  preserves (undisturbed P) m -> preserves (grows P) m.
Proof. intros H w. destruct (H w) as (_ & _ & _ & G). exact G. Qed.

Lemma disk_write_output_json_grows (D : disk) (E : env) (P : event -> Prop)
      (agent_id : string) (out : json) :
  P (OutputWritten agent_id out) ->
  preserves (grows P) (Disk.write_output_json D E agent_id out).
Proof.
  intros Hev w. unfold Disk.write_output_json.
  destruct (fs w !! agent_id) as [d|]; [|reflexivity].
  destruct (D (WriteOutput agent_id out) w) as [[e|e partial]|]; cbn [snd].
  - reflexivity.
  - exists []. split; [symmetry; apply app_nil_r | constructor].
  - exists [OutputWritten agent_id out]. split; [reflexivity | repeat constructor; exact Hev].
Qed.

(** An append that returns found the directory. *)
Lemma disk_tasks_append_agent_log_returns (D : disk) (E : env) (agent_id line : string) :
  hoare (fun _ => True) (DiskTasks.append_agent_log D E agent_id line)
        (fun _ => alive agent_id).
Proof.
  intros w u w' _ Hrun.
  pose proof (disk_tasks_append_agent_log_quiet D E any_event any_event_routine
                agent_id line w) as Hq.
  rewrite Hrun in Hq. eapply quiet_alive; [exact Hq|].
  unfold DiskTasks.append_agent_log, Disk.append_log_txt in Hrun.
  destruct (fs w !! agent_id) as [d|] eqn:Hd; [eexists; exact Hd | discriminate].
Qed.

Section DiskOutcome.
Context (D : disk) (E : env).
Variable append_agent_log : string -> string -> M unit.
Variable write_agent_state : string -> json -> M unit.
Variable call_ollama : json -> exn + json.
Context (P : event -> Prop) (HP : routine P).
Variable agent_id : string.

Hypothesis prompts_allowed : forall prompt, P (OllamaCalled prompt).
Hypothesis append_agent_log_quiet :
  forall agent_id line, preserves (quiet P) (append_agent_log agent_id line).
Hypothesis write_agent_state_undisturbed :
  forall agent_id data,
    state_invariant data -> preserves (undisturbed P) (write_agent_state agent_id data).
Hypothesis append_agent_log_runs :
  forall agent_id line w,
    alive agent_id w -> fst (append_agent_log agent_id line w) = inr tt.
Hypothesis append_agent_log_returns :
  forall line, hoare (fun _ => True) (append_agent_log agent_id line)
                     (fun _ => alive agent_id).

Ltac alive_step :=
  first
    [ apply (hoare_preserves (quiet P));
      [ first [ apply log_stamped_quiet; exact append_agent_log_quiet
              | apply flowise_step_quiet; [exact HP | exact append_agent_log_quiet]
              | apply asctime_quiet
              | apply emit_quiet; apply prompts_allowed
              | apply preserves_lift; solve [typeclasses eauto]
              | apply disk_find_input_same; solve [typeclasses eauto] ]
      | intros ? ?; apply quiet_alive ]
    | apply (hoare_preserves (undisturbed P));
      [ apply write_agent_state_undisturbed, state_running_invariant
      | intros ? ?; apply undisturbed_alive ] ].

(** When the statements before the write return, the [out] dict carries at
    most one of the two adapter keys. *)
Lemma disk_build_out_one_key :
  hoare (fun _ => True)
        (Disk.build_out D E append_agent_log write_agent_state call_ollama agent_id)
        (fun out _ => one_adapter_key (JObj out)).
Proof.
  unfold Disk.build_out.
  eapply hoare_bind with (Q1 := fun _ => alive agent_id).
  { unfold log_stamped.
    eapply hoare_bind with (Q1 := fun _ _ => True); [|intros t; apply append_agent_log_returns].
    intros w a w' _ _. exact I. }
  intros u0; cbv beta. eapply hoare_bind; [alive_step|intros u1; cbv beta].
  eapply hoare_bind; [alive_step|intros input; cbv beta].
  destruct input as [file|]; [|apply hoare_raise].
  unfold Disk.out_of_input, Disk.out_of_payload.
  eapply hoare_bind; [alive_step|intros payload; cbv beta].
  eapply hoare_bind; [alive_step|intros flow_out; cbv beta].
  eapply hoare_bind; [alive_step|intros prompt; cbv beta].
  eapply hoare_bind; [alive_step|intros ?; cbv beta].
  eapply hoare_bind; [alive_step|intros ?; cbv beta].
  eapply hoare_bind; [alive_step|intros gen; cbv beta].
  eapply hoare_bind; [alive_step|intros ?; cbv beta].
  eapply hoare_bind; [alive_step|intros completed_at; cbv beta].
  intros w out w' Hw Hrun.
  apply (adapter_outcome_one_key gen flow_out completed_at).
  pose proof (f_equal fst Hrun) as Hfst. cbn [fst] in Hfst.
  exact (adapter_step_outcome E append_agent_log P HP append_agent_log_quiet
                              append_agent_log_runs agent_id payload _ out w Hw Hfst).
Qed.

End DiskOutcome.

(** On a disk that accepts the appends to the log, no [output.json] that a
    run of [tasks.py] writes carries both adapter keys. *)
Lemma disk_tasks_run_outputs (D : disk) (E : env) (agent_id : string) (w : world) :
  accepts_logs D ->
  grows output_event_ok w (snd (DiskTasks.run_agent_background D E agent_id w)).
Proof.
  intros Hlogs. pose proof output_event_ok_routine as HP.
  assert (Hprompts : forall prompt, output_event_ok (OllamaCalled prompt))
    by (intros prompt; exact I).
  assert (Hlq : forall a line,
             preserves (quiet output_event_ok) (DiskTasks.append_agent_log D E a line))
    by (intros a line; apply disk_tasks_append_agent_log_quiet, HP).
  assert (Hsu : forall a data,
             state_invariant data ->
             preserves (undisturbed output_event_ok) (DiskTasks.write_agent_state D E a data))
    by (intros a data; apply disk_tasks_write_agent_state_undisturbed, HP).
  pose proof (build_out_undisturbed D E _ _ (Tasks.call_ollama E) output_event_ok HP
                Hprompts Hlq Hsu agent_id w) as Hbuild.
  pose proof (disk_build_out_one_key D E _ _ (Tasks.call_ollama E) output_event_ok HP agent_id
                Hprompts Hlq Hsu
                (fun a line w0 => disk_tasks_append_agent_log_runs D E Hlogs a line w0)
                (disk_tasks_append_agent_log_returns D E agent_id) w) as Hkey.
  unfold DiskTasks.run_agent_background, DiskTasks.run_body, Disk.run_body, try_except.
  fold (DiskTasks.build_out D E agent_id) in *. unfold bind at 1.
  destruct (DiskTasks.build_out D E agent_id w) as [[e1|out] w1] eqn:Hb;
    cbn [snd] in Hbuild.
  - transitivity w1; [destruct Hbuild as (_ & _ & _ & G); exact G|].
    apply preserves_undisturbed_grows. apply disk_tasks_on_failure_undisturbed, HP.
  - specialize (Hkey out w1 I eq_refl).
    assert (Hfinish : grows output_event_ok w1
                        (snd (Disk.finish D E (DiskTasks.append_agent_log D E)
                                          (DiskTasks.write_agent_state D E) agent_id out w1))).
    { unfold Disk.finish.
      apply preserves_bind; [typeclasses eauto | | intros _].
      - apply disk_write_output_json_grows. exact Hkey.
      - apply preserves_bind; [typeclasses eauto | | intros _].
        + apply preserves_undisturbed_grows, Hsu, state_completed_invariant.
        + apply preserves_undisturbed_grows, preserves_quiet_undisturbed,
            log_stamped_quiet, Hlq. }
    transitivity w1; [destruct Hbuild as (_ & _ & _ & G); exact G|].
    destruct (Disk.finish D E _ _ agent_id out w1) as [[e2|u] w2]; cbn [snd] in *;
      [|exact Hfinish].
    transitivity w2; [exact Hfinish|].
    apply preserves_undisturbed_grows. apply disk_tasks_on_failure_undisturbed, HP.
Qed.




(** * Further properties of the runner on a disk *)

(** X1. On a disk whose operations may fail, a run of
    [run_agent_background] on an agent id that is a plain directory name
    leaves the directory of every other job with such a name exactly as it
    was, in [tasks.py] and in [app.py], whatever the outcome. *)
Theorem X1_run_touches_only_its_job (D : disk) (E : env) (agent_id other : string)
        (w : world) :
  simple_name agent_id = true ->
  simple_name other = true ->
  other <> agent_id ->
  fs (snd (DiskTasks.run_agent_background D E agent_id w)) !! other = fs w !! other
  /\ fs (snd (DiskApp.run_agent_background D E agent_id w)) !! other = fs w !! other.
Proof.
  intros _ _ Hne. split.
  - destruct (disk_tasks_run_confined D E agent_id w) as [_ Hkept]. apply Hkept, Hne.
  - destruct (disk_app_run_confined D E agent_id w) as [_ Hkept]. apply Hkept, Hne.
Qed.

Lemma X1_witness :
  fs (snd (DiskTasks.run_agent_background Samples.disk_full_at_end Samples.env_flowise_down
                                          "flow" Samples.world_jobs))
     !! "bare" = Some Samples.dir_bare
  /\ fs (snd (DiskApp.run_agent_background Samples.disk_full_at_end Samples.env_flowise_down
                                           "flow" Samples.world_jobs))
        !! "bare" = Some Samples.dir_bare.
Proof.
  destruct (X1_run_touches_only_its_job Samples.disk_full_at_end Samples.env_flowise_down
              "flow" "bare" Samples.world_jobs) as [Ht Ha];
    [reflexivity | reflexivity | discriminate |].
  rewrite Ht, Ha. split; reflexivity.
Defined.

(** ** The handlers on a disk *)

#[export] Instance records_kept_preorder (agent_id : string) : PreOrder (records_kept agent_id).
Proof.
  split.
  - intros w. split; reflexivity.
  - intros w1 w2 w3 [S1 O1] [S2 O2]. split; [rewrite S2; exact S1 | rewrite O2; exact O1].
Qed.

Lemma disk_append_log_txt_records_kept (D : disk) (E : env) (agent_id text : string) :
  preserves (records_kept agent_id) (Disk.append_log_txt D E agent_id text).
Proof.
  intros w. unfold Disk.append_log_txt.
  destruct (fs w !! agent_id) as [d|] eqn:Hd; [|reflexivity].
  destruct (D (AppendLog agent_id text) w) as [[e|e partial]|]; cbn [snd];
    [reflexivity | |];
    unfold records_kept, state_of, output_of, damage, commit; cbn [fs];
    rewrite lookup_insert_eq, Hd; split; reflexivity.
Qed.

Lemma disk_ensure_agent_dir_records_kept (D : disk) (agent_id : string) :
  preserves (records_kept agent_id) (Disk.ensure_agent_dir D agent_id).
Proof.
  intros w. unfold Disk.ensure_agent_dir.
  destruct (fs w !! agent_id) as [d|] eqn:Hd; [reflexivity|].
  destruct (D (MakeDir agent_id) w) as [[e|e partial]|]; cbn [snd];
    [reflexivity | reflexivity |].
  unfold records_kept, state_of, output_of, commit; cbn [fs].
  rewrite lookup_insert_eq, Hd. split; reflexivity.
Qed.

Lemma disk_logging_append_agent_log_records_kept (D : disk) (E : env)
      (agent_id message : string) :
  preserves (records_kept agent_id) (DiskLogging.append_agent_log D E agent_id message).
Proof.
  unfold DiskLogging.append_agent_log.
  apply preserves_bind; [typeclasses eauto | | intros _].
  - apply disk_ensure_agent_dir_records_kept.
  - apply disk_append_log_txt_records_kept.
Qed.

Lemma asctime_records_kept (E : env) (agent_id : string) :
  preserves (records_kept agent_id) (asctime E).
Proof. intros w. split; reflexivity. Qed.

(** A state write that returns has written. *)
Lemma disk_write_state_json_returns (D : disk) (E : env) (agent_id : string) (data : json) :
  hoare (fun _ => True) (Disk.write_state_json D E agent_id data)
        (fun _ w' => alive agent_id w' /\ state_of agent_id w' = Some (Parsed data)).
Proof.
  intros w u w' _ Hrun. unfold Disk.write_state_json in Hrun.
  destruct (fs w !! agent_id) as [d|] eqn:Hd; [|discriminate].
  destruct (D (WriteState agent_id data) w) as [[e|e partial]|]; try discriminate.
  injection Hrun as Hw'. subst w'. split.
  - exists (with_state (Parsed data) d). apply lookup_insert_eq.
  - unfold state_of, commit. cbn [fs]. rewrite lookup_insert_eq. reflexivity.
Qed.

Lemma disk_logging_write_agent_state_returns (D : disk) (E : env) (agent_id : string)
      (data : json) :
  hoare (fun _ => True) (DiskLogging.write_agent_state D E agent_id data)
        (fun _ w' => alive agent_id w' /\ state_of agent_id w' = Some (Parsed data)).
Proof.
  unfold DiskLogging.write_agent_state.
  eapply hoare_bind with (Q1 := fun _ _ => True).
  - intros w u w' _ _. exact I.
  - intros u. apply disk_write_state_json_returns.
Qed.

(** What is left of the handler of [app.py] once the state is written. *)
Lemma disk_app_report_raises (D : disk) (E : env) (agent_id : string) (e : exn) (w : world) :
  let report := log_stamped E (DiskLogging.append_agent_log D E) agent_id
                            ("Agent failed: " +:+ exn_msg e) ;;
                @raise unit e in
  records_kept agent_id w (snd (report w))
  /\ (exists raised, fst (report w) = inl raised)
  /\ (accepts_dirs D -> accepts_logs D -> fst (report w) = inl e).
Proof.
  intros report. split; [|split].
  - apply preserves_bind; [typeclasses eauto | | intros _].
    + apply (log_stamped_kept E _ agent_id (records_kept agent_id)).
      * intros line. apply disk_logging_append_agent_log_records_kept.
      * apply asctime_records_kept.
    + apply preserves_raise. typeclasses eauto.
  - unfold report, bind.
    destruct (log_stamped E _ agent_id _ w) as [[e2|u] w1]; eexists; reflexivity.
  - intros Hdirs Hlogs. unfold report.
    assert (Hlog : fst (log_stamped E (DiskLogging.append_agent_log D E) agent_id
                                    ("Agent failed: " +:+ exn_msg e) w) = inr tt).
    { unfold log_stamped.
      rewrite (bind_returned _ _ w (snd (asctime E w)) (asctime_at E (clock w)))
        by reflexivity.
      rewrite (disk_logging_append_agent_log_accepted D E _ _ _ Hdirs Hlogs).
      apply logging_append_agent_log_runs. }
    rewrite (bind_run _ _ _ _ Hlog). reflexivity.
Qed.

(** The handler of [app.py] when its write of [state.json] goes through. *)
Lemma disk_app_on_failure_records (D : disk) (E : env) (agent_id : string) (e : exn)
      (w1 : world) :
  fst (DiskLogging.write_agent_state D E agent_id (state_failed e) w1) = inr tt ->
  state_of agent_id (snd (DiskApp.on_failure D E agent_id e w1))
  = Some (Parsed (state_failed e))
  /\ (exists raised, fst (DiskApp.on_failure D E agent_id e w1) = inl raised)
  /\ (accepts_dirs D -> accepts_logs D ->
      fst (DiskApp.on_failure D E agent_id e w1) = inl e).
Proof.
  intros Hwrite. unfold DiskApp.on_failure.
  destruct (DiskLogging.write_agent_state D E agent_id (state_failed e) w1)
    as [[e2|[]] w2] eqn:Hw; [discriminate|].
  destruct (disk_logging_write_agent_state_returns D E agent_id _ w1 tt w2 I Hw)
    as [_ Hstate].
  rewrite (bind_returned _ _ w1 w2 tt) by (unfold try_except; rewrite Hw; reflexivity).
  destruct (disk_app_report_raises D E agent_id e w2) as ([Hkept _] & Hraised & Hsame).
  split; [rewrite Hkept; exact Hstate|]. split; assumption.
Qed.

(** The handler of [app.py] raises, whatever the disk does. *)
Lemma disk_app_on_failure_raises (D : disk) (E : env) (agent_id : string) (e : exn)
      (w1 : world) :
  exists raised, fst (DiskApp.on_failure D E agent_id e w1) = inl raised.
Proof.
  unfold DiskApp.on_failure.
  assert (Hrecord : exists w2,
             try_except (DiskLogging.write_agent_state D E agent_id (state_failed e))
                        (fun _ => ret tt) w1 = (inr tt, w2)).
  { unfold try_except.
    destruct (DiskLogging.write_agent_state D E agent_id (state_failed e) w1)
      as [[e2|[]] w2]; eexists; reflexivity. }
  destruct Hrecord as [w2 Hrecord]. rewrite (bind_returned _ _ w1 w2 tt Hrecord).
  destruct (disk_app_report_raises D E agent_id e w2) as (_ & Hraised & _). exact Hraised.
Qed.

(** X5. In [app.py] on a disk whose operations may fail: when the [try]
    block raises [e] and the handler's write of [state.json] goes through -
    the directory need not have existed if [mkdir] succeeds - [state.json]
    afterwards is [{status: "failed", progress: 0, error: str(e)}] whatever
    becomes of the log append that follows, and the run raises; it raises
    [e] itself when the disk accepts [mkdir] and the appends to the log. *)
Theorem X5_app_records_failure (D : disk) (E : env) (agent_id : string) (e : exn)
        (w w1 : world) :
  DiskApp.run_body D E agent_id w = (inl e, w1) ->
  fst (DiskLogging.write_agent_state D E agent_id (state_failed e) w1) = inr tt ->
  state_of agent_id (snd (DiskApp.run_agent_background D E agent_id w))
  = Some (Parsed (state_failed e))
  /\ (exists raised, fst (DiskApp.run_agent_background D E agent_id w) = inl raised)
  /\ (accepts_dirs D -> accepts_logs D ->
      fst (DiskApp.run_agent_background D E agent_id w) = inl e).
Proof.
  intros Hbody Hwrite.
  unfold DiskApp.run_agent_background. rewrite (try_except_raised _ _ _ _ _ Hbody).
  apply disk_app_on_failure_records, Hwrite.
Qed.

Lemma X5_witness :
  state_of "ghost" (snd (DiskApp.run_agent_background sound_disk Samples.env_null "ghost"
                                                      Samples.world_prompt))
  = Some (Parsed (state_failed (missing_input "ghost"))).
Proof.
  apply (X5_app_records_failure sound_disk Samples.env_null "ghost" (missing_input "ghost")
           Samples.world_prompt
           (snd (DiskApp.run_body sound_disk Samples.env_null "ghost" Samples.world_prompt)));
    vm_compute; reflexivity.
Defined.

(** X6. In [tasks.py] the handler's own failure hides the failure of the
    job: when the [try] block raises [e1], the job directory exists and the
    disk refuses the handler's write of [state.json] with [e2], the run
    raises [e2] in place of [e1] and stops there - no failure is recorded and
    no log line is written, the job store is as the [try] block left it. *)
Theorem X6_tasks_refused_record_hides_failure (D : disk) (E : env) (agent_id : string)
        (e1 e2 : exn) (w w1 : world) :
  alive agent_id w ->
  DiskTasks.run_body D E agent_id w = (inl e1, w1) ->
  D (WriteState agent_id (state_failed e1)) w1 = Some (Refused e2) ->
  DiskTasks.run_agent_background D E agent_id w = (inl e2, w1).
Proof.
  intros Hw Hbody Hrefused.
  assert (Hw1 : alive agent_id w1).
  { pose proof (disk_tasks_run_body_confined D E agent_id w) as [Halive _].
    rewrite Hbody in Halive. apply Halive, Hw. }
  destruct Hw1 as [d Hd].
  unfold DiskTasks.run_agent_background. rewrite (try_except_raised _ _ _ _ _ Hbody).
  unfold DiskTasks.on_failure, DiskTasks.write_agent_state, Disk.write_state_json, bind.
  rewrite Hd, Hrefused. reflexivity.
Qed.

Lemma X6_witness :
  DiskTasks.run_agent_background (Samples.disk_refuses_status "failed") Samples.env_null
                                 "bare" Samples.world_jobs
  = (inl Samples.no_space,
     snd (DiskTasks.run_body (Samples.disk_refuses_status "failed") Samples.env_null
                             "bare" Samples.world_jobs)).
Proof.
  apply (X6_tasks_refused_record_hides_failure
           (Samples.disk_refuses_status "failed") Samples.env_null "bare"
           (missing_input "bare") Samples.no_space Samples.world_jobs).
  - eexists. reflexivity.
  - vm_compute. reflexivity.
  - vm_compute. reflexivity.
Defined.

(** ** A job of [app.py] without [input.json], on a disk *)

Lemma disk_append_log_txt_returns (D : disk) (E : env) (agent_id text : string) :
  hoare (fun _ => True) (Disk.append_log_txt D E agent_id text) (fun _ => alive agent_id).
Proof.
  intros w u w' _ Hrun.
  pose proof (disk_append_log_txt_quiet D E any_event any_event_routine agent_id text w)
    as Hq.
  rewrite Hrun in Hq. eapply quiet_alive; [exact Hq|].
  unfold Disk.append_log_txt in Hrun.
  destruct (fs w !! agent_id) as [d|] eqn:Hd; [eexists; exact Hd | discriminate].
Qed.

Section DiskLoggingAccepted.
Context (D : disk) (E : env) (P : event -> Prop) (HP : routine P).
Hypothesis dirs_accepted : accepts_dirs D.
Hypothesis logs_accepted : accepts_logs D.
Hypothesis states_accepted : accepts_states D.

Lemma disk_logging_append_agent_log_runs (agent_id message : string) (w : world) :
  fst (DiskLogging.append_agent_log D E agent_id message w) = inr tt.
Proof.
  rewrite (disk_logging_append_agent_log_accepted D E _ _ w dirs_accepted logs_accepted).
  apply logging_append_agent_log_runs.
Qed.

Lemma disk_logging_append_agent_log_starts (agent_id message : string) (w : world) :
  fst (DiskLogging.append_agent_log D E agent_id message w) = inr tt
  /\ alive agent_id (snd (DiskLogging.append_agent_log D E agent_id message w)).
Proof.
  pose proof (disk_logging_append_agent_log_runs agent_id message w) as Hruns.
  split; [exact Hruns|].
  destruct (DiskLogging.append_agent_log D E agent_id message w) as [[e|[]] w'] eqn:Hrun;
    [discriminate|].
  unfold DiskLogging.append_agent_log in Hrun.
  apply bind_returns_inv in Hrun as (u & w1 & _ & Happend).
  exact (disk_append_log_txt_returns D E agent_id _ w1 tt w' I Happend).
Qed.

Lemma disk_logging_write_agent_state_runs (agent_id : string) (data : json) (w : world) :
  fst (DiskLogging.write_agent_state D E agent_id data w) = inr tt.
Proof.
  rewrite (disk_logging_write_agent_state_accepted D E _ _ w dirs_accepted states_accepted).
  apply logging_write_agent_state_runs.
Qed.

Lemma disk_logging_write_agent_state_quiet (agent_id : string) (data : json) :
  state_invariant data ->
  preserves (quiet P) (DiskLogging.write_agent_state D E agent_id data).
Proof.
  intros Hinv w.
  rewrite (disk_logging_write_agent_state_accepted D E _ _ w dirs_accepted states_accepted).
  apply (logging_write_agent_state_quiet E P HP agent_id data Hinv).
Qed.

End DiskLoggingAccepted.

(** X7. In [app.py], on a disk that accepts [mkdir], the writes of
    [state.json] and the appends to [log.txt]: a run on a job without
    [input.json] - its directory need not exist - raises
    [RuntimeError("input.json missing for agent <id>")]; afterwards the
    directory exists, [state.json] records the failure with that message,
    and [output.json] is as it was. *)
Theorem X7_app_missing_input_is_recorded (D : disk) (E : env) (agent_id : string)
        (w : world) :
  accepts_dirs D ->
  accepts_logs D ->
  accepts_states D ->
  input_of agent_id w = None ->
  exists w',
    DiskApp.run_agent_background D E agent_id w = (inl (missing_input agent_id), w')
    /\ alive agent_id w'
    /\ state_of agent_id w' = Some (Parsed (state_failed (missing_input agent_id)))
    /\ field_of "error" (state_of agent_id w')
       = Some (JStr ("input.json missing for agent " +:+ agent_id))
    /\ output_of agent_id w' = output_of agent_id w.
Proof.
  intros Hdirs Hlogs Hstates Hin. pose proof any_event_routine as HP.
  destruct (disk_build_out_start D E (DiskLogging.append_agent_log D E)
              (DiskLogging.write_agent_state D E) (App.call_ollama E)
              any_event (fun _ _ => True)
              (fun _ _ _ => I)
              (fun a line => disk_logging_append_agent_log_quiet D E any_event HP a line)
              (fun a data => disk_logging_write_agent_state_quiet D E any_event HP
                               Hdirs Hstates a data)
              (fun a line w0 _ => disk_logging_append_agent_log_starts D E Hdirs Hlogs
                                    a line w0)
              (fun a data w0 _ => disk_logging_write_agent_state_runs D E Hdirs Hstates
                                    a data w0)
              agent_id w I (or_introl Hin))
    as (w2 & Hq2 & Hw2 & Hbuild).
  rewrite Hin in Hbuild. cbn [Disk.out_of_input] in Hbuild.
  assert (Hbody : DiskApp.run_body D E agent_id w = (inl (missing_input agent_id), w2)).
  { unfold DiskApp.run_body, Disk.run_body. apply bind_raised. exact Hbuild. }
  destruct (disk_app_on_failure_records D E agent_id (missing_input agent_id) w2
              (disk_logging_write_agent_state_runs D E Hdirs Hstates _ _ _))
    as (Hstate & _ & Hraised).
  specialize (Hraised Hdirs Hlogs).
  pose proof (disk_app_on_failure_undisturbed D E any_event agent_id
                (missing_input agent_id) HP w2) as (Halive & _ & Hout & _).
  destruct (DiskApp.on_failure D E agent_id (missing_input agent_id) w2) as [r w'] eqn:Hh.
  cbn [fst snd] in *. subst r.
  exists w'. split.
  { unfold DiskApp.run_agent_background. rewrite (try_except_raised _ _ _ _ _ Hbody).
    exact Hh. }
  split; [apply Halive, Hw2|]. split; [exact Hstate|]. split; [rewrite Hstate; reflexivity|].
  rewrite Hout. destruct Hq2 as [_ Hout2]. apply Hout2.
Qed.

Lemma X7_witness :
  exists w',
    DiskApp.run_agent_background sound_disk Samples.env_null "ghost" Samples.world_prompt
    = (inl (missing_input "ghost"), w')
    /\ alive "ghost" w'
    /\ state_of "ghost" w' = Some (Parsed (state_failed (missing_input "ghost")))
    /\ field_of "error" (state_of "ghost" w')
       = Some (JStr "input.json missing for agent ghost")
    /\ output_of "ghost" w' = output_of "ghost" Samples.world_prompt.
Proof.
  apply (X7_app_missing_input_is_recorded sound_disk Samples.env_null "ghost"
           Samples.world_prompt (fun _ _ => eq_refl) (fun _ _ _ => eq_refl)
           (fun _ _ _ => eq_refl)).
  reflexivity.
Defined.

(** ** The thread behind [POST /run], on a disk *)

Lemma disk_write_output_json_returns (D : disk) (E : env) (agent_id : string) (out : json) :
  hoare (fun _ => True) (Disk.write_output_json D E agent_id out)
        (fun _ w' => output_of agent_id w' = Some (Parsed out)).
Proof.
  intros w u w' _ Hrun. unfold Disk.write_output_json in Hrun.
  destruct (fs w !! agent_id) as [d|] eqn:Hd; [|discriminate].
  destruct (D (WriteOutput agent_id out) w) as [[e|e partial]|]; try discriminate.
  injection Hrun as Hw'. subst w'.
  unfold output_of, commit. cbn [fs]. rewrite lookup_insert_eq. reflexivity.
Qed.

(** The last three statements of [app.py], when they return. *)
Lemma disk_app_finish_completes (D : disk) (E : env) (agent_id : string)
      (out : list (string * json)) :
  hoare (fun _ => True)
        (Disk.finish D E (DiskLogging.append_agent_log D E)
                     (DiskLogging.write_agent_state D E) agent_id out)
        (fun _ w' => job_completed agent_id w').
Proof.
  unfold Disk.finish.
  eapply hoare_bind; [apply disk_write_output_json_returns|intros u1; cbv beta].
  eapply hoare_bind with
    (Q1 := fun _ w' => state_of agent_id w' = Some (Parsed state_completed)
                       /\ output_of agent_id w' = Some (Parsed (JObj out))).
  - intros w u w' Hout Hrun. split.
    + apply (disk_logging_write_agent_state_returns D E agent_id _ w u w' I Hrun).
    + pose proof (disk_logging_write_agent_state_undisturbed
                    D E any_event any_event_routine agent_id state_completed
                    state_completed_invariant w) as (_ & _ & Hkept & _).
      rewrite Hrun in Hkept. cbn [snd] in Hkept. rewrite Hkept. exact Hout.
  - intros u2. cbv beta. intros w u w' [Hstate Hout] Hrun.
    pose proof (log_stamped_kept E (DiskLogging.append_agent_log D E) agent_id
                  (records_kept agent_id)
                  (disk_logging_append_agent_log_records_kept D E agent_id)
                  (asctime_records_kept E agent_id) "Agent completed" w) as [Hs Ho].
    rewrite Hrun in Hs, Ho. cbn [snd] in Hs, Ho.
    split; [rewrite Hs; exact Hstate | exists out; rewrite Ho; exact Hout].
Qed.

Lemma disk_app_run_returns (D : disk) (E : env) (agent_id : string) (w w' : world) :
  DiskApp.run_agent_background D E agent_id w = (inr tt, w') ->
  job_completed agent_id w'.
Proof.
  intros Hrun. unfold DiskApp.run_agent_background, try_except in Hrun.
  destruct (DiskApp.run_body D E agent_id w) as [[e|[]] w1] eqn:Hbody.
  - destruct (disk_app_on_failure_raises D E agent_id e w1) as [raised Hraised].
    rewrite Hrun in Hraised. discriminate.
  - injection Hrun as <-.
    unfold DiskApp.run_body, Disk.run_body in Hbody.
    apply bind_returns_inv in Hbody as (out & w0 & _ & Hfinish).
    exact (disk_app_finish_completes D E agent_id out w0 tt w1 I Hfinish).
Qed.

(** X17. On a disk whose operations may fail, the thread that
    [server.run_agent] starts ends without raising.  For an id that is a
    string, either the job returned, and [state.json] says "completed" with
    an [output.json] object beside it; or the [try] block raised some [e],
    and if the handler's write of [state.json] went through, [state.json]
    says "failed" with the message of [e].  For an id that is not a string -
    the view answers 202 for any truthy one - nothing at all is written. *)
Theorem X17_server_thread_outcome (D : disk) (E : env) (agent_id : json) (w : world) :
  exists w',
    DiskServer._run D E agent_id w = (inr tt, w')
    /\ match agent_id with
       | JStr id =>
           (DiskApp.run_agent_background D E id w = (inr tt, w')
            /\ job_completed id w')
           \/ (exists e w1,
                  DiskApp.run_body D E id w = (inl e, w1)
                  /\ (fst (DiskLogging.write_agent_state D E id (state_failed e) w1)
                      = inr tt ->
                      state_of id w' = Some (Parsed (state_failed e))))
       | _ => w' = w
       end.
Proof.
  destruct agent_id as [| b | z | f | id | items | fields];
    try (exists w; split; reflexivity).
  unfold DiskServer._run, try_except.
  destruct (DiskApp.run_agent_background D E id w) as [[e|[]] w'] eqn:Hrun; exists w'.
  - split; [reflexivity|]. right.
    unfold DiskApp.run_agent_background, try_except in Hrun.
    destruct (DiskApp.run_body D E id w) as [[e1|[]] w1] eqn:Hbody; [|discriminate].
    exists e1, w1. split; [reflexivity|]. intros Hwrite.
    destruct (disk_app_on_failure_records D E id e1 w1 Hwrite) as (Hstate & _).
    rewrite Hrun in Hstate. exact Hstate.
  - split; [reflexivity|]. left. split; [reflexivity|].
    exact (disk_app_run_returns D E id w w' Hrun).
Qed.
